(** * oci-oke-node-inspector: quantity parsing, usage bands, aggregation
      and the filter/sort pipeline of [oci_oke_node_inspector.py]

    The development embeds the pure core of the script:
    - [parse_cpu], [parse_memory]           (quantity strings to integers),
    - [get_color_for_usage]                 (usage band of a percentage),
    - [get_node_metrics]                    (per-node record assembly),
    - the ratio expressions of [print_node_details] and [print_summary],
    - the filter and sort stages of [main],
    - [format_memory]                       (bytes to a display string),
    - the metrics adapter defined in [main] (raw response to metric items).

    Python values are modelled as follows.
    - [str]: a [string] whose characters are the code points below 256.
    - [int]: [Z] (Python integers are unbounded); [int(s)] refuses a
      literal of more than 4300 digits, the interpreter's default limit.
    - [float]: [spec_float] at binary64 ([prec = 53], [emax = 1024]),
      with the operations of the IEEE 754 specification of the standard
      library ([SFdiv], [SFmul]).
    - exceptions: an error result [Raise e].
    - objects of the cluster client: records; an attribute the script
      reads without a guard and that the client may leave [None] is an
      [option], and reading through it raises as in Python. *)

From Stdlib Require Import ZArith Ascii String DecimalString DecimalPos.
From Stdlib Require Import Floats.SpecFloat.
From stdpp Require Import gmap strings list sorting.

Local Open Scope Z_scope.

(** ** Exceptions and the error monad *)

Inductive exn : Set :=
| ValueError
| ZeroDivisionError
| OverflowError
| AttributeError
| TypeError
| ApiException.

Inductive result (A : Type) : Type :=
| Ok (a : A)
| Raise (e : exn).

Arguments Ok {A} a.
Arguments Raise {A} e.

Definition bind {A B : Type} (r : result A) (k : A -> result B) : result B :=
  match r with
  | Ok a => k a
  | Raise e => Raise e
  end.

Notation "x <- r ;; k" := (bind r (fun x => k))
  (at level 100, r at next level, right associativity, only parsing).

Fixpoint mapM {A B : Type} (f : A -> result B) (l : list A) : result (list B) :=
  match l with
  | [] => Ok []
  | x :: l' => y <- f x ;; ys <- mapM f l' ;; Ok (y :: ys)
  end.

Fixpoint filterM {A : Type} (p : A -> result bool) (l : list A) : result (list A) :=
  match l with
  | [] => Ok []
  | x :: l' => b <- p x ;; ys <- filterM p l' ;; Ok (if b then x :: ys else ys)
  end.

(** ** Python strings *)

Module Str.

Definition chars : string -> list ascii := list_ascii_of_string.
Definition of_chars : list ascii -> string := string_of_list_ascii.

Definition code (c : ascii) : N := N_of_ascii c.

(** The characters [str.strip()] removes: [str.isspace] on code points
    below 256. *)
Definition isspace (c : ascii) : bool :=
  let n := code c in
  ((9 <=? n) && (n <=? 13) || (28 <=? n) && (n <=? 32)
   || (n =? 133) || (n =? 160))%N.

Fixpoint drop_while (p : ascii -> bool) (s : list ascii) : list ascii :=
  match s with
  | [] => []
  | c :: r => if p c then drop_while p r else s
  end.

Definition lstrip (s : list ascii) : list ascii := drop_while isspace s.
Definition rstrip (s : list ascii) : list ascii := reverse (lstrip (reverse s)).

(** [s.strip()] *)
Definition strip (s : string) : string := of_chars (rstrip (lstrip (chars s))).

(** [s.endswith(suffix)]: the last [len(suffix)] characters are [suffix]. *)
Definition endswith (s suffix : string) : bool :=
  let cs := chars s in
  let suf := chars suffix in
  (length suf <=? length cs)%nat
  && bool_decide (drop (length cs - length suf) cs = suf).

(** The slice [s[:-k]] for [k > 0]. *)
Definition drop_last (k : nat) (s : string) : string :=
  of_chars (take (length (chars s) - k) (chars s)).

End Str.

(** ** [int(s)] on a string, base 10 *)

Module PyInt.

Definition is_digit (c : ascii) : bool :=
  ((48 <=? Str.code c) && (Str.code c <=? 57))%N.

Definition digit_value (c : ascii) : Z := Z.of_N (Str.code c) - 48.

Definition is_underscore (c : ascii) : bool := (Str.code c =? 95)%N.

(** Whitespace [int] skips around the literal: the ASCII blanks, and the
    two code points in 128..255 that are Unicode spaces.  The separators
    28..31, which [strip] removes, are not among them. *)
Definition is_blank (c : ascii) : bool :=
  let n := Str.code c in
  ((9 <=? n) && (n <=? 13) || (n =? 32) || (n =? 133) || (n =? 160))%N.

(** The digit loop: digits with single underscores between them.
    [prev_us] records that the previous character was an underscore;
    the result is the value read and the unread rest. *)
Fixpoint scan_digits (prev_us : bool) (acc : Z) (s : list ascii)
  : option (Z * list ascii) :=
  match s with
  | [] => if prev_us then None else Some (acc, [])
  | c :: r =>
      if is_digit c then scan_digits false (10 * acc + digit_value c) r
      else if is_underscore c then
        if prev_us then None else scan_digits true acc r
      else if prev_us then None else Some (acc, s)
  end.

Definition split_sign (s : list ascii) : Z * list ascii :=
  match s with
  | c :: r =>
      if (Str.code c =? 43)%N then (1, r)
      else if (Str.code c =? 45)%N then (-1, r)
      else (1, s)
  | [] => (1, [])
  end.

(** The interpreter's default limit on the digits of a literal
    ([sys.int_info.default_max_str_digits]); the script does not change
    it.  Every digit counts, leading zeros too; the sign, underscores and
    blanks do not. *)
Definition max_str_digits : Z := 4300.

Definition digit_count (s : list ascii) : nat := length (List.filter is_digit s).

Definition read (s : list ascii) : result Z :=
  let '(sign, body) := split_sign (Str.drop_while is_blank s) in
  match body with
  | c :: _ =>
      if is_digit c then
        match scan_digits false 0 body with
        | Some (v, rest) =>
            if forallb is_blank rest then
              if Z.of_nat (digit_count body) <=? max_str_digits then Ok (sign * v)
              else Raise ValueError
            else Raise ValueError
        | None => Raise ValueError
        end
      else Raise ValueError
  | [] => Raise ValueError
  end.

(** [int(s)] *)
Definition int (s : string) : result Z := read (Str.chars s).

(** The string has no more digits than [int] accepts. *)
Definition within_limit (s : string) : Prop :=
  Z.of_nat (digit_count (Str.chars s)) <= max_str_digits.

End PyInt.

(** ** Quantity parsing *)

Definition parse_cpu (cpu_str : string) : result Z :=
  if Str.endswith cpu_str "n" then
    v <- PyInt.int (Str.drop_last 1 cpu_str) ;; Ok (v / 1000000)
  else if Str.endswith cpu_str "m" then
    PyInt.int (Str.drop_last 1 cpu_str)
  else
    v <- PyInt.int cpu_str ;; Ok (v * 1000).

Definition parse_memory (mem_str : string) : result Z :=
  let mem_str := Str.strip mem_str in
  if Str.endswith mem_str "Ki" then
    v <- PyInt.int (Str.drop_last 2 mem_str) ;; Ok (v * 1024)
  else if Str.endswith mem_str "Mi" then
    v <- PyInt.int (Str.drop_last 2 mem_str) ;; Ok (v * 1024 * 1024)
  else if Str.endswith mem_str "Gi" then
    v <- PyInt.int (Str.drop_last 2 mem_str) ;; Ok (v * 1024 * 1024 * 1024)
  else if Str.endswith mem_str "K" then
    v <- PyInt.int (Str.drop_last 1 mem_str) ;; Ok (v * 1000)
  else if Str.endswith mem_str "M" then
    v <- PyInt.int (Str.drop_last 1 mem_str) ;; Ok (v * 1000 * 1000)
  else if Str.endswith mem_str "G" then
    v <- PyInt.int (Str.drop_last 1 mem_str) ;; Ok (v * 1000 * 1000 * 1000)
  else
    PyInt.int mem_str.

(** ** Python numbers: [int], [float] and their mixed comparison *)

Module PyNum.

Definition prec : Z := 53.
Definition emax : Z := 1024.

Inductive num : Type :=
| Int (z : Z)
| Float (f : spec_float).

(** An [int] operand of the true division, as an exact binary number. *)
Definition int_operand (z : Z) : spec_float :=
  match z with
  | Z0 => S754_zero false
  | Zpos p => S754_finite false p 0
  | Zneg p => S754_finite true p 0
  end.

Definition is_finite (f : spec_float) : bool :=
  match f with
  | S754_zero _ | S754_finite _ _ _ => true
  | S754_infinity _ | S754_nan => false
  end.

(** [a / b] on two [int]s: the correctly rounded quotient;
    [ZeroDivisionError] for [b = 0], [OverflowError] when the quotient
    is beyond the largest float. *)
Definition truediv (a b : Z) : result spec_float :=
  if b =? 0 then Raise ZeroDivisionError
  else
    let q := SFdiv prec emax (int_operand a) (int_operand b) in
    if is_finite q then Ok q else Raise OverflowError.

(** [float(z)], as applied to the [int] operand of a mixed product. *)
Definition float_of_int (z : Z) : result spec_float :=
  let f := binary_normalize prec emax z 0 false in
  if is_finite f then Ok f else Raise OverflowError.

(** [x * k] for a [float] [x] and an [int] [k]; a product beyond the
    largest float is an infinity, not an exception. *)
Definition mul_int (x : spec_float) (k : Z) : result spec_float :=
  y <- float_of_int k ;; Ok (SFmul prec emax x y).

(** Numbers are compared by exact value, also across [int] and
    [float].  [XFin m e] stands for [m * 2^e]. *)
Inductive xreal : Type :=
| XNaN
| XInf (neg : bool)
| XFin (m e : Z).

Definition view (x : num) : xreal :=
  match x with
  | Int z => XFin z 0
  | Float (S754_zero _) => XFin 0 0
  | Float (S754_finite s m e) => XFin (if s then Zneg m else Zpos m) e
  | Float (S754_infinity s) => XInf s
  | Float S754_nan => XNaN
  end.

Definition fin_compare (m1 e1 m2 e2 : Z) : comparison :=
  let e := Z.min e1 e2 in
  (m1 * 2 ^ (e1 - e) ?= m2 * 2 ^ (e2 - e)).

Definition xcompare (a b : xreal) : option comparison :=
  match a, b with
  | XNaN, _ | _, XNaN => None
  | XInf s1, XInf s2 =>
      Some (match s1, s2 with
            | true, false => Lt
            | false, true => Gt
            | _, _ => Eq
            end)
  | XInf s, XFin _ _ => Some (if s then Lt else Gt)
  | XFin _ _, XInf s => Some (if s then Gt else Lt)
  | XFin m1 e1, XFin m2 e2 => Some (fin_compare m1 e1 m2 e2)
  end.

Definition compare (a b : num) : option comparison := xcompare (view a) (view b).

(** [a <= b] on the exact values, as a proposition. *)
Definition xle (a b : xreal) : Prop :=
  match xcompare a b with
  | Some Lt | Some Eq => True
  | _ => False
  end.

(** The numbers that [<] orders: all but NaN. *)
Definition ordered_num (k : num) : Prop := view k <> XNaN.

(** [a < b], [a <= b], [a > b], [a >= b]; all false on a NaN. *)
Definition lt (a b : num) : bool :=
  match compare a b with Some Lt => true | _ => false end.
Definition le (a b : num) : bool :=
  match compare a b with Some (Lt | Eq) => true | _ => false end.
Definition gt (a b : num) : bool :=
  match compare a b with Some Gt => true | _ => false end.
Definition ge (a b : num) : bool :=
  match compare a b with Some (Gt | Eq) => true | _ => false end.

End PyNum.

(** ** [list.sort(key=..., reverse=...)] *)

Module PyList.
Section Sort.
Context {A : Type} (ltb : A -> A -> bool).

(** Insertion in front of the first element that is not smaller:
    an element inserted later (one that came earlier in the input)
    stays ahead of its equals. *)
Fixpoint insert (x : A) (l : list A) : list A :=
  match l with
  | [] => [x]
  | y :: l' => if ltb y x then y :: insert x l' else x :: l
  end.

(** The stable ascending sort that uses only [<]. *)
Definition stable_sort (l : list A) : list A := foldr insert [] l.

(** With [reverse=True] the list is reversed, sorted and reversed
    again, which keeps equal elements in input order. *)
Definition sort_with (reverse_flag : bool) (l : list A) : list A :=
  if reverse_flag then reverse (stable_sort (reverse l)) else stable_sort l.
End Sort.

(** [l.sort(key=key, reverse=r)]: all keys are computed first (a key that
    raises aborts the sort), then the elements are ordered by their keys. *)
Definition sort {A K : Type} (key : A -> result K) (ltb : K -> K -> bool)
    (reverse_flag : bool) (l : list A) : result (list A) :=
  ks <- mapM (fun x => k <- key x ;; Ok (k, x)) l ;;
  Ok ((sort_with (fun a b => ltb a.1 b.1) reverse_flag ks).*2).

(** [sum(xs)] over integers. *)
Definition sum (xs : list Z) : Z := foldl Z.add 0 xs.
End PyList.

(** ** Data model *)

(** Node objects as the cluster client returns them.  The client leaves
    an attribute the server did not send [None].  The script guards the
    labels and the taints ([or {}], [or []]); it reads the capacity and
    allocatable maps with [.get] and iterates over the conditions without
    a guard, so these three are optional here as well.  A node is taken
    to have its [metadata] with a name, its [spec] and its [status]; a
    missing [status] fails where a missing capacity map does. *)
Record V1NodeCondition : Type := {
  condition_type : string;
  condition_status : string;
  condition_reason : option string
}.

Record V1Taint : Type := {
  v1_key : string;
  v1_effect : string;
  v1_value : option string
}.

Record V1Node : Type := {
  metadata_name : string;
  metadata_labels : option (gmap string string);
  spec_taints : option (list V1Taint);
  status_capacity : option (gmap string string);
  status_allocatable : option (gmap string string);
  status_conditions : option (list V1NodeCondition)
}.

(** One item of the metrics listing. *)
Record MetricItem : Type := {
  metric_name : string;
  metric_usage : gmap string string
}.

(** What the script reads from the cluster: the node list, the metrics
    list ([None] when the metrics call raised, whatever it raised) and,
    per node name, the pods scheduled on it.  The two calls of the core
    API raise what the client raises, an [ApiException] when the server
    answers with an error; [get_node_metrics] does not catch it. *)
Record Cluster : Type := {
  list_node : result (list V1Node);
  list_node_metrics : option (list MetricItem);
  list_pod_for_node : string -> result (list string)
}.

(** The dictionaries stored in [NodeMetrics.conditions] and [.taints]. *)
Record ConditionDict : Type := {
  cond_type : string;
  cond_status : string;
  cond_reason : string
}.

Record TaintDict : Type := {
  taint_key : string;
  taint_effect : string;
  taint_value : string
}.

Record NodeMetrics : Type := {
  name : string;
  cpu_usage : Z;
  cpu_capacity : Z;
  memory_usage : Z;
  memory_capacity : Z;
  pod_count : Z;
  pod_capacity : Z;
  status : string;
  labels : gmap string string;
  conditions : list ConditionDict;
  taints : list TaintDict
}.

(** ** [get_node_metrics] *)

(** [d.get(k, default)] *)
Definition dict_get (d : gmap string string) (k fallback : string) : string :=
  default fallback (d !! k).

(** [{m.metadata.name: m for m in metrics.items}]: a later item replaces
    an earlier one of the same name. *)
Definition metrics_dict (items : list MetricItem) : gmap string MetricItem :=
  foldl (fun d m => <[metric_name m := m]> d) ∅ items.

Definition ready_status (conds : list V1NodeCondition) : string :=
  if existsb (fun c => bool_decide (condition_type c = "Ready")
                       && bool_decide (condition_status c = "True")) conds
  then "Ready" else "NotReady".

Definition condition_dict (c : V1NodeCondition) : ConditionDict :=
  {| cond_type := condition_type c;
     cond_status := condition_status c;
     cond_reason := default EmptyString (condition_reason c) |}.

Definition taint_dict (t : V1Taint) : TaintDict :=
  {| taint_key := v1_key t;
     taint_effect := v1_effect t;
     taint_value := default EmptyString (v1_value t) |}.

(** [x.get(...)] on an attribute [x]: [None] has no [get]. *)
Definition attribute {A : Type} (x : option A) : result A :=
  match x with
  | Some a => Ok a
  | None => Raise AttributeError
  end.

(** [for c in x]: [None] is not iterable. *)
Definition iterable {A : Type} (x : option (list A)) : result (list A) :=
  match x with
  | Some l => Ok l
  | None => Raise TypeError
  end.

(** The body of the loop over [nodes.items], statement by statement. *)
Definition node_record (metrics_map : gmap string MetricItem)
    (pods_for : string -> result (list string)) (node : V1Node)
    : result NodeMetrics :=
  let name := metadata_name node in
  capacity <- attribute (status_capacity node) ;;
  cpu_capacity <- PyInt.int (dict_get capacity "cpu" "0") ;;
  memory_capacity <- parse_memory (dict_get capacity "memory" "0") ;;
  allocatable <- attribute (status_allocatable node) ;;
  pod_capacity <- PyInt.int (dict_get allocatable "pods" "0") ;;
  usage <- match metrics_map !! name with
           | Some m =>
               cpu_usage <- parse_cpu (dict_get (metric_usage m) "cpu" "0") ;;
               memory_usage <- parse_memory (dict_get (metric_usage m) "memory" "0") ;;
               Ok (cpu_usage, memory_usage)
           | None => Ok (0, 0)
           end ;;
  pods <- pods_for name ;;
  let pod_count := Z.of_nat (length pods) in
  conds <- iterable (status_conditions node) ;;
  Ok {| name := name;
        cpu_usage := usage.1;
        cpu_capacity := cpu_capacity * 1000;
        memory_usage := usage.2;
        memory_capacity := memory_capacity;
        pod_count := pod_count;
        pod_capacity := pod_capacity;
        status := ready_status conds;
        labels := default ∅ (metadata_labels node);
        conditions := condition_dict <$> conds;
        taints := taint_dict <$> default [] (spec_taints node) |}.

Definition get_node_metrics (api : Cluster) : result (list NodeMetrics) :=
  nodes <- list_node api ;;
  let metrics_map :=
    match list_node_metrics api with
    | Some items => metrics_dict items
    | None => ∅
    end in
  mapM (node_record metrics_map (list_pod_for_node api)) nodes.

(** ** [get_color_for_usage] and the usage bands *)

Definition get_color_for_usage (percent : PyNum.num) : string :=
  if PyNum.ge percent (PyNum.Int 90) then "red"
  else if PyNum.ge percent (PyNum.Int 75) then "yellow"
  else if PyNum.ge percent (PyNum.Int 50) then "cyan"
  else "green".

Inductive UsageBand : Set := Low | Medium | High | Critical.

(** The band a colour stands for. *)
Definition band_of_color (color : string) : option UsageBand :=
  if bool_decide (color = "red") then Some Critical
  else if bool_decide (color = "yellow") then Some High
  else if bool_decide (color = "cyan") then Some Medium
  else if bool_decide (color = "green") then Some Low
  else None.

Definition classify (percent : PyNum.num) : option UsageBand :=
  band_of_color (get_color_for_usage percent).

Definition severity (b : UsageBand) : nat :=
  match b with Low => 0 | Medium => 1 | High => 2 | Critical => 3 end.

(** The floats written [90.0] and [89.999]. *)
Definition float_90_0 : spec_float := S754_finite false 0x16800000000000 (-46).
Definition float_89_999 : spec_float := S754_finite false 0x167fef9db22d0e (-46).

(** ** Ratios *)

(** The expression [(usage / capacity * 100) if capacity > 0 else 0] of
    [print_node_details] and [print_summary]. *)
Definition percent_of (usage capacity : Z) : result PyNum.num :=
  if 0 <? capacity then
    q <- PyNum.truediv usage capacity ;;
    p <- PyNum.mul_int q 100 ;;
    Ok (PyNum.Float p)
  else Ok (PyNum.Int 0).

(** The percentages and colours [print_node_details] renders. *)
Record NodeDetails : Type := {
  node_cpu_percent : PyNum.num;
  node_mem_percent : PyNum.num;
  node_pod_percent : PyNum.num;
  status_color : string;
  pod_color : string;
  cpu_color : string;
  mem_color : string
}.

Definition print_node_details (node : NodeMetrics) : result NodeDetails :=
  cpu_percent <- percent_of (cpu_usage node) (cpu_capacity node) ;;
  mem_percent <- percent_of (memory_usage node) (memory_capacity node) ;;
  pod_percent <- percent_of (pod_count node) (pod_capacity node) ;;
  Ok {| node_cpu_percent := cpu_percent;
        node_mem_percent := mem_percent;
        node_pod_percent := pod_percent;
        status_color := if bool_decide (status node = "Ready") then "green" else "red";
        pod_color := get_color_for_usage pod_percent;
        cpu_color := get_color_for_usage cpu_percent;
        mem_color := get_color_for_usage mem_percent |}.

(** ** [print_summary] *)

Record ClusterSummary : Type := {
  total_nodes : Z;
  ready_nodes : Z;
  total_cpu_usage : Z;
  total_cpu_capacity : Z;
  total_mem_usage : Z;
  total_mem_capacity : Z;
  total_pods : Z;
  tainted_nodes : Z;
  cpu_percent : PyNum.num;
  mem_percent : PyNum.num
}.

(** [if n.taints]: a non-empty list is true. *)
Definition has_taints (n : NodeMetrics) : bool :=
  match taints n with [] => false | _ :: _ => true end.

Definition is_ready (n : NodeMetrics) : bool := bool_decide (status n = "Ready").

Definition print_summary (nodes : list NodeMetrics) : result ClusterSummary :=
  let total_nodes := Z.of_nat (length nodes) in
  let ready_nodes := PyList.sum ((fun _ => 1) <$> List.filter is_ready nodes) in
  let total_cpu_usage := PyList.sum (cpu_usage <$> nodes) in
  let total_cpu_capacity := PyList.sum (cpu_capacity <$> nodes) in
  let total_mem_usage := PyList.sum (memory_usage <$> nodes) in
  let total_mem_capacity := PyList.sum (memory_capacity <$> nodes) in
  let total_pods := PyList.sum (pod_count <$> nodes) in
  let tainted_nodes := PyList.sum ((fun _ => 1) <$> List.filter has_taints nodes) in
  cpu_percent <- percent_of total_cpu_usage total_cpu_capacity ;;
  mem_percent <- percent_of total_mem_usage total_mem_capacity ;;
  Ok {| total_nodes := total_nodes;
        ready_nodes := ready_nodes;
        total_cpu_usage := total_cpu_usage;
        total_cpu_capacity := total_cpu_capacity;
        total_mem_usage := total_mem_usage;
        total_mem_capacity := total_mem_capacity;
        total_pods := total_pods;
        tainted_nodes := tainted_nodes;
        cpu_percent := cpu_percent;
        mem_percent := mem_percent |}.

(** ** The filter and sort stages of [main] *)

Inductive SortBy : Set := by_cpu | by_memory | by_pods | by_name.

(** [usage / capacity * 100 > 75 if capacity > 0 else False] *)
Definition above_75 (usage capacity : Z) : result bool :=
  if 0 <? capacity then
    q <- PyNum.truediv usage capacity ;;
    p <- PyNum.mul_int q 100 ;;
    Ok (PyNum.gt (PyNum.Float p) (PyNum.Int 75))
  else Ok false.

(** The [--filter-high-usage] predicate; [or] evaluates its right
    operand only when the left one is false. *)
Definition high_usage (n : NodeMetrics) : result bool :=
  c <- above_75 (cpu_usage n) (cpu_capacity n) ;;
  if c then Ok true else above_75 (memory_usage n) (memory_capacity n).

(** [usage / capacity if capacity > 0 else 0], the numeric sort keys. *)
Definition ratio_key (usage capacity : Z) : result PyNum.num :=
  if 0 <? capacity then
    q <- PyNum.truediv usage capacity ;; Ok (PyNum.Float q)
  else Ok (PyNum.Int 0).

Definition cpu_key (n : NodeMetrics) : result PyNum.num :=
  ratio_key (cpu_usage n) (cpu_capacity n).
Definition memory_key (n : NodeMetrics) : result PyNum.num :=
  ratio_key (memory_usage n) (memory_capacity n).
Definition pods_key (n : NodeMetrics) : result PyNum.num :=
  ratio_key (pod_count n) (pod_capacity n).
Definition name_key (n : NodeMetrics) : result string := Ok (name n).

Definition filter_stage (filter_tainted filter_high_usage : bool)
    (nodes : list NodeMetrics) : result (list NodeMetrics) :=
  let nodes := if filter_tainted then List.filter has_taints nodes else nodes in
  if filter_high_usage then filterM high_usage nodes else Ok nodes.

Definition sort_stage (sort_by : SortBy) (nodes : list NodeMetrics)
    : result (list NodeMetrics) :=
  match sort_by with
  | by_cpu => PyList.sort cpu_key PyNum.lt true nodes
  | by_memory => PyList.sort memory_key PyNum.lt true nodes
  | by_pods => PyList.sort pods_key PyNum.lt true nodes
  | by_name => PyList.sort name_key String.ltb false nodes
  end.

(** The node list [main] hands to [print_summary] and
    [print_node_details]. *)
Definition main (filter_tainted filter_high_usage : bool) (sort_by : SortBy)
    (nodes : list NodeMetrics) : result (list NodeMetrics) :=
  nodes <- filter_stage filter_tainted filter_high_usage nodes ;;
  sort_stage sort_by nodes.

(** ** The accepted quantity syntax

    [int] reads, between blanks, an optional sign and then decimal digits
    with single underscores allowed between two digits.  The predicates
    below describe that literal and the quantity strings built on it,
    each with the number it denotes. *)

Module Syntax.

Inductive digit_groups : list ascii -> Z -> Prop :=
| dg_digit c :
    PyInt.is_digit c = true -> digit_groups [c] (PyInt.digit_value c)
| dg_more l v c :
    digit_groups l v -> PyInt.is_digit c = true ->
    digit_groups (l ++ [c]) (10 * v + PyInt.digit_value c)
| dg_under l v c :
    digit_groups l v -> PyInt.is_digit c = true ->
    digit_groups (l ++ ["_"%char; c]) (10 * v + PyInt.digit_value c).

Inductive sign_prefix : list ascii -> Z -> Prop :=
| sign_none : sign_prefix [] 1
| sign_plus : sign_prefix ["+"%char] 1
| sign_minus : sign_prefix ["-"%char] (-1).

Inductive int_chars : list ascii -> Z -> Prop :=
| int_chars_intro w1 sg sigma body v w2 :
    forallb PyInt.is_blank w1 = true ->
    sign_prefix sg sigma ->
    digit_groups body v ->
    forallb PyInt.is_blank w2 = true ->
    int_chars (w1 ++ sg ++ body ++ w2) (sigma * v).

Definition int_literal (s : string) (v : Z) : Prop := int_chars (Str.chars s) v.

(** CPU quantities: a literal followed by [n], by [m] or by nothing. *)
Definition cpu_quantity (s : string) (v : Z) : Prop :=
  exists body n, int_literal body n /\
    ((s = body +:+ "n" /\ v = n / 1000000)
     \/ (s = body +:+ "m" /\ v = n)
     \/ (s = body /\ v = n * 1000)).

Definition memory_units : list (string * Z) :=
  [("Ki", 1024); ("Mi", 1024 ^ 2); ("Gi", 1024 ^ 3);
   ("K", 1000); ("M", 1000 ^ 2); ("G", 1000 ^ 3); (EmptyString, 1)].

(** Memory quantities: once stripped, a literal followed by a unit. *)
Definition memory_quantity (s : string) (v : Z) : Prop :=
  exists body n unit mult, (unit, mult) ∈ memory_units /\
    int_literal body n /\ Str.strip s = body +:+ unit /\ v = n * mult.

(** The value of a string of decimal digits, most significant first. *)
Definition decimal (acc : Z) (l : list ascii) : Z :=
  foldl (fun a c => 10 * a + PyInt.digit_value c) acc l.

End Syntax.

(** ** What sorting by a key means

    [ascending key ltb x y] says that [x] may stand before [y] when the
    list is sorted by increasing key: the key of [y] is not smaller than
    that of [x]; [descending] is the mirror image.  [same_key] holds of
    two elements neither of whose keys is smaller than the other's. *)

Module SortSpec.
Section Spec.
Context {A K : Type} (key : A -> result K) (ltb : K -> K -> bool).

Definition ascending (x y : A) : Prop :=
  exists kx ky, key x = Ok kx /\ key y = Ok ky /\ ltb ky kx = false.

Definition descending (x y : A) : Prop :=
  exists kx ky, key x = Ok kx /\ key y = Ok ky /\ ltb kx ky = false.

Definition same_key (x y : A) : bool :=
  match key x, key y with
  | Ok kx, Ok ky => negb (ltb kx ky) && negb (ltb ky kx)
  | _, _ => false
  end.
End Spec.

(** The order and the ties [--sort-by] asks for, stated on the fields
    of the records and not on the keys the script computes: a ratio is
    the float quotient of usage by capacity when the capacity is
    positive and the integer 0 otherwise; ratios go downwards, names
    upwards; two records tie when their ratios are equal as numbers, or
    when their names are equal. *)
Definition quotient (usage capacity : Z) : spec_float :=
  SFdiv PyNum.prec PyNum.emax (PyNum.int_operand usage) (PyNum.int_operand capacity).

Definition ratio (usage capacity : Z) : PyNum.num :=
  if 0 <? capacity then PyNum.Float (quotient usage capacity) else PyNum.Int 0.

Definition rank (sort_by : SortBy) (n : NodeMetrics) : PyNum.num :=
  match sort_by with
  | by_cpu => ratio (cpu_usage n) (cpu_capacity n)
  | by_memory => ratio (memory_usage n) (memory_capacity n)
  | by_pods => ratio (pod_count n) (pod_capacity n)
  | by_name => PyNum.Int 0
  end.

Definition in_order (sort_by : SortBy) (x y : NodeMetrics) : Prop :=
  match sort_by with
  | by_name => String.leb (name x) (name y) = true
  | _ => PyNum.ge (rank sort_by x) (rank sort_by y) = true
  end.

Definition tied (sort_by : SortBy) (x y : NodeMetrics) : bool :=
  match sort_by with
  | by_name => bool_decide (name x = name y)
  | _ => bool_decide (PyNum.compare (rank sort_by x) (rank sort_by y) = Some Eq)
  end.

(** The filters, on the fields as well: a record has a taint; its CPU
    or its memory percentage, the ratio times the float [100.0], is
    greater than 75. *)
Definition float_100 : spec_float := S754_finite false 0x19000000000000 (-46).

Definition percent (usage capacity : Z) : PyNum.num :=
  if 0 <? capacity
  then PyNum.Float (SFmul PyNum.prec PyNum.emax (quotient usage capacity) float_100)
  else PyNum.Int 0.

Definition over_75 (usage capacity : Z) : bool :=
  PyNum.gt (percent usage capacity) (PyNum.Int 75).

Definition selected (filter_tainted filter_high_usage : bool) (n : NodeMetrics)
    : bool :=
  (negb filter_tainted || bool_decide (taints n <> []))
  && (negb filter_high_usage
      || over_75 (cpu_usage n) (cpu_capacity n)
      || over_75 (memory_usage n) (memory_capacity n)).

(** What the filter stage keeps, by the script's own test. *)
Definition passes (filter_tainted filter_high_usage : bool) (n : NodeMetrics) : bool :=
  (negb filter_tainted || has_taints n)
  && (negb filter_high_usage
      || match high_usage n with Ok b => b | Raise _ => false end).
End SortSpec.

(** ** Sample data

    The three nodes of the end-to-end scenario of the specification, a
    node that reports no capacity, and a node object without metrics. *)

Definition sample (name : string) (cpu_usage cpu_capacity : Z)
    (taints : list TaintDict) : NodeMetrics :=
  {| name := name; cpu_usage := cpu_usage; cpu_capacity := cpu_capacity;
     memory_usage := 0; memory_capacity := 0; pod_count := 0;
     pod_capacity := 0; status := "Ready"; labels := ∅; conditions := [];
     taints := taints |}.

Definition NodeA : NodeMetrics := sample "NodeA" 900 1000 [].
Definition NodeB : NodeMetrics :=
  sample "NodeB" 100 2000
    [{| taint_key := "dedicated"; taint_effect := "NoSchedule"; taint_value := EmptyString |}].
Definition NodeC : NodeMetrics := sample "NodeC" 0 1000 [].

(** Five tainted nodes and one without taint: [x] and [y] have the same
    CPU ratio, [z] reports no capacity, [v] no usage. *)
Definition dedicated : list TaintDict :=
  [{| taint_key := "dedicated"; taint_effect := "NoSchedule";
      taint_value := EmptyString |}].

Definition ranked_nodes : list NodeMetrics :=
  [sample "x" 1 2 dedicated; sample "y" 2 4 dedicated; sample "z" 0 0 dedicated;
   sample "w" 3 4 dedicated; sample "v" 0 5 dedicated; sample "u" 9 10 []].

Definition unregistered : NodeMetrics :=
  {| name := "unregistered"; cpu_usage := 250; cpu_capacity := 0;
     memory_usage := 1048576; memory_capacity := 0;
     pod_count := 3; pod_capacity := 0; status := "NotReady";
     labels := ∅; conditions := []; taints := [] |}.

Definition worker : V1Node :=
  {| metadata_name := "worker-1";
     metadata_labels := None;
     spec_taints := None;
     status_capacity := Some {[ "cpu" := "4"; "memory" := "16Gi" ]};
     status_allocatable := Some {[ "pods" := "110" ]};
     status_conditions :=
       Some [{| condition_type := "Ready"; condition_status := "True";
                condition_reason := Some "KubeletReady" |}] |}.

(** ** [format_memory] *)

Module PyFormat.

(** Rounding of [num / den] ([den > 0]) to the nearest integer, ties to
    the even one. *)
Definition round_half_even (num den : Z) : Z :=
  let q := num / den in
  let r := num mod den in
  match 2 * r ?= den with
  | Lt => q
  | Gt => q + 1
  | Eq => if Z.even q then q else q + 1
  end.

(** The integer nearest to [m * 2^e * 10^places]. *)
Definition scaled (places : nat) (m : positive) (e : Z) : Z :=
  let n := Zpos m * 10 ^ Z.of_nat places in
  if 0 <=? e then n * 2 ^ e else round_half_even n (2 ^ (- e)).

(** Decimal digits of a natural number, without leading zeros. *)
Definition digits (n : Z) : string := NilZero.string_of_uint (N.to_uint (Z.to_N n)).

Fixpoint zeros (k : nat) : string :=
  match k with
  | O => EmptyString
  | S k' => String "0" (zeros k')
  end.

(** [n] written with [places] digits behind the point. *)
Definition fixed_digits (places : nat) (n : Z) : string :=
  match places with
  | O => digits n
  | S _ =>
      let frac := digits (n mod 10 ^ Z.of_nat places) in
      digits (n / 10 ^ Z.of_nat places) +:+ "." +:+
      zeros (places - String.length frac) +:+ frac
  end.

(** [format(x, '.<places>f')]: the exact value of [x] rounded to [places]
    decimals, ties to even; the sign is printed whenever the sign bit is
    set. *)
Definition format_f (places : nat) (x : spec_float) : string :=
  match x with
  | S754_nan => "nan"
  | S754_infinity s => if s then "-inf" else "inf"
  | S754_zero s => (if s then "-" else EmptyString) +:+ fixed_digits places 0
  | S754_finite s m e =>
      (if s then "-" else EmptyString) +:+ fixed_digits places (scaled places m e)
  end.

End PyFormat.

Definition format_memory (bytes_val : Z) : result string :=
  gb <- PyNum.truediv bytes_val (1024 ^ 3) ;;
  if PyNum.ge (PyNum.Float gb) (PyNum.Int 1) then
    Ok (PyFormat.format_f 1 gb +:+ "Gi")
  else
    mb <- PyNum.truediv bytes_val (1024 ^ 2) ;;
    Ok (PyFormat.format_f 0 mb +:+ "Mi").

(** ** The metrics adapter of [main]

    [MetricsAPI.list_node_metrics] turns the decoded response of the
    metrics endpoint into objects with a [metadata.name] and a [usage].
    A raw item is described by what the adapter looks up in it: its name
    ([None] when ['metadata'] or its ['name'] is missing) and its usage
    mapping ([None] when ['usage'] is missing); a raw response by its
    ['items'] list ([None] when that key is missing).  Every failed lookup
    raises, and [get_node_metrics] catches whatever the listing raises. *)

Record RawMetricItem : Type := {
  raw_name : option string;
  raw_usage : option (gmap string string)
}.

Record RawMetrics : Type := {
  raw_items : option (list RawMetricItem)
}.

(** [MetricItem(data)]; [None] stands for the [KeyError]. *)
Definition metric_item (data : RawMetricItem) : option MetricItem :=
  match raw_name data, raw_usage data with
  | Some n, Some u => Some {| metric_name := n; metric_usage := u |}
  | _, _ => None
  end.

(** [[MetricItem(item) for item in data['items']]] *)
Fixpoint metric_items (items : list RawMetricItem) : option (list MetricItem) :=
  match items with
  | [] => Some []
  | item :: rest =>
      match metric_item item with
      | Some m =>
          match metric_items rest with
          | Some ms => Some (m :: ms)
          | None => None
          end
      | None => None
      end
  end.

(** The metrics listing as [get_node_metrics] sees it; [response] is
    [None] when the call to the endpoint itself raised. *)
Definition adapter_list_node_metrics (response : option RawMetrics)
    : option (list MetricItem) :=
  match response with
  | Some data =>
      match raw_items data with
      | Some items => metric_items items
      | None => None
      end
  | None => None
  end.

Definition cluster_of (nodes : result (list V1Node))
    (response : option RawMetrics)
    (pods_for : string -> result (list string)) : Cluster :=
  {| list_node := nodes;
     list_node_metrics := adapter_list_node_metrics response;
     list_pod_for_node := pods_for |}.

(** ** Suffixes

    A string without digits, underscores or blanks: what can stand behind
    the number of a quantity as a unit. *)

Module Suffix.

Definition letter (c : ascii) : bool :=
  negb (PyInt.is_digit c) && negb (PyInt.is_underscore c) && negb (Str.isspace c).

Definition letters (t : string) : Prop :=
  t <> EmptyString /\ forallb letter (Str.chars t) = true.

Definition memory_unit_names : list string := ["Ki"; "Mi"; "Gi"; "K"; "M"; "G"].
Definition cpu_unit_names : list string := ["n"; "m"].

End Suffix.

(** ** Node objects and the records built from them *)

(** [node.spec.taints] is a non-empty list. *)
Definition node_tainted (node : V1Node) : bool :=
  match spec_taints node with
  | Some (_ :: _) => true
  | _ => false
  end.

(** The node has a condition list, and some condition in it has type
    [Ready] and status [True]. *)
Definition node_ready (node : V1Node) : Prop :=
  match status_conditions node with
  | Some conds =>
      Exists (fun c => condition_type c = "Ready" /\ condition_status c = "True")
        conds
  | None => False
  end.

#[global] Instance node_ready_dec node : Decision (node_ready node).
Proof. unfold node_ready. destruct (status_conditions node); apply _. Defined.

(** The number of pods the cluster lists for a node. *)
Definition pods_listed (api : Cluster) (node : V1Node) : Z :=
  match list_pod_for_node api (metadata_name node) with
  | Ok pods => Z.of_nat (length pods)
  | Raise _ => 0
  end.

(** The condition and taint entries of a record, field by field. *)
Definition same_condition (c : V1NodeCondition) (d : ConditionDict) : Prop :=
  cond_type d = condition_type c /\ cond_status d = condition_status c
  /\ match condition_reason c with
     | Some reason => cond_reason d = reason
     | None => cond_reason d = EmptyString
     end.

Definition same_taint (t : V1Taint) (d : TaintDict) : Prop :=
  taint_key d = v1_key t /\ taint_effect d = v1_effect t
  /\ match v1_value t with
     | Some value => taint_value d = value
     | None => taint_value d = EmptyString
     end.

(** The [metrics_map] of [get_node_metrics]. *)
Definition metrics_map_of (api : Cluster) : gmap string MetricItem :=
  match list_node_metrics api with
  | Some items => metrics_dict items
  | None => ∅
  end.

(** The last item of a metrics listing that carries a given name. *)
Definition last_named (k : string) (items : list MetricItem) : option MetricItem :=
  last (List.filter (fun m => bool_decide (metric_name m = k)) items).

(** More sample data: two metrics items for the same node, a node
    object with empty capacity maps, one whose CPU capacity is written in
    millicores, and one that came without its status attributes. *)

Definition usage_early : MetricItem :=
  {| metric_name := "worker-1";
     metric_usage := {[ "cpu" := "250000000n"; "memory" := "1Gi" ]} |}.

Definition usage_late : MetricItem :=
  {| metric_name := "worker-1";
     metric_usage := {[ "cpu" := "500m"; "memory" := "2048Ki" ]} |}.

Definition bare_node : V1Node :=
  {| metadata_name := "bare";
     metadata_labels := None;
     spec_taints := Some [{| v1_key := "node.kubernetes.io/not-ready";
                             v1_effect := "NoSchedule"; v1_value := None |}];
     status_capacity := Some ∅;
     status_allocatable := Some ∅;
     status_conditions := Some [] |}.

Definition milli_node : V1Node :=
  {| metadata_name := "milli";
     metadata_labels := None;
     spec_taints := None;
     status_capacity := Some {[ "cpu" := "3900m"; "memory" := "16Gi" ]};
     status_allocatable := Some {[ "pods" := "110" ]};
     status_conditions := Some [] |}.

Definition blank_node : V1Node :=
  {| metadata_name := "blank";
     metadata_labels := None;
     spec_taints := None;
     status_capacity := None;
     status_allocatable := None;
     status_conditions := None |}.

(** A node whose memory capacity and whose CPU usage are written with
    a minus sign. *)
Definition minus_node : V1Node :=
  {| metadata_name := "minus";
     metadata_labels := None;
     spec_taints := None;
     status_capacity := Some {[ "cpu" := "4"; "memory" := "-5Ki" ]};
     status_allocatable := Some {[ "pods" := "110" ]};
     status_conditions := Some [] |}.

Definition minus_usage : MetricItem :=
  {| metric_name := "minus";
     metric_usage := {[ "cpu" := "-5m"; "memory" := "0" ]} |}.

Definition sample_pods (node_name : string) : result (list string) :=
  Ok (if bool_decide (node_name = "worker-1") then ["coredns"; "kube-proxy"]
      else []).

Definition sample_cluster : Cluster :=
  {| list_node := Ok [worker; bare_node];
     list_node_metrics := Some [usage_early; usage_late];
     list_pod_for_node := sample_pods |}.

(** ** The order of names

    [a <= b] on strings, the order [nodes.sort(key=lambda n: n.name)]
    produces. *)

Module NameOrder.

Definition name_le (a b : string) : Prop := String.leb a b = true.

End NameOrder.

(** * Properties *)

(** ** Fixtures

    The model run on inputs whose results under CPython are known. *)

Example int_fixtures :
  PyInt.int " 5 " = Ok 5 /\ PyInt.int "+5" = Ok 5 /\ PyInt.int "-5" = Ok (-5)
  /\ PyInt.int "007" = Ok 7 /\ PyInt.int "1_000" = Ok 1000
  /\ PyInt.int EmptyString = Raise ValueError /\ PyInt.int "- 5" = Raise ValueError
  /\ PyInt.int "_1" = Raise ValueError /\ PyInt.int "1_" = Raise ValueError
  /\ PyInt.int "1__0" = Raise ValueError /\ PyInt.int "1.5" = Raise ValueError
  /\ PyInt.int "0x10" = Raise ValueError /\ PyInt.int "1e3" = Raise ValueError.
Proof. by vm_compute. Qed.

(** A literal of 4300 digits is read and one of 4301 digits is refused;
    leading zeros count, the sign, underscores and blanks do not. *)
Example digit_limit_fixtures :
  PyInt.int (PyFormat.zeros 4299 +:+ "7") = Ok 7
  /\ PyInt.int (PyFormat.zeros 4300 +:+ "7") = Raise ValueError
  /\ PyInt.int (" -0_" +:+ PyFormat.zeros 4298 +:+ "7 ") = Ok (-7)
  /\ PyInt.int (" -0_" +:+ PyFormat.zeros 4299 +:+ "7 ") = Raise ValueError
  /\ parse_cpu (PyFormat.zeros 4299 +:+ "7m") = Ok 7
  /\ parse_cpu (PyFormat.zeros 4300 +:+ "7m") = Raise ValueError
  /\ parse_memory (PyFormat.zeros 4299 +:+ "7Ki") = Ok 7168
  /\ parse_memory (PyFormat.zeros 4300 +:+ "7Ki") = Raise ValueError.
Proof. by vm_compute. Qed.

(** The separator U+001C is removed by [strip] but is no blank for [int];
    the no-break space U+00A0 is a blank for both. *)
Example blank_fixtures :
  parse_memory (String (ascii_of_nat 28) "5") = Ok 5
  /\ parse_cpu (String (ascii_of_nat 28) "5") = Raise ValueError
  /\ parse_cpu (String (ascii_of_nat 160) "5") = Ok 5000
  /\ parse_cpu " 500m" = Ok 500
  /\ parse_cpu "5 m" = Ok 5
  /\ parse_memory "5 Ki" = Ok 5120
  /\ parse_cpu "-7n" = Ok (-1).
Proof. by vm_compute. Qed.

(** [900 / 1000] is [0x1.ccccccccccccdp-1], [(2**60 + 1) / 3] is
    [0x1.5555555555555p+58], [1 / 10**320] is the subnormal [0x0.00000000007e8p-1022],
    [10**400 / 1] overflows and [0 / -5] is [-0.0]. *)
Example truediv_fixtures :
  PyNum.truediv 900 1000 = Ok (S754_finite false 0x1ccccccccccccd (-53))
  /\ PyNum.truediv (2 ^ 60 + 1) 3 = Ok (S754_finite false 0x15555555555555 6)
  /\ PyNum.truediv 1 (10 ^ 320) = Ok (S754_finite false 0x7e8 (-1074))
  /\ PyNum.truediv (10 ^ 400) 1 = Raise OverflowError
  /\ PyNum.truediv 0 (-5) = Ok (S754_zero true)
  /\ PyNum.truediv 5 0 = Raise ZeroDivisionError.
Proof. by vm_compute. Qed.

(** The end-to-end scenario of the specification: filtering by taint
    keeps NodeB alone, sorting by CPU ratio gives NodeA (90%), NodeB (5%),
    NodeC (0%), and the cluster CPU percentage is the float [25.0]. *)
Example scenario :
  main true false by_name [NodeA; NodeB; NodeC] = Ok [NodeB]
  /\ main false false by_cpu [NodeC; NodeB; NodeA] = Ok [NodeA; NodeB; NodeC]
  /\ (s <- print_summary [NodeA; NodeB; NodeC] ;; Ok (cpu_percent s))
     = Ok (PyNum.Float (S754_finite false 0x19000000000000 (-48)))
  /\ (d <- print_node_details NodeA ;; Ok (cpu_color d)) = Ok "red".
Proof. by vm_compute. Qed.

(** Equal keys keep their input order, also under [reverse=True]. *)
Example stable_fixture :
  (l <- main false false by_cpu
          [sample "x" 1 2 []; sample "y" 2 4 []; sample "z" 0 0 [];
           sample "w" 3 4 []; sample "v" 0 5 []; sample "u" (-1) 5 []] ;;
   Ok (name <$> l))
  = Ok ["w"; "x"; "y"; "z"; "v"; "u"].
Proof. by vm_compute. Qed.

(** ** Strings *)

Module StrFacts.
Import Str.

Lemma chars_app s1 s2 : chars (s1 +:+ s2) = chars s1 ++ chars s2.
Proof.
  unfold chars. induction s1 as [|c s1 IH]; simpl; [done|].
  by rewrite <- IH.
Qed.

Lemma of_chars_chars s : of_chars (chars s) = s.
Proof. apply string_of_list_ascii_of_string. Qed.

Lemma chars_of_chars l : chars (of_chars l) = l.
Proof. apply list_ascii_of_string_of_list_ascii. Qed.

Lemma chars_length s : length (chars s) = String.length s.
Proof. induction s as [|c s IH]; [done|]. simpl. by rewrite IH. Qed.

Lemma chars_inj s1 s2 : chars s1 = chars s2 -> s1 = s2.
Proof.
  intros H. rewrite <- (of_chars_chars s1), <- (of_chars_chars s2).
  by rewrite H.
Qed.

(** [endswith] is the suffix test. *)
Lemma endswith_true s suffix :
  endswith s suffix = true <-> exists pre, chars s = pre ++ chars suffix.
Proof.
  unfold endswith. rewrite andb_true_iff, Nat.leb_le, bool_decide_eq_true.
  split.
  - intros [Hlen Hdrop].
    set (n := (length (chars s) - length (chars suffix))%nat) in *.
    exists (take n (chars s)). rewrite <- Hdrop. by rewrite take_drop.
  - intros [pre ->]. rewrite length_app. split; [lia|].
    replace (length pre + length (chars suffix) - length (chars suffix))%nat
      with (length pre) by lia.
    by rewrite drop_app_length.
Qed.

Lemma endswith_app s suffix : endswith (s +:+ suffix) suffix = true.
Proof. apply endswith_true. exists (chars s). apply chars_app. Qed.

(** A string does not end with a suffix whose last character differs
    from its own. *)
Lemma endswith_last_ne pre c suf c' s suffix :
  chars s = pre ++ [c] -> chars suffix = suf ++ [c'] -> c <> c' ->
  endswith s suffix = false.
Proof.
  intros Hs Hsuf Hne. apply not_true_is_false. intros [p Hp]%endswith_true.
  rewrite Hs, Hsuf, app_assoc in Hp.
  apply app_inj_tail in Hp as [_ ?]. done.
Qed.

Lemma drop_last_app k s suffix :
  length (chars suffix) = k -> drop_last k (s +:+ suffix) = s.
Proof.
  intros <-. unfold drop_last. rewrite chars_app, length_app.
  replace (length (chars s) + length (chars suffix) - length (chars suffix))%nat
    with (length (chars s)) by lia.
  by rewrite take_app_length, of_chars_chars.
Qed.

(** *** Stripping *)

Lemma drop_while_app_all p w s :
  forallb p w = true -> drop_while p (w ++ s) = drop_while p s.
Proof.
  induction w as [|c w IH]; simpl; [done|].
  intros [Hc Hw]%andb_true_iff. rewrite Hc. auto.
Qed.

Lemma drop_while_head p c s : p c = false -> drop_while p (c :: s) = c :: s.
Proof. intros H. simpl. by rewrite H. Qed.

Lemma drop_while_split p s :
  exists w, s = w ++ drop_while p s /\ forallb p w = true.
Proof.
  induction s as [|c s (w & Hs & Hw)]; [by exists []|].
  simpl. destruct (p c) eqn:Hc.
  - exists (c :: w). simpl. rewrite Hc, Hw. by rewrite <- Hs.
  - by exists [].
Qed.

Lemma drop_while_nil_iff p s : drop_while p s = [] <-> forallb p s = true.
Proof.
  induction s as [|c s IH]; simpl; [done|].
  destruct (p c); simpl; [done|]. split; [done|]. intros [=].
Qed.

Lemma forallb_reverse (p : ascii -> bool) s :
  forallb p (reverse s) = forallb p s.
Proof.
  induction s as [|c s IH]; simpl; [done|].
  rewrite reverse_cons, forallb_app, IH. simpl. rewrite andb_true_r.
  apply andb_comm.
Qed.

(** Stripping removes exactly a blank prefix and a blank suffix. *)
Lemma rstrip_app_all s w : forallb isspace w = true -> rstrip (s ++ w) = rstrip s.
Proof.
  intros Hw. unfold rstrip, lstrip. rewrite reverse_app.
  rewrite drop_while_app_all; [done|]. by rewrite forallb_reverse.
Qed.

Lemma rstrip_snoc s c : isspace c = false -> rstrip (s ++ [c]) = s ++ [c].
Proof.
  intros Hc. unfold rstrip, lstrip. rewrite reverse_app. simpl.
  rewrite Hc. by rewrite reverse_cons, reverse_involutive.
Qed.

Lemma drop_while_head_false p s c r : drop_while p s = c :: r -> p c = false.
Proof.
  induction s as [|a s IH]; simpl; [done|].
  destruct (p a) eqn:Ha; [done|]. by intros [= <- _].
Qed.

Lemma strip_blank_around w1 s w2 :
  forallb isspace (chars w1) = true -> forallb isspace (chars w2) = true ->
  strip (w1 +:+ s +:+ w2) = strip s.
Proof.
  intros H1 H2. unfold strip, lstrip. f_equal.
  rewrite !chars_app, drop_while_app_all by done.
  destruct (drop_while_split isspace (chars s)) as (w & Hs & Hw).
  assert (drop_while isspace (chars s ++ chars w2)
          = drop_while isspace (drop_while isspace (chars s) ++ chars w2)) as ->.
  { rewrite Hs at 1. rewrite <- app_assoc. by apply drop_while_app_all. }
  destruct (drop_while isspace (chars s)) as [|c r] eqn:Hd.
  - rewrite app_nil_l.
    assert (drop_while isspace (chars w2) = []) as ->; [|done].
    by apply drop_while_nil_iff.
  - apply drop_while_head_false in Hd.
    rewrite <- app_comm_cons, drop_while_head by done.
    rewrite app_comm_cons. by apply rstrip_app_all.
Qed.

End StrFacts.

(** ** [int] accepts exactly the integer literals *)

Module IntFacts.
Import Str PyInt Syntax.

Lemma blank_not_digit c :
  PyInt.is_blank c = true -> is_digit c = false /\ is_underscore c = false.
Proof. destruct c as [[] [] [] [] [] [] [] []]; by vm_compute. Qed.

Lemma digit_not_space c :
  is_digit c = true ->
  PyInt.is_blank c = false /\ Str.isspace c = false
  /\ (code c =? 43)%N = false /\ (code c =? 45)%N = false.
Proof. destruct c as [[] [] [] [] [] [] [] []]; by vm_compute. Qed.

Lemma is_underscore_eq c : is_underscore c = true -> c = "_"%char.
Proof. destruct c as [[] [] [] [] [] [] [] []]; by vm_compute. Qed.

Lemma code_plus c : (code c =? 43)%N = true -> c = "+"%char.
Proof. destruct c as [[] [] [] [] [] [] [] []]; by vm_compute. Qed.

Lemma code_minus c : (code c =? 45)%N = true -> c = "-"%char.
Proof. destruct c as [[] [] [] [] [] [] [] []]; by vm_compute. Qed.

Lemma digit_groups_head l v :
  digit_groups l v -> exists c r, l = c :: r /\ is_digit c = true.
Proof.
  induction 1 as [c Hc|l v c _ (c0 & r & -> & Hc0) _|l v c _ (c0 & r & -> & Hc0) _].
  - by exists c, [].
  - by exists c0, (r ++ [c]).
  - by exists c0, (r ++ ["_"%char; c]).
Qed.

Lemma digit_groups_last l v :
  digit_groups l v -> exists r c, l = r ++ [c] /\ is_digit c = true.
Proof.
  destruct 1 as [c Hc|l v c _ Hc|l v c _ Hc].
  - by exists [], c.
  - by exists l, c.
  - exists (l ++ ["_"%char]), c. by rewrite <- app_assoc.
Qed.

(** The digit loop reads a whole digit group... *)
Lemma scan_digits_groups l v rest :
  digit_groups l v ->
  scan_digits false 0 (l ++ rest) = scan_digits false v rest.
Proof.
  intros H. revert rest.
  induction H as [c Hc|l v c _ IH Hc|l v c _ IH Hc]; intros rest.
  - simpl. by rewrite Hc.
  - rewrite <- app_assoc, IH. simpl. by rewrite Hc.
  - rewrite <- app_assoc, IH. simpl. by rewrite Hc.
Qed.

(** ... and stops in front of a blank or at the end. *)
Lemma scan_digits_stop v rest :
  forallb PyInt.is_blank rest = true ->
  scan_digits false v rest = Some (v, rest).
Proof.
  destruct rest as [|c r]; [done|]. simpl.
  intros [Hc _]%andb_true_iff.
  by destruct (blank_not_digit c Hc) as [-> ->].
Qed.

(** Whatever the loop has read is a digit group. *)
Lemma scan_digits_sound s :
  forall pre acc, digit_groups pre acc ->
    (forall v rest, scan_digits false acc s = Some (v, rest) ->
       exists body, pre ++ s = body ++ rest /\ digit_groups body v)
    /\ (forall v rest, scan_digits true acc s = Some (v, rest) ->
       exists body, pre ++ "_"%char :: s = body ++ rest /\ digit_groups body v).
Proof.
  induction s as [|c r IH]; intros pre acc Hpre.
  - split; intros v rest; simpl; [|done].
    intros [= <- <-]. by exists pre.
  - split; intros v rest; simpl.
    + destruct (is_digit c) eqn:Hc.
      * intros Hs.
        destruct (IH (pre ++ [c]) _ (dg_more _ _ _ Hpre Hc)) as [IH1 _].
        destruct (IH1 _ _ Hs) as (body & Heq & Hb).
        exists body. by rewrite <- Heq, <- app_assoc.
      * destruct (is_underscore c) eqn:Hu.
        -- intros Hs. apply is_underscore_eq in Hu as ->.
           destruct (IH pre acc Hpre) as [_ IH2]. eauto.
        -- intros [= <- <-]. by exists pre.
    + destruct (is_digit c) eqn:Hc.
      * intros Hs.
        destruct (IH (pre ++ ["_"%char; c]) _ (dg_under _ _ _ Hpre Hc)) as [IH1 _].
        destruct (IH1 _ _ Hs) as (body & Heq & Hb).
        exists body. by rewrite <- Heq, <- app_assoc.
      * by destruct (is_underscore c).
Qed.

(** Digits are counted over the whole string: blanks and the sign are
    none. *)
Lemma digit_count_app l1 l2 :
  digit_count (l1 ++ l2) = (digit_count l1 + digit_count l2)%nat.
Proof. unfold digit_count. by rewrite List.filter_app, length_app. Qed.

Lemma digit_count_blanks w : forallb PyInt.is_blank w = true -> digit_count w = 0%nat.
Proof.
  induction w as [|c w IH]; [done|]. simpl.
  intros [Hc Hw]%andb_true_iff. unfold digit_count in *. simpl.
  destruct (blank_not_digit c Hc) as [-> _]. by apply IH.
Qed.

Lemma digit_count_sign sg sigma : sign_prefix sg sigma -> digit_count sg = 0%nat.
Proof. by destruct 1. Qed.

Lemma digit_count_digits l :
  forallb is_digit l = true -> digit_count l = length l.
Proof.
  induction l as [|c l IH]; [done|]. simpl.
  intros [Hc Hl]%andb_true_iff. unfold digit_count in *. simpl.
  rewrite Hc. simpl. by rewrite IH.
Qed.

Lemma read_sound s v :
  PyInt.read s = Ok v ->
  int_chars s v /\ Z.of_nat (digit_count s) <= max_str_digits.
Proof.
  unfold PyInt.read.
  destruct (StrFacts.drop_while_split PyInt.is_blank s) as (w1 & Hs & Hw1).
  destruct (split_sign (drop_while PyInt.is_blank s)) as [sigma body] eqn:Hsign.
  destruct body as [|c r]; [done|].
  destruct (is_digit c) eqn:Hc; [|done].
  destruct (scan_digits false 0 (c :: r)) as [[n rest]|] eqn:Hscan; [|done].
  destruct (forallb PyInt.is_blank rest) eqn:Hrest; [|done].
  destruct (Z.of_nat (digit_count (c :: r)) <=? max_str_digits) eqn:Hlim; [|done].
  apply Z.leb_le in Hlim.
  intros [= <-].
  simpl in Hscan. rewrite Hc in Hscan.
  destruct (scan_digits_sound r [c] _ (dg_digit c Hc)) as [Hsound _].
  destruct (Hsound _ _ Hscan) as (grp & Heq & Hgrp). simpl in Heq.
  assert (exists sg, sign_prefix sg sigma /\
                     drop_while PyInt.is_blank s = sg ++ c :: r) as (sg & Hsg & Hd).
  { unfold split_sign in Hsign.
    destruct (drop_while PyInt.is_blank s) as [|a t]; [done|].
    destruct (code a =? 43)%N eqn:Ha.
    { simplify_eq. apply code_plus in Ha as ->.
      exists ["+"%char]. split; [constructor|done]. }
    destruct (code a =? 45)%N eqn:Hb.
    { simplify_eq. apply code_minus in Hb as ->.
      exists ["-"%char]. split; [constructor|done]. }
    simplify_eq. exists []. split; [constructor|done]. }
  split.
  - rewrite Hs, Hd, Heq. by constructor.
  - rewrite Hs, Hd, !digit_count_app, (digit_count_blanks _ Hw1),
      (digit_count_sign _ _ Hsg). simpl. lia.
Qed.

Lemma read_complete s v :
  int_chars s v -> Z.of_nat (digit_count s) <= max_str_digits ->
  PyInt.read s = Ok v.
Proof.
  intros [w1 sg sigma body n w2 Hw1 Hsg Hbody Hw2] Hlim.
  rewrite !digit_count_app, (digit_count_blanks _ Hw1),
    (digit_count_sign _ _ Hsg), <- digit_count_app in Hlim. simpl in Hlim.
  apply Z.leb_le in Hlim.
  destruct (digit_groups_head _ _ Hbody) as (c & r & Hb & Hc).
  destruct (digit_not_space c Hc) as (Hsp & _ & Hplus & Hminus).
  unfold PyInt.read.
  assert (split_sign (drop_while PyInt.is_blank (w1 ++ sg ++ body ++ w2))
          = (sigma, body ++ w2)) as ->.
  { rewrite StrFacts.drop_while_app_all by done.
    destruct Hsg; simpl; [|done..].
    rewrite Hb, <- app_comm_cons, StrFacts.drop_while_head by done.
    unfold split_sign. by rewrite Hplus, Hminus. }
  rewrite (scan_digits_groups body n w2 Hbody).
  rewrite scan_digits_stop by done.
  rewrite Hlim. rewrite Hb. simpl. by rewrite Hc, Hw2.
Qed.

(** [int] returns exactly on the literals of at most 4300 digits, and
    then the value the literal denotes. *)
Theorem int_spec s v :
  PyInt.int s = Ok v <-> int_literal s v /\ PyInt.within_limit s.
Proof.
  split; [apply read_sound|]. intros [H1 H2]. by apply read_complete.
Qed.

(** [int] never raises anything but [ValueError]. *)
Lemma int_raises s e : PyInt.int s = Raise e -> e = ValueError.
Proof.
  unfold PyInt.int, PyInt.read.
  destruct (split_sign _) as [sigma [|c r]]; [by intros [= <-]|].
  destruct (is_digit c); [|by intros [= <-]].
  destruct (scan_digits _ _ _) as [[n rest]|]; [|by intros [= <-]].
  destruct (forallb _ _); [|by intros [= <-]].
  destruct (_ <=? _); [done|by intros [= <-]].
Qed.

End IntFacts.

(** ** Strings of decimal digits *)

Module DigitFacts.
Import Str PyInt Syntax StrFacts IntFacts.

Lemma decimal_snoc acc l c :
  decimal acc (l ++ [c]) = 10 * decimal acc l + digit_value c.
Proof. unfold decimal. by rewrite foldl_app. Qed.

Lemma decimal_digit_groups l :
  l <> [] -> forallb is_digit l = true -> digit_groups l (decimal 0 l).
Proof.
  induction l as [|c l IH] using rev_ind; [done|]. intros _.
  rewrite forallb_app. simpl. rewrite andb_true_r.
  intros [Hl Hc]%andb_true_iff. rewrite decimal_snoc.
  destruct l as [|a l'].
  - simpl. by constructor.
  - apply dg_more; [|done]. by apply IH.
Qed.

(** The decimal numerals of the standard library: [uint_of_string]
    reads a digit string into a [Decimal.uint], [Z.of_uint] is its
    value. *)
Lemma digits_of_uint u : forallb is_digit (chars (NilEmpty.string_of_uint u)) = true.
Proof. induction u; simpl; by rewrite ?IHu. Qed.

Lemma decimal_of_uint u acc :
  decimal acc (chars (NilEmpty.string_of_uint u))
  = acc * 10 ^ Z.of_N (DecimalPos.Unsigned.usize u)
    + Z.of_N (DecimalPos.Unsigned.of_lu (Decimal.rev u)).
Proof.
  revert acc. unfold decimal.
  induction u as [|u IH|u IH|u IH|u IH|u IH|u IH|u IH|u IH|u IH|u IH];
    intros acc; [simpl; lia|..];
    unfold Decimal.rev; cbn [Decimal.revapp];
    rewrite DecimalPos.Unsigned.of_lu_revapp;
    cbn [NilEmpty.string_of_uint chars list_ascii_of_string foldl];
    fold (chars (NilEmpty.string_of_uint u)); rewrite IH;
    cbn [DecimalPos.Unsigned.usize];
    rewrite N2Z.inj_add, N2Z.inj_mul, N2Z.inj_pow, N2Z.inj_succ, Z.pow_succ_r
      by apply N2Z.is_nonneg;
    match goal with
    | |- context [digit_value ?c] =>
        let v := eval vm_compute in (digit_value c) in
        change (digit_value c) with v
    end;
    match goal with
    | |- context [Z.of_N (DecimalPos.Unsigned.of_lu ?d) * Z.of_N 10 ^ _] =>
        let v := eval vm_compute in (Z.of_N (DecimalPos.Unsigned.of_lu d)) in
        change (Z.of_N (DecimalPos.Unsigned.of_lu d)) with v
    end;
    change (Z.of_N 10) with 10; ring.
Qed.

Lemma digit_string d u :
  NilZero.uint_of_string d = Some u ->
  chars d <> [] /\ forallb is_digit (chars d) = true
  /\ decimal 0 (chars d) = Z.of_uint u.
Proof.
  intros H. assert (d <> EmptyString) as Hne by (by intros ->).
  assert (NilEmpty.uint_of_string d = Some u) as Hu by (by destruct d).
  apply NilEmpty.sus in Hu as <-. split; [|split].
  - intros Hnil. apply Hne. apply chars_inj. by rewrite Hnil.
  - apply digits_of_uint.
  - rewrite decimal_of_uint. unfold Z.of_uint.
    by rewrite DecimalPos.Unsigned.of_uint_alt.
Qed.

(** A digit string is an integer literal, with or without a minus
    sign in front. *)
Lemma digit_string_literal d u :
  NilZero.uint_of_string d = Some u ->
  int_literal d (Z.of_uint u) /\ int_literal ("-" +:+ d) (- Z.of_uint u).
Proof.
  intros (Hne & Hdig & Hval)%digit_string.
  pose proof (decimal_digit_groups _ Hne Hdig) as Hgrp. rewrite Hval in Hgrp.
  unfold int_literal. split.
  - pose proof (int_chars_intro [] [] 1 (chars d) _ [] eq_refl sign_none Hgrp eq_refl) as H.
    simpl in H. rewrite app_nil_r in H.
    by destruct (Z.of_uint u).
  - pose proof (int_chars_intro [] ["-"%char] (-1) (chars d) _ [] eq_refl sign_minus Hgrp eq_refl) as H.
    simpl in H. rewrite app_nil_r in H. rewrite chars_app.
    by destruct (Z.of_uint u).
Qed.

Lemma digit_string_ends d u :
  NilZero.uint_of_string d = Some u ->
  (exists c r, chars d = c :: r /\ is_digit c = true)
  /\ (exists r c, chars d = r ++ [c] /\ is_digit c = true).
Proof.
  intros (Hne & Hdig & _)%digit_string.
  pose proof (decimal_digit_groups _ Hne Hdig) as Hgrp.
  split; [by eapply digit_groups_head|by eapply digit_groups_last].
Qed.

End DigitFacts.

(** ** The parsers accept exactly the quantity syntax *)

Module ParseFacts.
Import Str PyInt Syntax StrFacts IntFacts.

Lemma endswith_split t u :
  endswith t u = true -> exists body, t = body +:+ u.
Proof.
  intros [pre Hpre]%endswith_true. exists (of_chars pre).
  apply chars_inj. by rewrite chars_app, chars_of_chars.
Qed.

(** Behind an appended unit at least as long as the suffix asked for,
    only the unit matters. *)
Lemma endswith_app_short s u1 u2 :
  (length (chars u2) <= length (chars u1))%nat ->
  endswith (s +:+ u1) u2 = endswith u1 u2.
Proof.
  intros Hlen. unfold endswith. rewrite chars_app, length_app.
  replace (length (chars s) + length (chars u1) - length (chars u2))%nat
    with (length (chars s) + (length (chars u1) - length (chars u2)))%nat by lia.
  rewrite drop_app_add'; [|done].
  f_equal. apply Nat.leb_le in Hlen as Hl. rewrite Hl.
  apply Nat.leb_le. lia.
Qed.

Lemma endswith_app_last s c c' u1 u2 :
  c <> c' -> endswith (s +:+ of_chars (u1 ++ [c])) (of_chars (u2 ++ [c'])) = false.
Proof.
  intros Hne. eapply (endswith_last_ne (chars s ++ u1) c u2 c'); [|by rewrite chars_of_chars|done].
  by rewrite chars_app, chars_of_chars, app_assoc.
Qed.

Lemma int_chars_last s v :
  int_chars s v ->
  exists pre c, s = pre ++ [c] /\ (is_digit c = true \/ PyInt.is_blank c = true).
Proof.
  intros [w1 sg sigma body n w2 Hw1 Hsg Hbody Hw2].
  destruct w2 as [|a w2 _] using rev_ind.
  - destruct (digit_groups_last _ _ Hbody) as (r & c & -> & Hc).
    exists (w1 ++ sg ++ r), c. rewrite app_nil_r, <- !app_assoc. auto.
  - exists (w1 ++ sg ++ body ++ w2), a. rewrite <- !app_assoc. split; [done|].
    right. rewrite forallb_app in Hw2. simpl in Hw2.
    apply andb_true_iff in Hw2 as [_ Ha]. by rewrite andb_true_r in Ha.
Qed.

(** A literal ends with a digit or a blank, hence with no unit letter. *)
Lemma literal_no_unit body n c u :
  int_literal body n -> is_digit c = false -> PyInt.is_blank c = false ->
  endswith body (of_chars (u ++ [c])) = false.
Proof.
  intros (pre & c0 & Hb & Hc0)%int_chars_last Hd Hs.
  apply (endswith_last_ne pre c0 u c); [done|by rewrite chars_of_chars|].
  intros ->. destruct Hc0; congruence.
Qed.

(** A unit holds no digit, so the limit on a quantity is the limit on
    its number. *)
Lemma within_limit_unit body unit :
  digit_count (chars unit) = 0%nat ->
  within_limit (body +:+ unit) <-> within_limit body.
Proof.
  intros Hu. unfold within_limit.
  by rewrite chars_app, digit_count_app, Hu, Nat.add_0_r.
Qed.

(** *** [parse_cpu] *)

Lemma parse_cpu_n body n :
  int_literal body n -> within_limit body ->
  parse_cpu (body +:+ "n") = Ok (n / 1000000).
Proof.
  intros Hlit Hlim. assert (PyInt.int body = Ok n) as H by by apply int_spec.
  unfold parse_cpu.
  rewrite endswith_app, (drop_last_app 1 body "n") by done. by rewrite H.
Qed.

Lemma parse_cpu_m body n :
  int_literal body n -> within_limit body -> parse_cpu (body +:+ "m") = Ok n.
Proof.
  intros Hlit Hlim. assert (PyInt.int body = Ok n) as H by by apply int_spec.
  unfold parse_cpu.
  rewrite (endswith_app_short body "m" "n") by (vm_compute; lia).
  change (endswith "m" "n") with false. cbn match.
  by rewrite endswith_app, (drop_last_app 1 body "m").
Qed.

Lemma parse_cpu_bare body n :
  int_literal body n -> within_limit body -> parse_cpu body = Ok (n * 1000).
Proof.
  intros H Hlim. unfold parse_cpu.
  assert (endswith body "n" = false) as ->
    by exact (literal_no_unit body n "n"%char [] H eq_refl eq_refl).
  assert (endswith body "m" = false) as ->
    by exact (literal_no_unit body n "m"%char [] H eq_refl eq_refl).
  assert (PyInt.int body = Ok n) as -> by by apply int_spec.
  done.
Qed.

(** What [parse_cpu] returns is the value of a CPU quantity... *)
Lemma parse_cpu_sound s v :
  parse_cpu s = Ok v -> cpu_quantity s v /\ within_limit s.
Proof.
  unfold parse_cpu, cpu_quantity.
  destruct (endswith s "n") eqn:Hn.
  { apply endswith_split in Hn as (body & ->).
    rewrite (drop_last_app 1 body "n") by done.
    destruct (PyInt.int body) as [n|] eqn:Hb; [|done].
    intros [= <-]. apply int_spec in Hb as [Hb Hlim].
    split; [exists body, n; auto|by apply within_limit_unit]. }
  destruct (endswith s "m") eqn:Hm.
  { apply endswith_split in Hm as (body & ->).
    rewrite (drop_last_app 1 body "m") by done.
    intros [Hb Hlim]%int_spec.
    split; [exists body, v; auto|by apply within_limit_unit]. }
  destruct (PyInt.int s) as [n|] eqn:Hb; [|done].
  intros [= <-]. apply int_spec in Hb as [Hb Hlim].
  split; [exists s, n; auto 6|done].
Qed.

(** ... and it returns on every CPU quantity within the digit limit. *)
Theorem parse_cpu_spec s v :
  parse_cpu s = Ok v <-> cpu_quantity s v /\ within_limit s.
Proof.
  split; [apply parse_cpu_sound|].
  intros [(body & n & Hb & [[-> ->]|[[-> ->]|[-> ->]]]) Hlim].
  + apply parse_cpu_n; [done|]. by apply within_limit_unit in Hlim.
  + apply parse_cpu_m; [done|]. by apply within_limit_unit in Hlim.
  + by apply parse_cpu_bare.
Qed.

Lemma parse_cpu_raises s e : parse_cpu s = Raise e -> e = ValueError.
Proof.
  unfold parse_cpu.
  destruct (endswith s "n"); [|destruct (endswith s "m")].
  - destruct (PyInt.int _) eqn:H; [done|]. intros [= <-]. by eapply int_raises.
  - apply int_raises.
  - destruct (PyInt.int _) eqn:H; [done|]. intros [= <-]. by eapply int_raises.
Qed.

(** *** [parse_memory] *)

Lemma app_empty_r s : s +:+ EmptyString = s.
Proof. apply chars_inj. by rewrite chars_app, app_nil_r. Qed.

Local Ltac unit_differs body u1 u2 :=
  rewrite (endswith_app_short body u1 u2) by (vm_compute; lia);
  change (endswith u1 u2) with false; cbn match.

Local Ltac last_differs body c c' u1 u2 :=
  let H := fresh in
  assert (endswith (body +:+ of_chars (u1 ++ [c])) (of_chars (u2 ++ [c'])) = false)
    as H by (by apply endswith_app_last);
  cbn in H; rewrite H; clear H; cbn match.

Local Ltac no_unit body n Hlit c u :=
  let H := fresh in
  pose proof (literal_no_unit body n c u Hlit eq_refl eq_refl) as H;
  cbn in H; rewrite H; clear H; cbn match.

Local Ltac unit_found k body u :=
  rewrite (endswith_app body u), (drop_last_app k body u) by done.

Lemma parse_memory_unit s body n unit mult :
  (unit, mult) ∈ memory_units -> int_literal body n -> within_limit body ->
  strip s = body +:+ unit -> parse_memory s = Ok (n * mult).
Proof.
  intros Hin Hlit Hlim Hs.
  assert (PyInt.int body = Ok n) as Hint by by apply int_spec.
  unfold parse_memory. rewrite Hs. clear Hs. unfold memory_units in Hin.
  repeat (apply elem_of_cons in Hin as [[= -> ->]|Hin]);
    [..|by apply elem_of_nil in Hin].
  - unit_found 2%nat body "Ki". by rewrite Hint.
  - unit_differs body "Mi" "Ki".
    unit_found 2%nat body "Mi". rewrite Hint. simpl. f_equal. lia.
  - unit_differs body "Gi" "Ki". unit_differs body "Gi" "Mi".
    unit_found 2%nat body "Gi". rewrite Hint. simpl. f_equal. lia.
  - last_differs body "K"%char "i"%char (@nil ascii) ["K"%char].
    last_differs body "K"%char "i"%char (@nil ascii) ["M"%char].
    last_differs body "K"%char "i"%char (@nil ascii) ["G"%char].
    unit_found 1%nat body "K". by rewrite Hint.
  - last_differs body "M"%char "i"%char (@nil ascii) ["K"%char].
    last_differs body "M"%char "i"%char (@nil ascii) ["M"%char].
    last_differs body "M"%char "i"%char (@nil ascii) ["G"%char].
    unit_differs body "M" "K".
    unit_found 1%nat body "M". rewrite Hint. simpl. f_equal. lia.
  - last_differs body "G"%char "i"%char (@nil ascii) ["K"%char].
    last_differs body "G"%char "i"%char (@nil ascii) ["M"%char].
    last_differs body "G"%char "i"%char (@nil ascii) ["G"%char].
    unit_differs body "G" "K". unit_differs body "G" "M".
    unit_found 1%nat body "G". rewrite Hint. simpl. f_equal. lia.
  - rewrite app_empty_r.
    no_unit body n Hlit "i"%char ["K"%char].
    no_unit body n Hlit "i"%char ["M"%char].
    no_unit body n Hlit "i"%char ["G"%char].
    no_unit body n Hlit "K"%char (@nil ascii).
    no_unit body n Hlit "M"%char (@nil ascii).
    no_unit body n Hlit "G"%char (@nil ascii).
    rewrite Hint. f_equal. lia.
Qed.

Local Ltac unit_read t k u mult :=
  let body := fresh "body" in
  let n := fresh "n" in
  let Hb := fresh "Hb" in
  let Hlim := fresh "Hlim" in
  let H := fresh "H" in
  match goal with
  | H : endswith t u = true |- _ =>
      apply endswith_split in H as (body & ->);
      rewrite (drop_last_app k body u) by done;
      destruct (PyInt.int body) as [n|] eqn:Hb; [|done];
      intros [= <-]; apply int_spec in Hb as [Hb Hlim];
      split; [|by apply within_limit_unit];
      exists body, n, u, mult; split; [set_solver|];
      split; [done|]; split; [done|lia]
  end.

(** What [parse_memory] returns is the value of a memory quantity... *)
Lemma parse_memory_sound s v :
  parse_memory s = Ok v -> memory_quantity s v /\ within_limit (strip s).
Proof.
  unfold parse_memory, memory_quantity, memory_units.
  generalize (strip s). intros t.
  destruct (endswith t "Ki") eqn:H1; [unit_read t 2%nat "Ki" 1024|].
  destruct (endswith t "Mi") eqn:H2; [unit_read t 2%nat "Mi" (1024 ^ 2)|].
  destruct (endswith t "Gi") eqn:H3; [unit_read t 2%nat "Gi" (1024 ^ 3)|].
  destruct (endswith t "K") eqn:H4; [unit_read t 1%nat "K" 1000|].
  destruct (endswith t "M") eqn:H5; [unit_read t 1%nat "M" (1000 ^ 2)|].
  destruct (endswith t "G") eqn:H6; [unit_read t 1%nat "G" (1000 ^ 3)|].
  intros [Hb Hlim]%int_spec. split; [|done].
  exists t, v, EmptyString, 1. split; [set_solver|].
  split; [done|]. split; [by rewrite app_empty_r|lia].
Qed.

(** ... and it returns on every memory quantity within the digit
    limit. *)
Theorem parse_memory_spec s v :
  parse_memory s = Ok v <-> memory_quantity s v /\ within_limit (strip s).
Proof.
  split; [apply parse_memory_sound|].
  intros [(body & n & unit & mult & Hin & Hb & Hs & ->) Hlim].
  eapply parse_memory_unit; [done..| |done].
  rewrite Hs in Hlim. apply within_limit_unit in Hlim; [done|].
  unfold memory_units in Hin.
  repeat (apply elem_of_cons in Hin as [[= -> ->]|Hin]); try done.
  by apply elem_of_nil in Hin.
Qed.

Lemma parse_memory_raises s e : parse_memory s = Raise e -> e = ValueError.
Proof.
  unfold parse_memory. generalize (strip s). intros t.
  repeat match goal with
         | |- context [if endswith t ?u then _ else _] => destruct (endswith t u)
         end;
    try apply int_raises;
    (destruct (PyInt.int _) eqn:H; [done|]; intros [= <-]; by eapply int_raises).
Qed.

End ParseFacts.

(** ** Quantities written with digits only *)

Module QuantityFacts.
Import Str PyInt Syntax StrFacts IntFacts DigitFacts ParseFacts.

Lemma app_assoc_str s1 s2 s3 : (s1 +:+ s2) +:+ s3 = s1 +:+ s2 +:+ s3.
Proof. apply chars_inj. by rewrite !chars_app, app_assoc. Qed.

Lemma strip_nonblank_ends s c r r' c' :
  chars s = c :: r -> chars s = r' ++ [c'] ->
  Str.isspace c = false -> Str.isspace c' = false -> strip s = s.
Proof.
  intros H1 H2 Hc Hc'. unfold strip, lstrip.
  rewrite H1, drop_while_head by done.
  rewrite <- H1, H2, rstrip_snoc by done.
  rewrite <- H2. apply of_chars_chars.
Qed.

(** A string that starts with a non-blank character and ends with a
    unit is left alone by [strip]. *)
Lemma strip_with_unit body c r u c' unit :
  chars body = c :: r -> Str.isspace c = false ->
  chars unit = u ++ [c'] -> Str.isspace c' = false ->
  strip (body +:+ unit) = body +:+ unit.
Proof.
  intros Hb Hc Hu Hc'.
  apply (strip_nonblank_ends _ c (r ++ chars unit) (chars body ++ u) c');
    [| |done..]; rewrite chars_app.
  - by rewrite Hb.
  - by rewrite Hu, app_assoc.
Qed.

Lemma parse_memory_digits body n c r unit mult u c' :
  int_literal body n -> within_limit body ->
  chars body = c :: r -> Str.isspace c = false ->
  (unit, mult) ∈ memory_units -> chars unit = u ++ [c'] ->
  Str.isspace c' = false ->
  parse_memory (body +:+ unit) = Ok (n * mult).
Proof.
  intros Hlit Hlim Hb Hc Hin Hu Hc'.
  apply (parse_memory_unit _ body n unit mult); [done..|].
  by eapply strip_with_unit.
Qed.

Lemma parse_memory_bare body n c r r' c' :
  int_literal body n -> within_limit body ->
  chars body = c :: r -> Str.isspace c = false ->
  chars body = r' ++ [c'] -> Str.isspace c' = false ->
  parse_memory body = Ok n.
Proof.
  intros Hlit Hlim Hb Hc Hb' Hc'.
  replace (Ok n) with (Ok (A := Z) (n * 1)) by (f_equal; lia).
  apply (parse_memory_unit _ body n EmptyString 1); [set_solver|done..|].
  rewrite app_empty_r. by eapply strip_nonblank_ends.
Qed.

(** A digit string has as many digits as characters, with or without a
    sign in front. *)
Lemma digit_string_limit d u :
  NilZero.uint_of_string d = Some u ->
  Z.of_nat (String.length d) <= max_str_digits ->
  within_limit d /\ within_limit ("-" +:+ d).
Proof.
  intros Hd Hlen. destruct (digit_string d u Hd) as (_ & Hdig & _).
  assert (within_limit d) as Hlim.
  { unfold within_limit. by rewrite (digit_count_digits _ Hdig), chars_length. }
  split; [done|]. unfold within_limit in *.
  by rewrite chars_app, digit_count_app.
Qed.

Lemma digit_string_over d u :
  NilZero.uint_of_string d = Some u ->
  max_str_digits < Z.of_nat (String.length d) ->
  ~ within_limit d.
Proof.
  intros Hd Hlen. destruct (digit_string d u Hd) as (_ & Hdig & _).
  unfold within_limit. rewrite (digit_count_digits _ Hdig), chars_length. lia.
Qed.

(** A digit string of more than 4300 digits is refused by [int]. *)
Lemma digit_string_refused d u :
  NilZero.uint_of_string d = Some u ->
  max_str_digits < Z.of_nat (String.length d) ->
  PyInt.int d = Raise ValueError.
Proof.
  intros Hd Hlen. destruct (PyInt.int d) as [v|e] eqn:Hint.
  - apply int_spec in Hint as [_ Hlim]. by apply (digit_string_over d u) in Hlim.
  - by apply int_raises in Hint as ->.
Qed.

(** Surrounding blanks do not change what [parse_memory] returns. *)
Lemma parse_memory_blank_around w1 s w2 :
  forallb Str.isspace (chars w1) = true ->
  forallb Str.isspace (chars w2) = true ->
  parse_memory (w1 +:+ s +:+ w2) = parse_memory s.
Proof.
  intros H1 H2. unfold parse_memory. by rewrite strip_blank_around.
Qed.

End QuantityFacts.

(** C1.  [parse_memory] applies to a digit string [d] the multiplier of
    its unit: [Ki], [Mi], [Gi] are the powers of 1024, [K], [M], [G] the
    powers of 1000, and a bare [d] is a number of bytes; the two-letter
    units are tested before the one-letter ones.  [d] has at most 4300
    digits, the length up to which [int] converts.  The fixtures of the
    specification follow. *)
Theorem parse_memory_multipliers :
  (forall d u, NilZero.uint_of_string d = Some u ->
     Z.of_nat (String.length d) <= PyInt.max_str_digits ->
     parse_memory (d +:+ "Ki") = Ok (Z.of_uint u * 1024)
     /\ parse_memory (d +:+ "Mi") = Ok (Z.of_uint u * 1024 ^ 2)
     /\ parse_memory (d +:+ "Gi") = Ok (Z.of_uint u * 1024 ^ 3)
     /\ parse_memory (d +:+ "K") = Ok (Z.of_uint u * 1000)
     /\ parse_memory (d +:+ "M") = Ok (Z.of_uint u * 1000 ^ 2)
     /\ parse_memory (d +:+ "G") = Ok (Z.of_uint u * 1000 ^ 3)
     /\ parse_memory d = Ok (Z.of_uint u))
  /\ parse_memory "1Ki" = Ok 1024
  /\ parse_memory "2Gi" = Ok 2147483648
  /\ parse_memory "1000M" = Ok 1000000000
  /\ parse_memory "1000000" = Ok 1000000.
Proof.
  split; [|by vm_compute].
  intros d u Hd Hlen.
  destruct (DigitFacts.digit_string_literal d u Hd) as [Hlit _].
  destruct (QuantityFacts.digit_string_limit d u Hd Hlen) as [Hlim _].
  destruct (DigitFacts.digit_string_ends d u Hd)
    as [(c & r & Hhead & Hc) (r' & c' & Hlast & Hc')].
  apply IntFacts.digit_not_space in Hc as (_ & Hc & _).
  apply IntFacts.digit_not_space in Hc' as (_ & Hc' & _).
  repeat split.
  - eapply (QuantityFacts.parse_memory_digits d _ c r "Ki" _ ["K"%char] "i"%char);
      [done..|set_solver|done|done].
  - eapply (QuantityFacts.parse_memory_digits d _ c r "Mi" _ ["M"%char] "i"%char);
      [done..|set_solver|done|done].
  - eapply (QuantityFacts.parse_memory_digits d _ c r "Gi" _ ["G"%char] "i"%char);
      [done..|set_solver|done|done].
  - eapply (QuantityFacts.parse_memory_digits d _ c r "K" _ [] "K"%char);
      [done..|set_solver|done|done].
  - eapply (QuantityFacts.parse_memory_digits d _ c r "M" _ [] "M"%char);
      [done..|set_solver|done|done].
  - eapply (QuantityFacts.parse_memory_digits d _ c r "G" _ [] "G"%char);
      [done..|set_solver|done|done].
  - by eapply QuantityFacts.parse_memory_bare.
Qed.

Lemma parse_memory_multipliers_witness :
  NilZero.uint_of_string "42" = Some (Decimal.D4 (Decimal.D2 Decimal.Nil))
  /\ parse_memory "42Ki" = Ok 43008
  /\ parse_memory "42M" = Ok 42000000.
Proof.
  split; [reflexivity|].
  destruct (proj1 parse_memory_multipliers "42"
              (Decimal.D4 (Decimal.D2 Decimal.Nil)) eq_refl)
    as (HKi & _ & _ & _ & HM & _).
  { by vm_compute. }
  split; [exact HKi|exact HM].
Defined.

(** C2.  [parse_cpu] on a digit string [d] of at most 4300 digits, the
    length up to which [int] converts: the suffix [n] is tested first and
    yields [d] floor-divided by 1000000, the suffix [m] yields [d]
    itself, and a bare [d] yields [d * 1000].  The fixtures of the
    specification follow. *)
Theorem parse_cpu_units :
  (forall d u, NilZero.uint_of_string d = Some u ->
     Z.of_nat (String.length d) <= PyInt.max_str_digits ->
     parse_cpu (d +:+ "n") = Ok (Z.of_uint u / 1000000)
     /\ parse_cpu (d +:+ "m") = Ok (Z.of_uint u)
     /\ parse_cpu d = Ok (Z.of_uint u * 1000))
  /\ parse_cpu "500m" = Ok 500
  /\ parse_cpu "2" = Ok 2000
  /\ parse_cpu "250000000n" = Ok 250.
Proof.
  split; [|by vm_compute].
  intros d u Hd Hlen.
  destruct (DigitFacts.digit_string_literal d u Hd) as [Hlit _].
  destruct (QuantityFacts.digit_string_limit d u Hd Hlen) as [Hlim _].
  repeat split.
  - by apply ParseFacts.parse_cpu_n.
  - by apply ParseFacts.parse_cpu_m.
  - by apply ParseFacts.parse_cpu_bare.
Qed.

Lemma parse_cpu_units_witness :
  NilZero.uint_of_string "1999999" = Some (N.to_uint 1999999)
  /\ parse_cpu "1999999n" = Ok 1
  /\ parse_cpu "1999999" = Ok 1999999000.
Proof.
  split; [reflexivity|].
  destruct (proj1 parse_cpu_units "1999999" (N.to_uint 1999999) eq_refl)
    as (Hn & _ & Hbare).
  { by vm_compute. }
  split; [exact Hn|exact Hbare].
Defined.

(** C4.  A string outside the quantity syntax makes the parser fail with
    [ValueError] (the specification's [MalformedQuantity]): no default is
    substituted.  Conversely a returned value is the one denoted by the
    literal and unit actually present, and no other exception is raised. *)
Theorem malformed_quantity_rejected s :
  ((forall v, ~ Syntax.cpu_quantity s v) -> parse_cpu s = Raise ValueError)
  /\ ((forall v, ~ Syntax.memory_quantity s v) -> parse_memory s = Raise ValueError)
  /\ (forall v, parse_cpu s = Ok v -> Syntax.cpu_quantity s v)
  /\ (forall v, parse_memory s = Ok v -> Syntax.memory_quantity s v)
  /\ (forall e, parse_cpu s = Raise e \/ parse_memory s = Raise e -> e = ValueError).
Proof.
  repeat split.
  - intros Hno. destruct (parse_cpu s) as [v|e] eqn:Hp.
    + by apply ParseFacts.parse_cpu_sound, proj1, Hno in Hp.
    + by apply ParseFacts.parse_cpu_raises in Hp as ->.
  - intros Hno. destruct (parse_memory s) as [v|e] eqn:Hp.
    + by apply ParseFacts.parse_memory_sound, proj1, Hno in Hp.
    + by apply ParseFacts.parse_memory_raises in Hp as ->.
  - intros v Hp. by apply ParseFacts.parse_cpu_sound in Hp as [Hp _].
  - intros v Hp. by apply ParseFacts.parse_memory_sound in Hp as [Hp _].
  - intros e [H|H];
      [by eapply ParseFacts.parse_cpu_raises|by eapply ParseFacts.parse_memory_raises].
Qed.

Lemma malformed_quantity_rejected_witness :
  (forall v, ~ Syntax.cpu_quantity "12x" v)
  /\ (forall v, ~ Syntax.memory_quantity "12Ti" v)
  /\ parse_cpu "12x" = Raise ValueError
  /\ parse_memory "12Ti" = Raise ValueError.
Proof.
  assert (forall v, ~ Syntax.cpu_quantity "12x" v) as Hcpu.
  { intros v Hq.
    assert (parse_cpu "12x" = Ok v) as Hp
      by (apply ParseFacts.parse_cpu_spec; split; [done|by vm_compute]).
    vm_compute in Hp. discriminate Hp. }
  assert (forall v, ~ Syntax.memory_quantity "12Ti" v) as Hmem.
  { intros v Hq.
    assert (parse_memory "12Ti" = Ok v) as Hp
      by (apply ParseFacts.parse_memory_spec; split; [done|by vm_compute]).
    vm_compute in Hp. discriminate Hp. }
  split; [exact Hcpu|]. split; [exact Hmem|]. split.
  - exact (proj1 (malformed_quantity_rejected "12x") Hcpu).
  - exact (proj1 (proj2 (malformed_quantity_rejected "12Ti")) Hmem).
Defined.

(** [parse_cpu] reads no quantity that has a blank behind its unit
    letter. *)
Lemma parse_cpu_blank_after_m d u w :
  NilZero.uint_of_string d = Some u ->
  w <> EmptyString -> forallb Str.isspace (Str.chars w) = true ->
  parse_cpu (d +:+ "m" +:+ w) = Raise ValueError.
Proof.
  intros Hd Hw Hsp.
  destruct (DigitFacts.digit_string d u Hd) as (Hne & Hdig & _).
  pose proof (DigitFacts.decimal_digit_groups _ Hne Hdig) as Hgrp.
  destruct (IntFacts.digit_groups_head _ _ Hgrp) as (c0 & r0 & Hhead & Hc0).
  destruct (IntFacts.digit_not_space c0 Hc0) as (Hb0 & _ & Hplus & Hminus).
  assert (exists r c, Str.chars w = r ++ [c] /\ Str.isspace c = true)
    as (r & c & Hlast & Hc).
  { destruct (Str.chars w) as [|a l] eqn:Hchars.
    - exfalso. apply Hw. apply StrFacts.chars_inj. by rewrite Hchars.
    - destruct (exists_last (l := a :: l)) as (r & c & Heq); [done|].
      exists r, c. split; [done|]. rewrite Heq, forallb_app in Hsp.
      apply andb_true_iff in Hsp as [_ Hc]. simpl in Hc.
      by rewrite andb_true_r in Hc. }
  assert (Str.chars (d +:+ "m" +:+ w)
          = (Str.chars d ++ "m"%char :: r) ++ [c]) as Hchars.
  { rewrite !StrFacts.chars_app, Hlast. simpl. by rewrite <- app_assoc. }
  unfold parse_cpu.
  rewrite (StrFacts.endswith_last_ne _ c [] "n"%char _ "n" Hchars eq_refl)
    by (intros ->; done).
  rewrite (StrFacts.endswith_last_ne _ c [] "m"%char _ "m" Hchars eq_refl)
    by (intros ->; done).
  unfold PyInt.int, PyInt.read.
  rewrite !StrFacts.chars_app, Hhead, <- app_comm_cons.
  rewrite StrFacts.drop_while_head by done.
  unfold PyInt.split_sign. rewrite Hplus, Hminus, Hc0.
  rewrite app_comm_cons, <- Hhead.
  by rewrite (IntFacts.scan_digits_groups _ _ _ Hgrp).
Qed.

(** C9.  [parse_memory] strips its argument before it looks for a unit,
    [parse_cpu] does not: blanks behind the unit letter make [parse_cpu]
    fail on a quantity that it reads without them (a digit string of at
    most 4300 digits and [m]), while [parse_memory] returns the same
    value with and without them. *)
Theorem parse_cpu_trailing_blank :
  (forall d u w,
     NilZero.uint_of_string d = Some u ->
     w <> EmptyString -> forallb Str.isspace (Str.chars w) = true ->
     (Z.of_nat (String.length d) <= PyInt.max_str_digits ->
      parse_cpu (d +:+ "m") = Ok (Z.of_uint u))
     /\ parse_cpu (d +:+ "m" +:+ w) = Raise ValueError
     /\ parse_memory ((d +:+ "Ki") +:+ w) = parse_memory (d +:+ "Ki"))
  /\ parse_cpu "500m" = Ok 500
  /\ parse_cpu "500m " = Raise ValueError
  /\ parse_memory " 500Ki " = parse_memory "500Ki".
Proof.
  split; [|by vm_compute].
  intros d u w Hd Hw Hsp. split; [|split].
  - intros Hlen. apply ParseFacts.parse_cpu_m.
    + by apply DigitFacts.digit_string_literal.
    + by apply (QuantityFacts.digit_string_limit d u).
  - by eapply parse_cpu_blank_after_m.
  - by apply (QuantityFacts.parse_memory_blank_around EmptyString (d +:+ "Ki") w).
Qed.

Lemma parse_cpu_trailing_blank_witness :
  NilZero.uint_of_string "250" = Some (N.to_uint 250)
  /\ parse_cpu "250m" = Ok 250
  /\ parse_cpu "250m  " = Raise ValueError.
Proof.
  split; [reflexivity|].
  destruct (proj1 parse_cpu_trailing_blank "250" (N.to_uint 250) "  "
              eq_refl ltac:(discriminate) eq_refl) as (Hok & Hfail & _).
  split; [apply Hok; by vm_compute|exact Hfail].
Defined.

(** ** The order on numbers *)

Module NumFacts.
Import PyNum.

Lemma fin_compare_shift c m1 e1 m2 e2 :
  c <= e1 -> c <= e2 ->
  fin_compare m1 e1 m2 e2 = (m1 * 2 ^ (e1 - c) ?= m2 * 2 ^ (e2 - c)).
Proof.
  intros H1 H2. unfold fin_compare.
  set (e := Z.min e1 e2).
  assert (c <= e) as He by (unfold e; lia).
  replace (e1 - c) with ((e1 - e) + (e - c)) by lia.
  replace (e2 - c) with ((e2 - e) + (e - c)) by lia.
  rewrite !Z.pow_add_r by (unfold e; lia).
  rewrite !Z.mul_assoc. apply Zmult_compare_compat_r.
  apply Z.lt_gt, Z.pow_pos_nonneg; lia.
Qed.

Lemma fin_compare_antisym m1 e1 m2 e2 :
  fin_compare m2 e2 m1 e1 = CompOpp (fin_compare m1 e1 m2 e2).
Proof.
  unfold fin_compare. rewrite (Z.min_comm e2 e1). apply Z.compare_antisym.
Qed.

Lemma xcompare_antisym a b : xcompare b a = CompOpp <$> xcompare a b.
Proof.
  destruct a as [|[]|m1 e1], b as [|[]|m2 e2]; simpl; try done.
  by rewrite fin_compare_antisym.
Qed.

Lemma xle_fin m1 e1 m2 e2 c :
  c <= e1 -> c <= e2 ->
  xle (XFin m1 e1) (XFin m2 e2) <-> m1 * 2 ^ (e1 - c) <= m2 * 2 ^ (e2 - c).
Proof.
  intros H1 H2. unfold xle. simpl. rewrite (fin_compare_shift c) by done.
  unfold Z.le. by destruct (_ ?= _).
Qed.

Lemma xle_trans a b c : xle a b -> xle b c -> xle a c.
Proof.
  destruct a as [|[]|m1 e1], b as [|[]|m2 e2], c as [|[]|m3 e3];
    try done.
  set (k := Z.min e1 (Z.min e2 e3)).
  rewrite (xle_fin m1 e1 m2 e2 k), (xle_fin m2 e2 m3 e3 k),
    (xle_fin m1 e1 m3 e3 k) by (unfold k; lia).
  lia.
Qed.

(** The four comparisons in terms of [xle]. *)
Lemma le_xle a b : le a b = true <-> xle (view a) (view b).
Proof.
  unfold le, compare, xle. destruct (xcompare _ _) as [[]|]; naive_solver.
Qed.

Lemma ge_xle a b : ge a b = true <-> xle (view b) (view a).
Proof.
  unfold ge, compare, xle. rewrite (xcompare_antisym (view a) (view b)).
  destruct (xcompare _ _) as [[]|]; naive_solver.
Qed.

Lemma lt_not_xle a b : lt a b = true -> ~ xle (view b) (view a).
Proof.
  unfold lt, compare, xle. rewrite (xcompare_antisym (view a) (view b)).
  destruct (xcompare _ _) as [[]|]; naive_solver.
Qed.

Lemma not_lt_xle a b :
  view a <> XNaN -> view b <> XNaN -> lt a b = false <-> xle (view b) (view a).
Proof.
  intros Ha Hb. unfold lt, compare, xle.
  rewrite (xcompare_antisym (view a) (view b)).
  destruct (view a) as [|[]|m1 e1], (view b) as [|[]|m2 e2]; simpl;
    try done.
  destruct (fin_compare _ _ _ _); naive_solver.
Qed.

Lemma xle_int a b : xle (XFin a 0) (XFin b 0) <-> a <= b.
Proof. rewrite (xle_fin a 0 b 0 0) by lia. simpl. lia. Qed.

Lemma ge_false_below r a b :
  lt r (Int a) = true -> a <= b -> ge r (Int b) = false.
Proof.
  intros Hlt Hab. apply not_true_is_false. intros Hge%ge_xle.
  apply lt_not_xle in Hlt. apply Hlt.
  apply (xle_trans _ (view (Int b))); [|done]. by apply xle_int.
Qed.

Lemma ge_mono r1 r2 c :
  le r1 r2 = true -> ge r1 c = true -> ge r2 c = true.
Proof.
  rewrite le_xle, !ge_xle. intros H12 H1. by eapply xle_trans.
Qed.

(** On numbers that are not NaN, [<] is a strict weak order. *)
Lemma lt_asym a b : lt a b = true -> lt b a = false.
Proof.
  unfold lt, compare. rewrite (xcompare_antisym (view a) (view b)).
  by destruct (xcompare _ _) as [[]|].
Qed.

Lemma lt_negtrans a b c :
  view a <> XNaN -> view b <> XNaN -> view c <> XNaN ->
  lt a b = false -> lt b c = false -> lt a c = false.
Proof.
  intros Ha Hb Hc. rewrite !not_lt_xle by done.
  intros H1 H2. by eapply xle_trans.
Qed.

End NumFacts.

(** ** Usage bands *)

(** The two float literals are binary64 numbers, [90.0] exactly and
    [89.999] to within half a unit in the last place. *)
Lemma float_literals :
  valid_binary PyNum.prec PyNum.emax float_90_0 = true
  /\ valid_binary PyNum.prec PyNum.emax float_89_999 = true
  /\ 0x16800000000000 = 90 * 2 ^ 46
  /\ 2 * Z.abs (1000 * 0x167fef9db22d0e - 89999 * 2 ^ 46) <= 1000.
Proof. by vm_compute. Qed.

Lemma classify_cases r :
  classify r =
    Some (if PyNum.ge r (PyNum.Int 90) then Critical
          else if PyNum.ge r (PyNum.Int 75) then High
          else if PyNum.ge r (PyNum.Int 50) then Medium
          else Low).
Proof.
  unfold classify, get_color_for_usage.
  by repeat destruct (PyNum.ge r _).
Qed.

(** C5.  [classify] has inclusive lower bounds: a ratio of at least 90
    is Critical, one in [75, 90) is High, one in [50, 75) is Medium and
    one below 50 is Low; [90.0] is Critical, [89.999] is High, and the
    band never decreases when the ratio increases. *)
Theorem classify_bands :
  (forall r, PyNum.ge r (PyNum.Int 90) = true -> classify r = Some Critical)
  /\ (forall r, PyNum.ge r (PyNum.Int 75) = true ->
                PyNum.lt r (PyNum.Int 90) = true -> classify r = Some High)
  /\ (forall r, PyNum.ge r (PyNum.Int 50) = true ->
                PyNum.lt r (PyNum.Int 75) = true -> classify r = Some Medium)
  /\ (forall r, PyNum.lt r (PyNum.Int 50) = true -> classify r = Some Low)
  /\ classify (PyNum.Float float_90_0) = Some Critical
  /\ classify (PyNum.Float float_89_999) = Some High
  /\ (forall r1 r2, PyNum.le r1 r2 = true ->
        exists b1 b2, classify r1 = Some b1 /\ classify r2 = Some b2
                      /\ (severity b1 <= severity b2)%nat).
Proof.
  split; [|split; [|split; [|split; [|split; [|split]]]]]; try by vm_compute.
  - intros r H. by rewrite classify_cases, H.
  - intros r H75 H90. rewrite classify_cases, H75.
    by rewrite (NumFacts.ge_false_below r 90 90 H90).
  - intros r H50 H75. rewrite classify_cases, H50.
    rewrite (NumFacts.ge_false_below r 75 90 H75) by lia.
    by rewrite (NumFacts.ge_false_below r 75 75 H75).
  - intros r H50. rewrite classify_cases.
    rewrite (NumFacts.ge_false_below r 50 90 H50) by lia.
    rewrite (NumFacts.ge_false_below r 50 75 H50) by lia.
    by rewrite (NumFacts.ge_false_below r 50 50 H50).
  - intros r1 r2 Hle. rewrite !classify_cases. eexists _, _.
    split; [done|]. split; [done|].
    pose proof (NumFacts.ge_mono r1 r2 (PyNum.Int 90) Hle) as H90.
    pose proof (NumFacts.ge_mono r1 r2 (PyNum.Int 75) Hle) as H75.
    pose proof (NumFacts.ge_mono r1 r2 (PyNum.Int 50) Hle) as H50.
    destruct (PyNum.ge r1 (PyNum.Int 90)); [by rewrite H90|].
    destruct (PyNum.ge r1 (PyNum.Int 75)).
    { rewrite H75 by done. destruct (PyNum.ge r2 _); simpl; lia. }
    destruct (PyNum.ge r1 (PyNum.Int 50)).
    { rewrite H50 by done. repeat destruct (PyNum.ge r2 _); simpl; lia. }
    repeat destruct (PyNum.ge r2 _); simpl; lia.
Qed.

Lemma classify_bands_witness :
  PyNum.ge (PyNum.Int 80) (PyNum.Int 75) = true
  /\ PyNum.lt (PyNum.Int 80) (PyNum.Int 90) = true
  /\ classify (PyNum.Int 80) = Some High
  /\ PyNum.le (PyNum.Float float_89_999) (PyNum.Float float_90_0) = true
  /\ exists b1 b2, classify (PyNum.Float float_89_999) = Some b1
                   /\ classify (PyNum.Float float_90_0) = Some b2
                   /\ (severity b1 <= severity b2)%nat.
Proof.
  destruct classify_bands as (_ & Hhigh & _ & _ & _ & _ & Hmono).
  split; [reflexivity|]. split; [reflexivity|].
  split; [exact (Hhigh (PyNum.Int 80) eq_refl eq_refl)|].
  split; [reflexivity|].
  exact (Hmono (PyNum.Float float_89_999) (PyNum.Float float_90_0) eq_refl).
Defined.

(** ** The error monad *)

Module ResultFacts.

Lemma bind_raises {A B} (r : result A) (k : A -> result B) e :
  bind r k = Raise e ->
  r = Raise e \/ exists a, r = Ok a /\ k a = Raise e.
Proof. destruct r as [a|e']; simpl; [eauto|]. intros [= ->]. by left. Qed.

Lemma bind_ok {A B} (r : result A) (k : A -> result B) b :
  bind r k = Ok b -> exists a, r = Ok a /\ k a = Ok b.
Proof. destruct r as [a|e']; simpl; [eauto|done]. Qed.

Lemma mapM_raises {A B} (f : A -> result B) l e :
  mapM f l = Raise e -> exists x, x ∈ l /\ f x = Raise e.
Proof.
  induction l as [|x l IH]; simpl; [done|].
  intros [H|(y & _ & [H|(? & _ & H)]%bind_raises)]%bind_raises; [..|done].
  - exists x. split; [left|done].
  - destruct (IH H) as (x' & ? & ?). exists x'. split; [by right|done].
Qed.

Lemma filterM_raises {A} (p : A -> result bool) l e :
  filterM p l = Raise e -> exists x, x ∈ l /\ p x = Raise e.
Proof.
  induction l as [|x l IH]; simpl; [done|].
  intros [H|(y & _ & [H|(? & _ & H)]%bind_raises)]%bind_raises; [..|done].
  - exists x. split; [left|done].
  - destruct (IH H) as (x' & ? & ?). exists x'. split; [by right|done].
Qed.

End ResultFacts.

(** ** Ratios and zero capacities *)

Module RatioFacts.
Import PyNum ResultFacts.

Lemma truediv_raises a b e :
  truediv a b = Raise e ->
  (b = 0 /\ e = ZeroDivisionError) \/ (b <> 0 /\ e = OverflowError).
Proof.
  unfold truediv. destruct (Z.eqb_spec b 0) as [->|Hb].
  - intros [= <-]. by left.
  - destruct (is_finite _); [done|]. intros [= <-]. by right.
Qed.

Lemma truediv_finite a b q : truediv a b = Ok q -> is_finite q = true.
Proof.
  unfold truediv. destruct (b =? 0); [done|].
  destruct (is_finite _) eqn:H; [|done]. by intros [= <-].
Qed.

Lemma float_of_int_100 :
  float_of_int 100 = Ok (S754_finite false 7036874417766400 (-46)).
Proof. by vm_compute. Qed.

Lemma mul_int_100 q : exists p, mul_int q 100 = Ok p.
Proof. unfold mul_int. rewrite float_of_int_100. simpl. eauto. Qed.

(** A positive capacity rules out the division by zero; any failure
    is an overflow of the quotient. *)
Lemma percent_of_raises u c e : percent_of u c = Raise e -> e = OverflowError.
Proof.
  unfold percent_of. destruct (Z.ltb_spec 0 c) as [Hc|Hc]; [|done].
  intros [H|(q & _ & H)]%bind_raises.
  - apply truediv_raises in H as [[? _]|[_ ?]]; [lia|done].
  - destruct (mul_int_100 q) as [p Hp]. by rewrite Hp in H.
Qed.

Lemma ratio_key_raises u c e : ratio_key u c = Raise e -> e = OverflowError.
Proof.
  unfold ratio_key. destruct (Z.ltb_spec 0 c) as [Hc|Hc]; [|done].
  intros [H|(q & _ & H)]%bind_raises; [|done].
  apply truediv_raises in H as [[? _]|[_ ?]]; [lia|done].
Qed.

Lemma above_75_raises u c e : above_75 u c = Raise e -> e = OverflowError.
Proof.
  unfold above_75. destruct (Z.ltb_spec 0 c) as [Hc|Hc]; [|done].
  intros [H|(q & _ & H)]%bind_raises.
  - apply truediv_raises in H as [[? _]|[_ ?]]; [lia|done].
  - destruct (mul_int_100 q) as [p Hp]. by rewrite Hp in H.
Qed.

Lemma high_usage_raises n e : high_usage n = Raise e -> e = OverflowError.
Proof.
  unfold high_usage. intros [H|(c & _ & H)]%bind_raises.
  - by eapply above_75_raises.
  - destruct c; [done|]. by eapply above_75_raises.
Qed.

Lemma print_node_details_raises n e :
  print_node_details n = Raise e -> e = OverflowError.
Proof.
  unfold print_node_details.
  intros [H|(? & _ & [H|(? & _ & [H|(? & _ & H)]%bind_raises)]%bind_raises)]%bind_raises;
    try done; by eapply percent_of_raises.
Qed.

Lemma print_summary_raises nodes e :
  print_summary nodes = Raise e -> e = OverflowError.
Proof.
  unfold print_summary.
  intros [H|(? & _ & [H|(? & _ & H)]%bind_raises)]%bind_raises;
    try done; by eapply percent_of_raises.
Qed.

Lemma sort_raises {A K} (key : A -> result K) ltb r l e :
  PyList.sort key ltb r l = Raise e -> exists x, x ∈ l /\ key x = Raise e.
Proof.
  unfold PyList.sort. intros [H|(? & _ & H)]%bind_raises; [|done].
  apply mapM_raises in H as (x & Hx & H). exists x. split; [done|].
  by apply bind_raises in H as [H|(? & _ & H)].
Qed.

Lemma main_raises ft fh sb nodes e :
  main ft fh sb nodes = Raise e -> e = OverflowError.
Proof.
  unfold main. intros [H|(l & _ & H)]%bind_raises.
  - unfold filter_stage in H. destruct fh; [|done].
    apply filterM_raises in H as (x & _ & H). by eapply high_usage_raises.
  - destruct sb; simpl in H; apply sort_raises in H as (x & _ & H);
      unfold cpu_key, memory_key, pods_key, name_key in H;
      first [exact (ratio_key_raises _ _ _ H)|discriminate H].
Qed.

Lemma percent_of_zero u : percent_of u 0 = Ok (Int 0).
Proof. done. Qed.

End RatioFacts.

(** C3.  A capacity of zero gives the ratio 0: in the percentages of
    [print_node_details], in the [--filter-high-usage] predicate (whose
    test on that resource is then false, as for a ratio of 0), in the
    numeric sort keys and in the cluster-wide percentages of
    [print_summary]; and no ratio computation, on any input, raises
    [ZeroDivisionError]. *)
Theorem zero_capacity_ratios :
  (forall n,
     (cpu_capacity n = 0 ->
        percent_of (cpu_usage n) (cpu_capacity n) = Ok (PyNum.Int 0)
        /\ cpu_key n = Ok (PyNum.Int 0)
        /\ above_75 (cpu_usage n) (cpu_capacity n) = Ok false)
     /\ (memory_capacity n = 0 ->
        percent_of (memory_usage n) (memory_capacity n) = Ok (PyNum.Int 0)
        /\ memory_key n = Ok (PyNum.Int 0)
        /\ above_75 (memory_usage n) (memory_capacity n) = Ok false)
     /\ (pod_capacity n = 0 ->
        percent_of (pod_count n) (pod_capacity n) = Ok (PyNum.Int 0)
        /\ pods_key n = Ok (PyNum.Int 0))
     /\ (cpu_capacity n = 0 -> memory_capacity n = 0 -> high_usage n = Ok false)
     /\ (forall d, print_node_details n = Ok d ->
           (cpu_capacity n = 0 -> node_cpu_percent d = PyNum.Int 0)
           /\ (memory_capacity n = 0 -> node_mem_percent d = PyNum.Int 0)
           /\ (pod_capacity n = 0 -> node_pod_percent d = PyNum.Int 0))
     /\ (cpu_capacity n = 0 -> memory_capacity n = 0 -> pod_capacity n = 0 ->
           exists d, print_node_details n = Ok d))
  /\ (forall nodes,
        (forall s, print_summary nodes = Ok s ->
           (total_cpu_capacity s = 0 -> cpu_percent s = PyNum.Int 0)
           /\ (total_mem_capacity s = 0 -> mem_percent s = PyNum.Int 0))
        /\ (PyList.sum (cpu_capacity <$> nodes) = 0 ->
            PyList.sum (memory_capacity <$> nodes) = 0 ->
            exists s, print_summary nodes = Ok s))
  /\ (forall n nodes ft fh sb,
        print_node_details n <> Raise ZeroDivisionError
        /\ high_usage n <> Raise ZeroDivisionError
        /\ print_summary nodes <> Raise ZeroDivisionError
        /\ main ft fh sb nodes <> Raise ZeroDivisionError).
Proof.
  split; [|split].
  - intros n.
    split; [|split; [|split; [|split; [|split]]]].
    + unfold cpu_key, percent_of, ratio_key, above_75. by intros ->.
    + unfold memory_key, percent_of, ratio_key, above_75. by intros ->.
    + unfold pods_key, percent_of, ratio_key. by intros ->.
    + unfold high_usage, above_75. by intros -> ->.
    + intros d. unfold print_node_details.
      intros (p1 & H1 & (p2 & H2 & (p3 & H3 & [= <-])%ResultFacts.bind_ok)
                %ResultFacts.bind_ok)%ResultFacts.bind_ok.
      simpl. repeat split; intros Hz; rewrite Hz in *;
        rewrite RatioFacts.percent_of_zero in *; congruence.
    + intros H1 H2 H3. unfold print_node_details.
      rewrite H1, H2, H3, !RatioFacts.percent_of_zero. simpl. eauto.
  - intros nodes. split.
    + intros s. unfold print_summary.
      intros (p1 & H1 & (p2 & H2 & [= <-])%ResultFacts.bind_ok)%ResultFacts.bind_ok.
      simpl. split; intros Hz; rewrite Hz in *;
        rewrite RatioFacts.percent_of_zero in *; congruence.
    + intros H1 H2. unfold print_summary.
      rewrite H1, H2, !RatioFacts.percent_of_zero. simpl. eauto.
  - intros n nodes ft fh sb. repeat split; intros H.
    + by apply RatioFacts.print_node_details_raises in H.
    + by apply RatioFacts.high_usage_raises in H.
    + by apply RatioFacts.print_summary_raises in H.
    + by apply RatioFacts.main_raises in H.
Qed.

Lemma zero_capacity_ratios_witness :
  cpu_capacity unregistered = 0
  /\ cpu_key unregistered = Ok (PyNum.Int 0)
  /\ high_usage unregistered = Ok false
  /\ exists d, print_node_details unregistered = Ok d.
Proof.
  destruct (proj1 zero_capacity_ratios unregistered)
    as (Hcpu & _ & _ & Hhigh & _ & Hall).
  split; [reflexivity|].
  split; [exact (proj1 (proj2 (Hcpu eq_refl)))|].
  split; [exact (Hhigh eq_refl eq_refl)|].
  exact (Hall eq_refl eq_refl eq_refl).
Defined.

(** ** The summary does not depend on the order of the nodes *)

Module SummaryFacts.

Lemma sum_from_perm (l l' : list Z) :
  l ≡ₚ l' -> forall a, foldl Z.add a l = foldl Z.add a l'.
Proof.
  induction 1 as [|x l l' _ IH|x y l|l1 l2 l3 _ IH1 _ IH2]; intros a; simpl.
  - done.
  - apply IH.
  - f_equal. lia.
  - by rewrite IH1.
Qed.

Lemma sum_perm (l l' : list Z) : l ≡ₚ l' -> PyList.sum l = PyList.sum l'.
Proof. intros H. by apply sum_from_perm. Qed.

Lemma filter_perm {A} (p : A -> bool) (l l' : list A) :
  l ≡ₚ l' -> List.filter p l ≡ₚ List.filter p l'.
Proof.
  induction 1 as [|x l l' _ IH|x y l|l1 l2 l3 _ IH1 _ IH2]; simpl.
  - done.
  - destruct (p x); by rewrite IH.
  - destruct (p x), (p y); try done. apply perm_swap.
  - by etrans.
Qed.

Lemma sum_field_perm (f : NodeMetrics -> Z) l l' :
  l ≡ₚ l' -> PyList.sum (f <$> l) = PyList.sum (f <$> l').
Proof. intros H. apply sum_perm. by rewrite H. Qed.

Lemma count_perm (p : NodeMetrics -> bool) l l' :
  l ≡ₚ l' ->
  PyList.sum ((fun _ => 1) <$> List.filter p l)
  = PyList.sum ((fun _ => 1) <$> List.filter p l').
Proof. intros H. apply sum_perm. by rewrite (filter_perm p l l' H). Qed.

End SummaryFacts.

(** C6.  [print_summary] is order-invariant: on a permutation of the
    node list it computes the same counts, sums and cluster-wide
    percentages (or raises the same exception). *)
Theorem print_summary_order_invariant nodes nodes' :
  nodes ≡ₚ nodes' -> print_summary nodes = print_summary nodes'.
Proof.
  intros H. unfold print_summary.
  rewrite (Permutation_length H).
  rewrite (SummaryFacts.count_perm is_ready _ _ H).
  rewrite (SummaryFacts.count_perm has_taints _ _ H).
  rewrite (SummaryFacts.sum_field_perm cpu_usage _ _ H).
  rewrite (SummaryFacts.sum_field_perm cpu_capacity _ _ H).
  rewrite (SummaryFacts.sum_field_perm memory_usage _ _ H).
  rewrite (SummaryFacts.sum_field_perm memory_capacity _ _ H).
  by rewrite (SummaryFacts.sum_field_perm pod_count _ _ H).
Qed.

Lemma print_summary_order_invariant_witness :
  [NodeA; NodeB; NodeC] ≡ₚ [NodeB; NodeC; NodeA]
  /\ print_summary [NodeA; NodeB; NodeC] = print_summary [NodeB; NodeC; NodeA].
Proof.
  assert ([NodeA; NodeB; NodeC] ≡ₚ [NodeB; NodeC; NodeA]) as Hperm.
  { apply (Permutation_cons_append [NodeB; NodeC] NodeA). }
  split; [exact Hperm|].
  exact (print_summary_order_invariant _ _ Hperm).
Defined.

(** ** The stable sort *)

Module SortFacts.
Section StableSort.
Context {A : Type} (ltb : A -> A -> bool) (good : A -> Prop).
Hypothesis ltb_asym :
  forall a b, good a -> good b -> ltb a b = true -> ltb b a = false.
Hypothesis ltb_negtrans :
  forall a b c, good a -> good b -> good c ->
    ltb a b = false -> ltb b c = false -> ltb a c = false.

Let leq (a b : A) : Prop := ltb b a = false.
Let equiv (k a : A) : bool := negb (ltb k a) && negb (ltb a k).

Lemma insert_perm x l : PyList.insert ltb x l ≡ₚ x :: l.
Proof.
  induction l as [|y l IH]; simpl; [done|].
  destruct (ltb y x); [|done]. rewrite IH. apply perm_swap.
Qed.

Lemma stable_sort_perm l : PyList.stable_sort ltb l ≡ₚ l.
Proof.
  induction l as [|x l IH]; simpl; [done|].
  by rewrite insert_perm, IH.
Qed.

Lemma insert_sorted x l :
  good x -> Forall good l ->
  StronglySorted leq l -> StronglySorted leq (PyList.insert ltb x l).
Proof.
  intros Hx Hl Hs. induction Hs as [|y l Hs IH Hy]; simpl.
  { repeat constructor. }
  apply Forall_cons in Hl as [Hgy Hl].
  destruct (ltb y x) eqn:Hyx.
  - constructor; [by apply IH|].
    rewrite insert_perm. constructor; [|done].
    unfold leq. by apply ltb_asym.
  - constructor; [by constructor|].
    constructor; [done|].
    rewrite Forall_forall in Hy, Hl. apply Forall_forall. intros z Hz.
    unfold leq in *. apply (ltb_negtrans z y x); auto.
Qed.

Lemma stable_sort_sorted l :
  Forall good l -> StronglySorted leq (PyList.stable_sort ltb l).
Proof.
  induction l as [|x l IH]; simpl; [constructor|].
  intros [Hx Hl]%Forall_cons. apply insert_sorted; [done| |by apply IH].
  by rewrite stable_sort_perm.
Qed.

(** Insertion does not move an element past one of equal rank. *)
Lemma insert_filter k x l :
  good k -> good x -> Forall good l ->
  List.filter (equiv k) (PyList.insert ltb x l)
  = List.filter (equiv k) (x :: l).
Proof.
  intros Hk Hx Hl. induction l as [|y l IH]; [done|].
  apply Forall_cons in Hl as [Hy Hl]. cbn [PyList.insert].
  destruct (ltb y x) eqn:Hyx; [|done].
  cbn [List.filter] in *. rewrite (IH Hl).
  destruct (equiv k x) eqn:Hkx; [|done].
  destruct (equiv k y) eqn:Hky; [|done].
  unfold equiv in *.
  apply andb_true_iff in Hkx as [Hkx%negb_true_iff _].
  apply andb_true_iff in Hky as [_ Hyk%negb_true_iff].
  rewrite (ltb_negtrans y k x) in Hyx; done.
Qed.

Lemma stable_sort_stable k l :
  good k -> Forall good l ->
  List.filter (equiv k) (PyList.stable_sort ltb l) = List.filter (equiv k) l.
Proof.
  intros Hk. induction l as [|x l IH]; [done|].
  intros [Hx Hl]%Forall_cons. cbn [PyList.stable_sort foldr].
  fold (PyList.stable_sort ltb l).
  rewrite insert_filter; [|done..|by rewrite stable_sort_perm].
  cbn [List.filter]. by rewrite IH.
Qed.

Lemma StronglySorted_reverse (R : relation A) l :
  StronglySorted R l -> StronglySorted (flip R) (reverse l).
Proof.
  induction 1 as [|x l Hs IH Hx]; [constructor|].
  rewrite reverse_cons. apply StronglySorted_app. split; [|split].
  - intros x1 x2 Hx1 Hx2. rewrite elem_of_reverse in Hx1.
    apply list_elem_of_singleton in Hx2 as ->.
    rewrite Forall_forall in Hx. by apply Hx.
  - done.
  - repeat constructor.
Qed.

Lemma filter_reverse (p : A -> bool) l :
  List.filter p (reverse l) = reverse (List.filter p l).
Proof. unfold reverse. rewrite <- !rev_alt. apply List.filter_rev. Qed.

(** The three properties of [sort_with]: it permutes, it orders
    (downwards with [reverse=True]), and it is stable. *)
Lemma sort_with_perm r l : PyList.sort_with ltb r l ≡ₚ l.
Proof.
  destruct r; simpl; [|apply stable_sort_perm].
  by rewrite reverse_Permutation, stable_sort_perm, reverse_Permutation.
Qed.

Lemma sort_with_sorted (r : bool) l :
  Forall good l ->
  StronglySorted (fun a b => (if r then ltb a b else ltb b a) = false)
    (PyList.sort_with ltb r l).
Proof.
  intros Hl. destruct r; simpl; [|by apply stable_sort_sorted].
  apply (StronglySorted_reverse leq), stable_sort_sorted.
  by rewrite reverse_Permutation.
Qed.

Lemma sort_with_stable r k l :
  good k -> Forall good l ->
  List.filter (equiv k) (PyList.sort_with ltb r l) = List.filter (equiv k) l.
Proof.
  intros Hk Hl. destruct r; simpl; [|by apply stable_sort_stable].
  rewrite filter_reverse, stable_sort_stable, filter_reverse;
    [apply reverse_involutive|done|by rewrite reverse_Permutation].
Qed.
End StableSort.
End SortFacts.

(** ** [list.sort] with a key *)

Module KeySortFacts.
Import SortSpec.

Section KeySort.
Context {A K : Type} (key : A -> result K) (ltb : K -> K -> bool).
Context (good : K -> Prop).
Hypothesis ltb_asym :
  forall a b, good a -> good b -> ltb a b = true -> ltb b a = false.
Hypothesis ltb_negtrans :
  forall a b c, good a -> good b -> good c ->
    ltb a b = false -> ltb b c = false -> ltb a c = false.
Hypothesis key_good : forall x k, key x = Ok k -> good k.

Let keyed (p : K * A) : Prop := key p.2 = Ok p.1.
Let ltb2 (a b : K * A) : bool := ltb a.1 b.1.

Lemma decorate_ok l ks :
  mapM (fun x => k <- key x ;; Ok (k, x)) l = Ok ks ->
  ks.*2 = l /\ Forall keyed ks.
Proof.
  revert ks. induction l as [|x l IH]; intros ks; simpl.
  { by intros [= <-]. }
  intros (p & Hp & (ks' & Hks & [= <-])%ResultFacts.bind_ok)%ResultFacts.bind_ok.
  apply ResultFacts.bind_ok in Hp as (k & Hk & [= <-]).
  destruct (IH _ Hks) as [<- Hall]. split; [done|].
  by constructor.
Qed.

Lemma StronglySorted_and (R : relation (K * A)) (P : K * A -> Prop) l :
  StronglySorted R l -> Forall P l ->
  StronglySorted (fun a b => P a /\ P b /\ R a b) l.
Proof.
  induction 1 as [|a l Hs IH Ha]; [constructor|].
  intros [HPa HPl]%Forall_cons. constructor; [by apply IH|].
  rewrite Forall_forall in *. naive_solver.
Qed.

Theorem sort_spec (r : bool) l out :
  PyList.sort key ltb r l = Ok out ->
  out ≡ₚ l
  /\ StronglySorted (if r then descending key ltb else ascending key ltb) out
  /\ forall x, List.filter (same_key key ltb x) out
               = List.filter (same_key key ltb x) l.
Proof.
  unfold PyList.sort.
  intros (ks & Hks & [= <-])%ResultFacts.bind_ok.
  apply decorate_ok in Hks as [<- Hkeyed].
  fold ltb2.
  assert (Forall (fun p => good p.1) ks) as Hgood.
  { eapply Forall_impl; [exact Hkeyed|]. intros [k x] Hp. by eapply key_good. }
  pose proof (SortFacts.sort_with_perm ltb2 r ks) as Hperm.
  assert (Forall keyed (PyList.sort_with ltb2 r ks)) as Hkeyed'
    by (by rewrite Hperm).
  split; [by rewrite Hperm|]. split.
  - pose proof (SortFacts.sort_with_sorted ltb2 (fun p => good p.1)) as Hs.
    specialize (Hs ltac:(unfold ltb2; eauto) ltac:(unfold ltb2; eauto) r ks Hgood).
    eapply StronglySorted_fmap; [|exact (StronglySorted_and _ _ _ Hs Hkeyed')].
    intros [kx x] [ky y] (Hx & Hy & Hxy). unfold keyed, ltb2 in *. simpl in *.
    destruct r; [exists kx, ky|exists kx, ky]; done.
  - intros x. unfold fmap, list_fmap. fold (@map (K * A) A snd).
    change (list_fmap _ _ snd) with (@map (K * A) A snd).
    rewrite !List.filter_map_swap. f_equal.
    destruct (key x) as [kx|e] eqn:Hkx.
    + pose proof (SortFacts.sort_with_stable ltb2 (fun p => good p.1)) as Hst.
      specialize (Hst ltac:(unfold ltb2; eauto) r (kx, x) ks
                      (key_good _ _ Hkx) Hgood).
      rewrite (List.filter_ext_in
                 (fun p => same_key key ltb x p.2)
                 (fun p => negb (ltb2 (kx, x) p) && negb (ltb2 p (kx, x)))
                 (PyList.sort_with ltb2 r ks)).
      2:{ intros [ky y] Hin%list_elem_of_In. rewrite Forall_forall in Hkeyed'.
          specialize (Hkeyed' _ Hin). unfold keyed, same_key in *.
          simpl in *. by rewrite Hkx, Hkeyed'. }
      rewrite Hst. symmetry. apply List.filter_ext_in.
      intros [ky y] Hin%list_elem_of_In. rewrite Forall_forall in Hkeyed.
      specialize (Hkeyed _ Hin). unfold keyed, same_key in *.
      simpl in *. by rewrite Hkx, Hkeyed.
    + assert (forall l : list (K * A),
                List.filter (fun p => same_key key ltb x p.2) l = []) as Hnone.
      { induction l as [|p l IH]; [done|]. simpl. unfold same_key at 1.
        by rewrite Hkx. }
      by rewrite !Hnone.
Qed.
End KeySort.
End KeySortFacts.

(** ** The pipeline of [main] *)

Module PipelineFacts.
Import SortSpec.

Lemma ratio_key_ordered u c k : ratio_key u c = Ok k -> PyNum.ordered_num k.
Proof.
  unfold ratio_key, PyNum.ordered_num. destruct (0 <? c); [|by intros [= <-]].
  intros (q & Hq%RatioFacts.truediv_finite & [= <-])%ResultFacts.bind_ok.
  by destruct q.
Qed.

Lemma num_sort_spec (key : NodeMetrics -> result PyNum.num) r l out :
  (forall x k, key x = Ok k -> PyNum.ordered_num k) ->
  PyList.sort key PyNum.lt r l = Ok out ->
  out ≡ₚ l
  /\ StronglySorted (if r then descending key PyNum.lt
                     else ascending key PyNum.lt) out
  /\ forall x, List.filter (same_key key PyNum.lt x) out
               = List.filter (same_key key PyNum.lt x) l.
Proof.
  intros Hkey. apply (KeySortFacts.sort_spec key PyNum.lt PyNum.ordered_num).
  - intros a b _ _. apply NumFacts.lt_asym.
  - intros a b c. apply NumFacts.lt_negtrans.
  - done.
Qed.

Lemma string_ltb_false a b : String.ltb a b = false <-> String.leb b a = true.
Proof.
  unfold String.ltb, String.leb. rewrite (String.compare_antisym b a).
  destruct (String.compare a b); naive_solver.
Qed.

Lemma name_sort_spec r l out :
  PyList.sort name_key String.ltb r l = Ok out ->
  out ≡ₚ l
  /\ StronglySorted (if r then descending name_key String.ltb
                     else ascending name_key String.ltb) out
  /\ forall x, List.filter (same_key name_key String.ltb x) out
               = List.filter (same_key name_key String.ltb x) l.
Proof.
  apply (KeySortFacts.sort_spec name_key String.ltb (fun _ => True)).
  - intros a b _ _. unfold String.ltb. rewrite (String.compare_antisym b a).
    by destruct (String.compare a b).
  - intros a b c _ _ _. rewrite !string_ltb_false.
    intros H1%Is_true_true H2%Is_true_true. apply Is_true_true.
    change (String.le c a). by etrans.
  - done.
Qed.

Lemma filterM_ok {A} (p : A -> result bool) l out :
  filterM p l = Ok out ->
  out = List.filter (fun x => match p x with Ok b => b | Raise _ => false end) l.
Proof.
  revert out. induction l as [|x l IH]; intros out; simpl.
  { by intros [= <-]. }
  intros (b & Hb & (ys & Hys & [= <-])%ResultFacts.bind_ok)%ResultFacts.bind_ok.
  rewrite Hb, (IH _ Hys). by destruct b.
Qed.

Lemma filter_filter_and {A} (p q : A -> bool) l :
  List.filter q (List.filter p l) = List.filter (fun x => p x && q x) l.
Proof.
  induction l as [|x l IH]; simpl; [done|].
  destruct (p x); simpl; [|done]. destruct (q x); by rewrite IH.
Qed.

Lemma filter_stage_ok ft fh nodes kept :
  filter_stage ft fh nodes = Ok kept ->
  kept = List.filter (passes ft fh) nodes.
Proof.
  unfold filter_stage, passes. destruct ft, fh; simpl.
  - intros ->%filterM_ok. apply filter_filter_and.
  - intros [= <-]. apply List.filter_ext. intros x. by rewrite andb_true_r.
  - by intros ->%filterM_ok.
  - intros [= <-]. induction nodes as [|x l IH]; simpl; [done|].
    by rewrite <- IH.
Qed.

Lemma mapM_total {A B} (f : A -> result B) l :
  (forall x, exists y, f x = Ok y) -> exists ys, mapM f l = Ok ys.
Proof.
  intros Hf. induction l as [|x l [ys IH]]; simpl; [eauto|].
  destruct (Hf x) as [y ->]. simpl. rewrite IH. simpl. eauto.
Qed.

Lemma sort_by_name_total r l : exists out, PyList.sort name_key String.ltb r l = Ok out.
Proof.
  unfold PyList.sort.
  destruct (mapM_total (fun x => k <- name_key x ;; Ok (k, x)) l) as [ks ->].
  - intros x. simpl. eauto.
  - simpl. eauto.
Qed.

End PipelineFacts.

(** ** The keys and the filter test, on the fields of a record *)

Module RankFacts.
Import SortSpec.

Lemma truediv_quotient u c q :
  PyNum.truediv u c = Ok q -> q = quotient u c /\ PyNum.is_finite q = true.
Proof.
  unfold PyNum.truediv, quotient. destruct (c =? 0); [done|].
  destruct (PyNum.is_finite _) eqn:Hfin; [|done]. by intros [= <-].
Qed.

Lemma truediv_fails u c e :
  PyNum.truediv u c = Raise e -> c <> 0 ->
  PyNum.is_finite (quotient u c) = false.
Proof.
  unfold PyNum.truediv, quotient. destruct (Z.eqb_spec c 0); [done|].
  by destruct (PyNum.is_finite _).
Qed.

(** A key the script computes is the ratio of the fields, a finite
    number; where the key fails the ratio is no finite number. *)
Lemma ratio_key_rank u c k : ratio_key u c = Ok k -> k = ratio u c.
Proof.
  unfold ratio_key, ratio. destruct (0 <? c); [|by intros [= <-]].
  intros (q & [-> _]%truediv_quotient & [= <-])%ResultFacts.bind_ok. done.
Qed.

Lemma ratio_key_finite u c k :
  ratio_key u c = Ok k -> exists m e, PyNum.view k = PyNum.XFin m e.
Proof.
  unfold ratio_key. destruct (0 <? c); [|intros [= <-]; simpl; eauto].
  intros (q & [_ Hfin]%truediv_quotient & [= <-])%ResultFacts.bind_ok.
  destruct q as [sg|sg| |sg m e]; try done; simpl; eauto.
Qed.

Lemma ratio_key_fails u c e :
  ratio_key u c = Raise e -> forall m e', PyNum.view (ratio u c) <> PyNum.XFin m e'.
Proof.
  unfold ratio_key, ratio. destruct (Z.ltb_spec 0 c) as [Hc|Hc]; [|done].
  intros [H|(q & _ & H)]%ResultFacts.bind_raises; [|done].
  apply truediv_fails in H; [|lia].
  destruct (quotient u c) as [sg|sg| |sg m0 e0]; done.
Qed.

Lemma compare_defined a b :
  PyNum.view a <> PyNum.XNaN -> PyNum.view b <> PyNum.XNaN ->
  exists c, PyNum.compare a b = Some c.
Proof.
  unfold PyNum.compare. destruct (PyNum.view a), (PyNum.view b); simpl; eauto; done.
Qed.

(** On numbers, "not smaller" is "greater or equal", and neither being
    smaller is being equal. *)
Lemma not_lt_ge a b :
  PyNum.view a <> PyNum.XNaN -> PyNum.view b <> PyNum.XNaN ->
  PyNum.lt a b = false -> PyNum.ge a b = true.
Proof.
  intros Ha Hb H. apply NumFacts.ge_xle. by apply NumFacts.not_lt_xle.
Qed.

Lemma tie_compare a b :
  PyNum.view a <> PyNum.XNaN -> PyNum.view b <> PyNum.XNaN ->
  negb (PyNum.lt a b) && negb (PyNum.lt b a)
  = bool_decide (PyNum.compare a b = Some Eq).
Proof.
  intros Ha Hb. destruct (compare_defined a b Ha Hb) as [c Hc].
  unfold PyNum.lt. unfold PyNum.compare in *.
  rewrite (NumFacts.xcompare_antisym (PyNum.view a) (PyNum.view b)), Hc.
  by destruct c.
Qed.

Lemma finite_ordered k m e : PyNum.view k = PyNum.XFin m e -> PyNum.view k <> PyNum.XNaN.
Proof. by intros ->. Qed.

Section Numeric.
Context (usage capacity : NodeMetrics -> Z).
Let key (n : NodeMetrics) := ratio_key (usage n) (capacity n).
Let rank (n : NodeMetrics) := ratio (usage n) (capacity n).

Lemma descending_rank x y :
  descending key PyNum.lt x y -> PyNum.ge (rank x) (rank y) = true.
Proof.
  intros (kx & ky & Hx & Hy & Hlt).
  destruct (ratio_key_finite _ _ _ Hx) as (mx & ex & Hvx).
  destruct (ratio_key_finite _ _ _ Hy) as (my & ey & Hvy).
  apply ratio_key_rank in Hx as ->. apply ratio_key_rank in Hy as ->.
  apply not_lt_ge; [by eapply finite_ordered..|done].
Qed.

Lemma same_key_rank x y ky :
  key y = Ok ky ->
  same_key key PyNum.lt x y
  = bool_decide (PyNum.compare (rank x) (rank y) = Some Eq).
Proof.
  intros Hy. unfold same_key. rewrite Hy.
  destruct (ratio_key_finite _ _ _ Hy) as (my & ey & Hvy).
  apply ratio_key_rank in Hy as Hky. fold (rank y) in Hky. subst ky.
  destruct (key x) as [kx|e] eqn:Hx.
  - destruct (ratio_key_finite _ _ _ Hx) as (mx & ex & Hvx).
    apply ratio_key_rank in Hx as Hkx. fold (rank x) in Hkx. subst kx.
    apply tie_compare; by eapply finite_ordered.
  - symmetry. apply bool_decide_eq_false.
    pose proof (ratio_key_fails _ _ _ Hx) as Hnot. fold (rank x) in Hnot.
    unfold PyNum.compare. rewrite Hvy.
    destruct (PyNum.view (rank x)) as [|sg|m e']; [done|by destruct sg|].
    by destruct (Hnot m e').
Qed.
End Numeric.

Lemma ascending_name x y :
  ascending name_key String.ltb x y -> String.leb (name x) (name y) = true.
Proof.
  intros (kx & ky & [= <-] & [= <-] & H). by apply PipelineFacts.string_ltb_false.
Qed.

Lemma same_key_name x y :
  same_key name_key String.ltb x y = bool_decide (name x = name y).
Proof.
  unfold same_key, name_key, String.ltb.
  rewrite (String.compare_antisym (name x) (name y)).
  destruct (String.compare (name y) (name x)) eqn:Hc; simpl; symmetry.
  - apply bool_decide_eq_true. symmetry. by apply String.compare_eq_iff.
  - apply bool_decide_eq_false. intros Heq. rewrite Heq in Hc.
    pose proof (String.compare_antisym (name y) (name y)) as Ha.
    rewrite Hc in Ha. discriminate Ha.
  - apply bool_decide_eq_false. intros Heq. rewrite Heq in Hc.
    pose proof (String.compare_antisym (name y) (name y)) as Ha.
    rewrite Hc in Ha. discriminate Ha.
Qed.

Lemma sorted_weaken {A} (R S : relation A) l :
  (forall x y, R x y -> S x y) -> StronglySorted R l -> StronglySorted S l.
Proof.
  intros HRS. induction 1 as [|x l _ IH Hx]; constructor; [done|].
  eapply Forall_impl; [exact Hx|]. intros y. apply HRS.
Qed.

(** A sort that returns has computed the key of every element. *)
Lemma sort_keys_ok {A K} (key : A -> result K) ltb r l out :
  PyList.sort key ltb r l = Ok out ->
  Forall (fun y => exists k, key y = Ok k) l.
Proof.
  unfold PyList.sort. intros (ks & Hks & _)%ResultFacts.bind_ok.
  apply KeySortFacts.decorate_ok in Hks as [<- Hkeyed].
  apply Forall_fmap. eapply Forall_impl; [exact Hkeyed|].
  intros [k y] Hy. simpl in *. eauto.
Qed.

(** The filter test is the percentage of the fields against 75. *)
Lemma above_75_spec u c b : above_75 u c = Ok b -> b = over_75 u c.
Proof.
  unfold above_75, over_75, percent. destruct (0 <? c); [|by intros [= <-]].
  intros (q & [-> _]%truediv_quotient & Hp)%ResultFacts.bind_ok.
  apply ResultFacts.bind_ok in Hp as (p & Hp & [= <-]).
  unfold PyNum.mul_int in Hp. rewrite RatioFacts.float_of_int_100 in Hp.
  cbn [bind] in Hp. by injection Hp as <-.
Qed.

Lemma high_usage_spec n b :
  high_usage n = Ok b ->
  b = over_75 (cpu_usage n) (cpu_capacity n)
      || over_75 (memory_usage n) (memory_capacity n).
Proof.
  unfold high_usage. intros (c & Hc & H)%ResultFacts.bind_ok.
  apply above_75_spec in Hc as ->.
  destruct (over_75 (cpu_usage n) (cpu_capacity n)); [by injection H as <-|].
  by apply above_75_spec in H.
Qed.

Lemma filterM_defined {A} (p : A -> result bool) l out :
  filterM p l = Ok out -> Forall (fun x => exists b, p x = Ok b) l.
Proof.
  revert out. induction l as [|x l IH]; intros out; simpl; [by constructor|].
  intros (b & Hb & (ys & Hys & _)%ResultFacts.bind_ok)%ResultFacts.bind_ok.
  constructor; [eauto|by eapply IH].
Qed.

Lemma has_taints_spec n : has_taints n = bool_decide (taints n <> []).
Proof. unfold has_taints. by destruct (taints n). Qed.

(** What the filter stage keeps are the records the specification
    selects. *)
Lemma filter_stage_selected ft fh nodes kept :
  filter_stage ft fh nodes = Ok kept ->
  kept = List.filter (selected ft fh) nodes.
Proof.
  intros Hkept. rewrite (PipelineFacts.filter_stage_ok _ _ _ _ Hkept).
  apply List.filter_ext_in. intros n Hn%list_elem_of_In.
  unfold passes, selected. rewrite has_taints_spec.
  destruct fh; [|by rewrite !orb_true_l].
  destruct (negb ft || bool_decide (taints n <> [])) eqn:Ht; [|done].
  simpl. unfold filter_stage in Hkept.
  apply filterM_defined in Hkept. rewrite Forall_forall in Hkept.
  destruct (Hkept n) as [b Hb].
  - destruct ft; [|done]. simpl in Ht.
    apply list_elem_of_In, List.filter_In. split; [by apply list_elem_of_In|].
    by rewrite has_taints_spec.
  - rewrite Hb. by apply high_usage_spec.
Qed.

(** The sort stage orders by the ratio of the fields, or by the name,
    and keeps the order of the records that tie. *)
Lemma sort_stage_ranked sb kept out :
  sort_stage sb kept = Ok out ->
  out ≡ₚ kept
  /\ StronglySorted (in_order sb) out
  /\ forall x, List.filter (tied sb x) out = List.filter (tied sb x) kept.
Proof.
  intros Hsort.
  assert (forall (usage capacity : NodeMetrics -> Z),
            PyList.sort (fun n => ratio_key (usage n) (capacity n)) PyNum.lt true kept
            = Ok out ->
            out ≡ₚ kept
            /\ StronglySorted
                 (fun x y => PyNum.ge (ratio (usage x) (capacity x))
                                      (ratio (usage y) (capacity y)) = true) out
            /\ forall x,
                 List.filter (fun y => bool_decide
                                (PyNum.compare (ratio (usage x) (capacity x))
                                               (ratio (usage y) (capacity y))
                                 = Some Eq)) out
                 = List.filter (fun y => bool_decide
                                  (PyNum.compare (ratio (usage x) (capacity x))
                                                 (ratio (usage y) (capacity y))
                                   = Some Eq)) kept) as Hnum.
  { intros usage capacity Hs.
    pose proof (sort_keys_ok _ _ _ _ _ Hs) as Hkeys.
    apply PipelineFacts.num_sort_spec in Hs as (Hperm & Hsorted & Hstable);
      [|intros x k; apply PipelineFacts.ratio_key_ordered].
    split; [done|]. split.
    - eapply sorted_weaken; [|exact Hsorted].
      intros x y. apply descending_rank.
    - intros x. rewrite Forall_forall in Hkeys.
      rewrite (List.filter_ext_in _
                 (same_key (fun n => ratio_key (usage n) (capacity n)) PyNum.lt x) out).
      2:{ intros y Hy%list_elem_of_In. rewrite Hperm in Hy.
          destruct (Hkeys y Hy) as [ky Hky]. symmetry.
          by eapply same_key_rank. }
      rewrite Hstable. apply List.filter_ext_in.
      intros y Hy%list_elem_of_In. destruct (Hkeys y Hy) as [ky Hky].
      by eapply same_key_rank. }
  destruct sb; simpl in Hsort.
  - by apply (Hnum cpu_usage cpu_capacity).
  - by apply (Hnum memory_usage memory_capacity).
  - by apply (Hnum pod_count pod_capacity).
  - apply PipelineFacts.name_sort_spec in Hsort as (Hperm & Hsorted & Hstable).
    split; [done|]. split.
    + eapply sorted_weaken; [|exact Hsorted].
      intros x y. apply ascending_name.
    + intros x. simpl.
      rewrite (List.filter_ext (tied by_name x) (same_key name_key String.ltb x))
        by (intros y; symmetry; apply same_key_name).
      rewrite Hstable. apply List.filter_ext. intros y. apply same_key_name.
Qed.

End RankFacts.

(** C7.  [main] filters first and sorts what is left.  What it returns
    is a permutation of the records the filters select: those with a
    taint, those whose CPU or memory percentage is above 75.  It is
    ordered by the one selected key: for the numeric keys by the ratio of
    the usage field to the capacity field, the float quotient when the
    capacity is positive and 0 otherwise, downwards; for the name
    upwards.  Records that tie, with equal ratios or equal names, keep
    the order in which they were listed.  Sorted by name and without the
    high-usage filter, [main] always returns. *)
Theorem main_filters_then_sorts :
  (forall ft fh sb nodes out,
     main ft fh sb nodes = Ok out ->
     exists kept,
       filter_stage ft fh nodes = Ok kept
       /\ kept = List.filter (SortSpec.selected ft fh) nodes
       /\ sort_stage sb kept = Ok out
       /\ out ≡ₚ kept
       /\ StronglySorted (SortSpec.in_order sb) out
       /\ forall x, List.filter (SortSpec.tied sb x) out
                    = List.filter (SortSpec.tied sb x) kept)
  /\ (forall ft nodes, exists out, main ft false by_name nodes = Ok out).
Proof.
  split.
  - intros ft fh sb nodes out. unfold main.
    intros (kept & Hkept & Hsort)%ResultFacts.bind_ok.
    exists kept. split; [done|].
    split; [by apply RankFacts.filter_stage_selected|]. split; [done|].
    by apply RankFacts.sort_stage_ranked.
  - intros ft nodes. unfold main, filter_stage. simpl.
    apply PipelineFacts.sort_by_name_total.
Qed.

Lemma main_filters_then_sorts_witness :
  exists out,
    main true false by_cpu ranked_nodes = Ok out
    /\ name <$> out = ["w"; "x"; "y"; "z"; "v"]
    /\ out ≡ₚ List.filter (SortSpec.selected true false) ranked_nodes
    /\ StronglySorted (SortSpec.in_order by_cpu) out
    /\ List.filter (SortSpec.tied by_cpu (sample "x" 1 2 dedicated)) out
       = [sample "x" 1 2 dedicated; sample "y" 2 4 dedicated].
Proof.
  assert (exists out, main true false by_cpu ranked_nodes = Ok out) as [out Hrun]
    by (vm_compute; eauto).
  exists out. split; [exact Hrun|].
  destruct (proj1 main_filters_then_sorts true false by_cpu _ _ Hrun)
    as (kept & _ & Hkept & _ & Hperm & Hsorted & Hties).
  assert (Ok out = main true false by_cpu ranked_nodes) as E by done.
  split; [vm_compute in E; by injection E as ->|].
  split; [by rewrite <- Hkept|]. split; [exact Hsorted|].
  rewrite Hties, Hkept. by vm_compute.
Defined.

(** ** Records and the nodes they are built from *)

Module NodeFacts.
Import ResultFacts.

Lemma mapM_Forall2 {A B} (f : A -> result B) l out :
  mapM f l = Ok out -> Forall2 (fun x y => f x = Ok y) l out.
Proof.
  revert out. induction l as [|x l IH]; intros out; simpl.
  { intros [= <-]. constructor. }
  intros (y & Hy & (ys & Hys & [= <-])%bind_ok)%bind_ok.
  constructor; [done|by apply IH].
Qed.

Lemma mapM_fails {A B} (f : A -> result B) l x e :
  x ∈ l -> f x = Raise e -> exists e', mapM f l = Raise e'.
Proof.
  intros Hx Hf. induction l as [|y l IH]; [by apply elem_of_nil in Hx|].
  simpl. destruct (f y) as [b|e1] eqn:Hy; simpl; [|eauto].
  apply elem_of_cons in Hx as [->|Hx]; [congruence|].
  destruct (IH Hx) as [e' ->]. simpl. eauto.
Qed.

(** The first element that fails decides the error. *)
Lemma mapM_first_failure {A B} (f : A -> result B) before x after e :
  Forall (fun y => exists b, f y = Ok b) before -> f x = Raise e ->
  mapM f (before ++ x :: after) = Raise e.
Proof.
  intros Hok Hx. induction Hok as [|y before [b Hy] _ IH]; simpl.
  - by rewrite Hx.
  - by rewrite Hy, IH.
Qed.

Lemma get_node_metrics_unfold api nodes :
  list_node api = Ok nodes ->
  get_node_metrics api
  = mapM (node_record (metrics_map_of api) (list_pod_for_node api)) nodes.
Proof. intros H. unfold get_node_metrics. by rewrite H. Qed.

Lemma get_node_metrics_ok api out :
  get_node_metrics api = Ok out ->
  exists nodes,
    list_node api = Ok nodes
    /\ mapM (node_record (metrics_map_of api) (list_pod_for_node api)) nodes = Ok out.
Proof.
  unfold get_node_metrics. intros (nodes & Hnodes & Hout)%bind_ok. eauto.
Qed.

Lemma get_node_metrics_raises api e :
  get_node_metrics api = Raise e ->
  list_node api = Raise e
  \/ exists nodes,
       list_node api = Ok nodes
       /\ mapM (node_record (metrics_map_of api) (list_pod_for_node api)) nodes
          = Raise e.
Proof.
  unfold get_node_metrics. intros [H|(nodes & Hnodes & H)]%bind_raises; eauto.
Qed.

(** What a successful run of the loop body has read and computed. *)
Lemma node_record_ok mm pods node r :
  node_record mm pods node = Ok r ->
  exists cap alloc conds listed c m p cu mu,
    status_capacity node = Some cap
    /\ status_allocatable node = Some alloc
    /\ status_conditions node = Some conds
    /\ pods (metadata_name node) = Ok listed
    /\ PyInt.int (dict_get cap "cpu" "0") = Ok c
    /\ parse_memory (dict_get cap "memory" "0") = Ok m
    /\ PyInt.int (dict_get alloc "pods" "0") = Ok p
    /\ match mm !! metadata_name node with
       | Some item =>
           parse_cpu (dict_get (metric_usage item) "cpu" "0") = Ok cu
           /\ parse_memory (dict_get (metric_usage item) "memory" "0") = Ok mu
       | None => cu = 0 /\ mu = 0
       end
    /\ r = {| name := metadata_name node;
              cpu_usage := cu;
              cpu_capacity := c * 1000;
              memory_usage := mu;
              memory_capacity := m;
              pod_count := Z.of_nat (length listed);
              pod_capacity := p;
              status := ready_status conds;
              labels := default ∅ (metadata_labels node);
              conditions := condition_dict <$> conds;
              taints := taint_dict <$> default [] (spec_taints node) |}.
Proof.
  unfold node_record, attribute, iterable.
  intros (cap & Hcap & (c & Hc & (m & Hm & (alloc & Halloc & (p & Hp &
            ([cu mu] & Hu & (listed & Hl & (conds & Hconds & [= <-])%bind_ok)
            %bind_ok)%bind_ok)%bind_ok)%bind_ok)%bind_ok)%bind_ok)%bind_ok.
  destruct (status_capacity node) as [cap'|]; [|done]. injection Hcap as ->.
  destruct (status_allocatable node) as [alloc'|]; [|done]. injection Halloc as ->.
  destruct (status_conditions node) as [conds'|]; [|done]. injection Hconds as ->.
  exists cap, alloc, conds, listed, c, m, p, cu, mu.
  repeat (split; [done|]). split; [|done].
  destruct (mm !! metadata_name node) as [item|].
  - apply bind_ok in Hu as (cu' & Hcu & (mu' & Hmu & [= <- <-])%bind_ok). done.
  - by injection Hu as <- <-.
Qed.

(** The loop body returns when all it reads is there and well-formed. *)
Lemma node_record_builds mm pods node cap alloc conds listed c m p cu mu :
  status_capacity node = Some cap ->
  status_allocatable node = Some alloc ->
  status_conditions node = Some conds ->
  pods (metadata_name node) = Ok listed ->
  PyInt.int (dict_get cap "cpu" "0") = Ok c ->
  parse_memory (dict_get cap "memory" "0") = Ok m ->
  PyInt.int (dict_get alloc "pods" "0") = Ok p ->
  match mm !! metadata_name node with
  | Some item =>
      parse_cpu (dict_get (metric_usage item) "cpu" "0") = Ok cu
      /\ parse_memory (dict_get (metric_usage item) "memory" "0") = Ok mu
  | None => cu = 0 /\ mu = 0
  end ->
  node_record mm pods node
  = Ok {| name := metadata_name node;
          cpu_usage := cu;
          cpu_capacity := c * 1000;
          memory_usage := mu;
          memory_capacity := m;
          pod_count := Z.of_nat (length listed);
          pod_capacity := p;
          status := ready_status conds;
          labels := default ∅ (metadata_labels node);
          conditions := condition_dict <$> conds;
          taints := taint_dict <$> default [] (spec_taints node) |}.
Proof.
  intros Hcap Halloc Hconds Hl Hc Hm Hp Hu. unfold node_record.
  rewrite Hcap, Halloc, Hconds. cbn [attribute iterable bind].
  rewrite Hc. cbn [bind]. rewrite Hm. cbn [bind]. rewrite Hp. cbn [bind].
  destruct (mm !! metadata_name node) as [item|].
  - destruct Hu as [-> ->]. cbn [bind]. by rewrite Hl.
  - destruct Hu as [-> ->]. cbn [bind]. by rewrite Hl.
Qed.

(** Why the loop body fails: a quantity that does not parse, a missing
    capacity or allocatable map, a missing condition list, or a pod
    listing that failed. *)
Lemma node_record_raises mm pods node e :
  node_record mm pods node = Raise e ->
  e = ValueError
  \/ (e = AttributeError
      /\ (status_capacity node = None \/ status_allocatable node = None))
  \/ (e = TypeError /\ status_conditions node = None)
  \/ pods (metadata_name node) = Raise e.
Proof.
  unfold node_record.
  intros [H|(cap & _ & H)]%bind_raises.
  { destruct (status_capacity node); [done|]. injection H as <-. auto. }
  apply bind_raises in H as [H|(c & _ & H)].
  { left. by eapply IntFacts.int_raises. }
  apply bind_raises in H as [H|(m & _ & H)].
  { left. by eapply ParseFacts.parse_memory_raises. }
  apply bind_raises in H as [H|(alloc & _ & H)].
  { destruct (status_allocatable node); [done|]. injection H as <-. auto. }
  apply bind_raises in H as [H|(p & _ & H)].
  { left. by eapply IntFacts.int_raises. }
  apply bind_raises in H as [H|(us & _ & H)].
  { left. destruct (mm !! metadata_name node) as [item|]; [|done].
    apply bind_raises in H as [H|(? & _ & [H|(? & _ & H)]%bind_raises)]; [..|done].
    - by eapply ParseFacts.parse_cpu_raises.
    - by eapply ParseFacts.parse_memory_raises. }
  apply bind_raises in H as [H|(listed & _ & H)]; [auto|].
  apply bind_raises in H as [H|(conds & _ & H)]; [|done].
  destruct (status_conditions node); [done|]. injection H as <-. auto.
Qed.

Lemma sum_ones {A} (l : list A) :
  PyList.sum ((fun _ => 1) <$> l) = Z.of_nat (length l).
Proof.
  unfold PyList.sum.
  assert (forall a, foldl Z.add a ((fun _ : A => 1) <$> l) = a + Z.of_nat (length l))
    as H; [|by rewrite H].
  induction l as [|x l IH]; intros a; simpl; [lia|].
  rewrite IH. lia.
Qed.

(** The status is [Ready] exactly when some condition has type [Ready]
    and status [True], and [NotReady] otherwise. *)
Lemma ready_status_ready conds :
  ready_status conds = "Ready"
  <-> Exists (fun c => condition_type c = "Ready" /\ condition_status c = "True") conds.
Proof.
  unfold ready_status. rewrite Exists_exists.
  destruct (existsb _ conds) eqn:He.
  - split; [intros _|done]. apply existsb_exists in He as (c & Hin & Hc).
    apply andb_true_iff in Hc as [H1%bool_decide_eq_true H2%bool_decide_eq_true].
    exists c. by rewrite list_elem_of_In.
  - split; [done|]. intros (c & Hin & H1 & H2).
    assert (existsb (fun c => bool_decide (condition_type c = "Ready")
                              && bool_decide (condition_status c = "True")) conds
            = true) as Ht; [|congruence].
    apply existsb_exists. exists c. rewrite <- list_elem_of_In. split; [done|].
    apply andb_true_iff. by rewrite !bool_decide_eq_true.
Qed.

Lemma ready_status_cases conds :
  ready_status conds = "Ready" \/ ready_status conds = "NotReady".
Proof. unfold ready_status. destruct (existsb _ conds); auto. Qed.

(** The condition and taint dictionaries are the entries of the node,
    one for one and in order, with [''] for a missing reason or value. *)
Lemma condition_dicts conds :
  Forall2 same_condition conds (condition_dict <$> conds).
Proof.
  induction conds as [|c conds IH]; [constructor|].
  rewrite fmap_cons. constructor; [|done].
  unfold same_condition, condition_dict. simpl. by destruct (condition_reason c).
Qed.

Lemma taint_dicts ts : Forall2 same_taint ts (taint_dict <$> ts).
Proof.
  induction ts as [|t ts IH]; [constructor|].
  rewrite fmap_cons. constructor; [|done].
  unfold same_taint, taint_dict. simpl. by destruct (v1_value t).
Qed.

(** The fields of a record, read off the node object. *)
Lemma record_fields mm pods node r :
  node_record mm pods node = Ok r ->
  exists cap alloc conds listed,
    status_capacity node = Some cap
    /\ status_allocatable node = Some alloc
    /\ status_conditions node = Some conds
    /\ pods (metadata_name node) = Ok listed
    /\ name r = metadata_name node
    /\ PyInt.int (dict_get cap "cpu" "0") = Ok (cpu_capacity r / 1000)
    /\ cpu_capacity r = cpu_capacity r / 1000 * 1000
    /\ parse_memory (dict_get cap "memory" "0") = Ok (memory_capacity r)
    /\ PyInt.int (dict_get alloc "pods" "0") = Ok (pod_capacity r)
    /\ pod_count r = Z.of_nat (length listed)
    /\ (status r = "Ready"
        <-> Exists (fun c => condition_type c = "Ready" /\ condition_status c = "True")
              conds)
    /\ (status r = "Ready" \/ status r = "NotReady")
    /\ match metadata_labels node with
       | Some l => labels r = l
       | None => labels r = ∅
       end
    /\ Forall2 same_condition conds (conditions r)
    /\ Forall2 same_taint (default [] (spec_taints node)) (taints r).
Proof.
  intros (cap & alloc & conds & listed & c & m & p & cu & mu & Hcap & Halloc
          & Hconds & Hl & Hc & Hm & Hp & _ & ->)%node_record_ok.
  exists cap, alloc, conds, listed. simpl.
  rewrite Z.div_mul by done.
  repeat (split; [done|]).
  split; [apply ready_status_ready|]. split; [apply ready_status_cases|].
  split; [by destruct (metadata_labels node)|].
  split; [apply condition_dicts|apply taint_dicts].
Qed.

End NodeFacts.

(** C10.  The parsers accept a leading minus sign: for a digit string
    [d] of at most 4300 digits, [parse_cpu] returns [-d] on ["-" d "m"]
    and [parse_memory] returns [-d * 1024] on ["-" d "Ki"].  Such values
    reach the records unchanged: a node whose memory capacity is written
    ["-" d "Ki"], or whose CPU usage is reported as ["-" d "m"], gets
    that negative number as its memory capacity, or its CPU usage. *)
Theorem parsers_accept_minus d u :
  NilZero.uint_of_string d = Some u ->
  Z.of_nat (String.length d) <= PyInt.max_str_digits ->
  parse_cpu ("-" +:+ d +:+ "m") = Ok (- Z.of_uint u)
  /\ parse_memory ("-" +:+ d +:+ "Ki") = Ok (- Z.of_uint u * 1024)
  /\ (forall mm pods node cap r,
        status_capacity node = Some cap ->
        cap !! "memory" = Some ("-" +:+ d +:+ "Ki") ->
        node_record mm pods node = Ok r ->
        memory_capacity r = - Z.of_uint u * 1024)
  /\ (forall mm pods node item r,
        mm !! metadata_name node = Some item ->
        metric_usage item !! "cpu" = Some ("-" +:+ d +:+ "m") ->
        node_record mm pods node = Ok r ->
        cpu_usage r = - Z.of_uint u).
Proof.
  intros Hd Hlen.
  destruct (DigitFacts.digit_string_literal d u Hd) as [_ Hlit].
  destruct (QuantityFacts.digit_string_limit d u Hd Hlen) as [_ Hlim].
  assert (parse_cpu ("-" +:+ d +:+ "m") = Ok (- Z.of_uint u)) as Hcpu.
  { rewrite <- QuantityFacts.app_assoc_str. by apply ParseFacts.parse_cpu_m. }
  assert (parse_memory ("-" +:+ d +:+ "Ki") = Ok (- Z.of_uint u * 1024)) as Hmem.
  { rewrite <- QuantityFacts.app_assoc_str.
    eapply (QuantityFacts.parse_memory_digits ("-" +:+ d) _ "-"%char
              (Str.chars d) "Ki" _ ["K"%char] "i"%char);
      [done|done|by rewrite StrFacts.chars_app|done|set_solver|done|done]. }
  split; [exact Hcpu|]. split; [exact Hmem|]. split.
  - intros mm pods node cap r Hcap Hkey
      (cap' & alloc & conds & listed & c & m & p & cu & mu & Hcap' & _ & _ & _
       & _ & Hm & _ & _ & ->)%NodeFacts.node_record_ok.
    simpl. rewrite Hcap in Hcap'. injection Hcap' as <-.
    unfold dict_get in Hm. rewrite Hkey in Hm. simpl in Hm. congruence.
  - intros mm pods node item r Hitem Hkey
      (cap' & alloc & conds & listed & c & m & p & cu & mu & _ & _ & _ & _
       & _ & _ & _ & Hu & ->)%NodeFacts.node_record_ok.
    simpl. rewrite Hitem in Hu. destruct Hu as [Hcu _].
    unfold dict_get in Hcu. rewrite Hkey in Hcu. simpl in Hcu. congruence.
Qed.

Lemma parsers_accept_minus_witness :
  NilZero.uint_of_string "5" = Some (Decimal.D5 Decimal.Nil)
  /\ parse_cpu "-5m" = Ok (-5)
  /\ parse_memory "-5Ki" = Ok (-5120)
  /\ exists r, node_record {[ "minus" := minus_usage ]} sample_pods minus_node = Ok r
               /\ memory_capacity r = -5120 /\ cpu_usage r = -5.
Proof.
  assert (Z.of_nat (String.length "5") <= PyInt.max_str_digits) as Hlen
    by (by vm_compute).
  destruct (parsers_accept_minus "5" (Decimal.D5 Decimal.Nil) eq_refl Hlen)
    as (Hcpu & Hmem & Hcap & Huse).
  split; [reflexivity|]. split; [exact Hcpu|]. split; [exact Hmem|].
  assert (exists r, node_record {[ "minus" := minus_usage ]} sample_pods minus_node
                    = Ok r) as [r Hr] by (vm_compute; eauto).
  exists r. split; [exact Hr|]. split.
  - apply (Hcap {[ "minus" := minus_usage ]} sample_pods minus_node _ r eq_refl);
      [by vm_compute|exact Hr].
  - apply (Huse {[ "minus" := minus_usage ]} sample_pods minus_node minus_usage r);
      [by vm_compute..|exact Hr].
Defined.

(** ** Nodes without metrics *)

(** C8.  A node whose name has no entry in the metrics map gets a
    record with zero CPU and memory usage; the record is built from the
    node object alone: its name, its capacities, its pod count, the
    status [Ready] exactly when some condition has type [Ready] and
    status [True] and [NotReady] otherwise, its labels, its conditions
    and its taints in their order.  This holds of a node that has its
    capacity and allocatable maps and its condition list, with quantities
    that parse, and whose pods could be listed; when the construction
    fails, one of these is the cause and never the missing entry.  With
    the metrics listing unavailable every record built has zero usage. *)
Theorem missing_metrics_zero_usage :
  (forall metrics_map pods node cap alloc conds listed c m p,
     metrics_map !! metadata_name node = None ->
     status_capacity node = Some cap ->
     status_allocatable node = Some alloc ->
     status_conditions node = Some conds ->
     pods (metadata_name node) = Ok listed ->
     PyInt.int (dict_get cap "cpu" "0") = Ok c ->
     parse_memory (dict_get cap "memory" "0") = Ok m ->
     PyInt.int (dict_get alloc "pods" "0") = Ok p ->
     exists r,
       node_record metrics_map pods node = Ok r
       /\ cpu_usage r = 0 /\ memory_usage r = 0
       /\ name r = metadata_name node
       /\ cpu_capacity r = c * 1000
       /\ memory_capacity r = m
       /\ pod_capacity r = p
       /\ pod_count r = Z.of_nat (length listed)
       /\ (status r = "Ready"
           <-> Exists (fun c => condition_type c = "Ready"
                                /\ condition_status c = "True") conds)
       /\ (status r = "Ready" \/ status r = "NotReady")
       /\ match metadata_labels node with
          | Some l => labels r = l
          | None => labels r = ∅
          end
       /\ Forall2 same_condition conds (conditions r)
       /\ Forall2 same_taint (default [] (spec_taints node)) (taints r))
  /\ (forall metrics_map pods node e,
        metrics_map !! metadata_name node = None ->
        node_record metrics_map pods node = Raise e ->
        (status_capacity node = None /\ e = AttributeError)
        \/ (exists cap,
              status_capacity node = Some cap
              /\ (PyInt.int (dict_get cap "cpu" "0") = Raise e
                  \/ parse_memory (dict_get cap "memory" "0") = Raise e))
        \/ (status_allocatable node = None /\ e = AttributeError)
        \/ (exists alloc,
              status_allocatable node = Some alloc
              /\ PyInt.int (dict_get alloc "pods" "0") = Raise e)
        \/ pods (metadata_name node) = Raise e
        \/ (status_conditions node = None /\ e = TypeError))
  /\ (forall api out,
        list_node_metrics api = None ->
        get_node_metrics api = Ok out ->
        exists nodes,
          list_node api = Ok nodes
          /\ name <$> out = metadata_name <$> nodes
          /\ Forall (fun r => cpu_usage r = 0 /\ memory_usage r = 0) out).
Proof.
  split; [|split].
  - intros metrics_map pods node cap alloc conds listed c m p
      Hnone Hcap Halloc Hconds Hl Hc Hm Hp.
    eexists. split.
    { eapply (NodeFacts.node_record_builds _ _ _ cap alloc conds listed c m p 0 0);
        [done..|]. by rewrite Hnone. }
    simpl. repeat (split; [done|]).
    split; [apply NodeFacts.ready_status_ready|].
    split; [apply NodeFacts.ready_status_cases|].
    split; [by destruct (metadata_labels node)|].
    split; [apply NodeFacts.condition_dicts|apply NodeFacts.taint_dicts].
  - intros metrics_map pods node e Hnone. unfold node_record. rewrite Hnone.
    destruct (status_capacity node) as [cap|]; cbn [attribute bind];
      [|intros [= <-]; by left].
    destruct (PyInt.int _) as [c|e1] eqn:Hc; cbn [bind];
      [|intros [= ->]; right; left; eauto].
    destruct (parse_memory _) as [m|e2] eqn:Hm; cbn [bind];
      [|intros [= ->]; right; left; eauto].
    destruct (status_allocatable node) as [alloc|]; cbn [attribute bind];
      [|intros [= <-]; right; right; by left].
    destruct (PyInt.int (dict_get alloc _ _)) as [p|e3] eqn:Hp; cbn [bind];
      [|intros [= ->]; do 3 right; left; eauto].
    destruct (pods (metadata_name node)) as [listed|e4]; cbn [bind];
      [|intros [= ->]; do 4 right; by left].
    destruct (status_conditions node) as [conds|]; cbn [iterable bind];
      [done|intros [= <-]; do 5 right; done].
  - intros api out Hnone (nodes & Hnodes & Hout)%NodeFacts.get_node_metrics_ok.
    exists nodes. split; [done|].
    unfold metrics_map_of in Hout. rewrite Hnone in Hout.
    apply NodeFacts.mapM_Forall2 in Hout. clear Hnodes.
    induction Hout as [|node r nodes out Hr _ [IH1 IH2]]; [by split|].
    apply NodeFacts.node_record_ok in Hr
      as (cap & alloc & conds & listed & c & m & p & cu & mu & _ & _ & _ & _
          & _ & _ & _ & Hu & ->).
    rewrite lookup_empty in Hu. destruct Hu as [-> ->].
    split; [rewrite !fmap_cons; by rewrite IH1|by constructor].
Qed.

Lemma missing_metrics_zero_usage_witness :
  (∅ : gmap string MetricItem) !! metadata_name worker = None
  /\ exists r, node_record ∅ sample_pods worker = Ok r
               /\ cpu_usage r = 0 /\ memory_usage r = 0
               /\ cpu_capacity r = 4000 /\ memory_capacity r = 17179869184
               /\ pod_capacity r = 110 /\ pod_count r = 2
               /\ status r = "Ready".
Proof.
  assert ((∅ : gmap string MetricItem) !! metadata_name worker = None) as H0
    by apply lookup_empty.
  split; [exact H0|].
  destruct (proj1 missing_metrics_zero_usage ∅ sample_pods worker
              {[ "cpu" := "4"; "memory" := "16Gi" ]} {[ "pods" := "110" ]}
              [{| condition_type := "Ready"; condition_status := "True";
                  condition_reason := Some "KubeletReady" |}]
              ["coredns"; "kube-proxy"] 4 17179869184 110 H0
              eq_refl eq_refl eq_refl eq_refl)
    as (r & Hr & Hcu & Hmu & _ & Hcap & Hmem & Hpods & Hcount & Hready & _).
  { by vm_compute. }
  { by vm_compute. }
  { by vm_compute. }
  exists r. split; [exact Hr|]. split; [exact Hcu|]. split; [exact Hmu|].
  split; [exact Hcap|]. split; [exact Hmem|]. split; [exact Hpods|].
  split; [exact Hcount|].
  apply Hready. apply Exists_cons_hd. by split.
Defined.

(** * Further properties *)

(** ** Quantities with other suffixes, blanks and nanocores *)

Module SuffixFacts.
Import Str PyInt Syntax StrFacts IntFacts DigitFacts ParseFacts.

Lemma letter_facts c :
  Suffix.letter c = true ->
  is_digit c = false /\ is_underscore c = false
  /\ Str.isspace c = false /\ is_blank c = false.
Proof. destruct c as [[] [] [] [] [] [] [] []]; by vm_compute. Qed.

(** [int] rejects digits followed by anything that starts with a
    letter. *)
Lemma int_digits_then_letter d u c r t :
  NilZero.uint_of_string d = Some u ->
  chars t = c :: r -> Suffix.letter c = true ->
  PyInt.int (d +:+ t) = Raise ValueError.
Proof.
  intros Hd Ht (Hdig & Hus & _ & Hbl)%letter_facts.
  destruct (digit_string d u Hd) as (Hne & Hall & _).
  pose proof (decimal_digit_groups _ Hne Hall) as Hgrp.
  destruct (digit_groups_head _ _ Hgrp) as (c0 & r0 & Hhead & Hc0).
  destruct (digit_not_space c0 Hc0) as (Hb0 & _ & Hplus & Hminus).
  unfold PyInt.int, PyInt.read.
  rewrite chars_app, Ht, Hhead, <- app_comm_cons.
  rewrite drop_while_head by done.
  unfold split_sign. rewrite Hplus, Hminus, Hc0.
  rewrite app_comm_cons, <- Hhead.
  rewrite (scan_digits_groups _ _ _ Hgrp). simpl.
  rewrite Hdig, Hus. simpl. by rewrite Hbl.
Qed.

Lemma letters_ends t :
  Suffix.letters t ->
  (exists c r, chars t = c :: r /\ Suffix.letter c = true)
  /\ (exists r c, chars t = r ++ [c] /\ Suffix.letter c = true).
Proof.
  intros [Hne Hall].
  destruct (chars t) as [|c r] eqn:Ht.
  { exfalso. apply Hne. apply chars_inj. by rewrite Ht. }
  split.
  - exists c, r. split; [done|]. simpl in Hall. by apply andb_true_iff in Hall as [? _].
  - destruct (exists_last (l := c :: r)) as (r' & c' & Heq); [done|].
    exists r', c'. split; [done|]. rewrite Heq, forallb_app in Hall.
    apply andb_true_iff in Hall as [_ Hc']. simpl in Hc'.
    by rewrite andb_true_r in Hc'.
Qed.

(** When digits followed by letters end with a unit that the letters are
    not, some letters are left in front of the unit. *)
Lemma unit_behind_letters d u t unit c0 r0 :
  NilZero.uint_of_string d = Some u -> Suffix.letters t ->
  chars unit = c0 :: r0 -> is_digit c0 = false -> t <> unit ->
  endswith (d +:+ t) unit = true ->
  exists k c r, chars k = c :: r /\ Suffix.letter c = true
                /\ d +:+ t = (d +:+ k) +:+ unit.
Proof.
  intros Hd Hlet Hunit Hc0 Hne [pre Hpre]%endswith_true.
  destruct (digit_string d u Hd) as (_ & Hall & _).
  destruct (letters_ends t Hlet) as [(c & r & Ht & Hc) _].
  rewrite chars_app in Hpre.
  apply app_eq_inv in Hpre as [(k & Hk1 & Hk2)|(k & Hk1 & Hk2)].
  - destruct k as [|a k].
    + exfalso. apply Hne. apply chars_inj. by rewrite Hk2.
    + exfalso. rewrite Hunit in Hk2. simplify_eq/=.
      rewrite Hk1, forallb_app in Hall. simpl in Hall.
      rewrite Hc0 in Hall. by rewrite andb_false_r in Hall.
  - destruct k as [|a k].
    + exfalso. apply Hne. apply chars_inj. by rewrite Hk2.
    + exists (of_chars (a :: k)), a, k. rewrite chars_of_chars.
      split; [done|]. split.
      * rewrite Ht in Hk2. by simplify_eq/=.
      * apply chars_inj. by rewrite !chars_app, chars_of_chars, Hk2, app_assoc.
Qed.

Lemma unit_branch_fails d u t unit c0 r0 n :
  NilZero.uint_of_string d = Some u -> Suffix.letters t ->
  chars unit = c0 :: r0 -> is_digit c0 = false -> t <> unit ->
  length (chars unit) = n ->
  endswith (d +:+ t) unit = true ->
  PyInt.int (drop_last n (d +:+ t)) = Raise ValueError.
Proof.
  intros Hd Hlet Hunit Hc0 Hne Hn Hends.
  destruct (unit_behind_letters d u t unit c0 r0 Hd Hlet Hunit Hc0 Hne Hends)
    as (k & c & r & Hk & Hc & ->).
  rewrite (drop_last_app n (d +:+ k) unit Hn).
  by eapply int_digits_then_letter.
Qed.

Lemma strip_digits_letters d u t :
  NilZero.uint_of_string d = Some u -> Suffix.letters t ->
  strip (d +:+ t) = d +:+ t.
Proof.
  intros Hd Hlet.
  destruct (digit_string_ends d u Hd) as [(c & r & Hhead & Hc) _].
  destruct (letters_ends t Hlet) as [_ (r' & c' & Hlast & Hc')].
  apply digit_not_space in Hc as (_ & Hc & _).
  apply letter_facts in Hc' as (_ & _ & Hc' & _).
  by eapply QuantityFacts.strip_with_unit.
Qed.

Lemma rstrip_split s : exists w, s = rstrip s ++ w /\ forallb Str.isspace w = true.
Proof.
  unfold rstrip, lstrip.
  destruct (drop_while_split Str.isspace (reverse s)) as (w & Hs & Hw).
  exists (reverse w). rewrite forallb_reverse. split; [|done].
  rewrite <- reverse_app, <- Hs. by rewrite reverse_involutive.
Qed.

(** A string is its strip between two runs of blanks. *)
Lemma strip_split s :
  exists w1 w2, s = w1 +:+ strip s +:+ w2
                /\ forallb Str.isspace (chars w1) = true
                /\ forallb Str.isspace (chars w2) = true.
Proof.
  destruct (drop_while_split Str.isspace (chars s)) as (w1 & Hs & Hw1).
  destruct (rstrip_split (lstrip (chars s))) as (w2 & Hr & Hw2).
  exists (of_chars w1), (of_chars w2). rewrite !chars_of_chars.
  split; [|done]. apply chars_inj.
  rewrite !chars_app, !chars_of_chars. unfold strip.
  rewrite chars_of_chars. fold (lstrip (chars s)) in Hs.
  by rewrite <- Hr.
Qed.

End SuffixFacts.

(** X1.  [parse_memory] does not see blanks around its argument: with
    blanks added in front and behind it returns what it returns without
    them, a value or an error alike, and it returns on a string what it
    returns on the stripped string. *)
Theorem parse_memory_blank_invariant :
  (forall w1 s w2,
     forallb Str.isspace (Str.chars w1) = true ->
     forallb Str.isspace (Str.chars w2) = true ->
     parse_memory (w1 +:+ s +:+ w2) = parse_memory s)
  /\ (forall s, parse_memory (Str.strip s) = parse_memory s).
Proof.
  split.
  - intros w1 s w2 H1 H2. unfold parse_memory.
    by rewrite StrFacts.strip_blank_around.
  - intros s. destruct (SuffixFacts.strip_split s) as (w1 & w2 & Hs & H1 & H2).
    assert (Str.strip (Str.strip s) = Str.strip s) as Hid.
    { symmetry. trans (Str.strip (w1 +:+ Str.strip s +:+ w2)).
      - by rewrite <- Hs.
      - by apply StrFacts.strip_blank_around. }
    unfold parse_memory. by rewrite Hid.
Qed.

Lemma parse_memory_blank_invariant_witness :
  forallb Str.isspace (Str.chars " ") = true
  /\ parse_memory ("  " +:+ "12Mi" +:+ " ") = parse_memory "12Mi"
  /\ parse_memory (" " +:+ "12 Xi" +:+ " ") = parse_memory "12 Xi".
Proof.
  split; [reflexivity|]. split.
  - exact (proj1 parse_memory_blank_invariant "  " "12Mi" " " eq_refl eq_refl).
  - exact (proj1 parse_memory_blank_invariant " " "12 Xi" " " eq_refl eq_refl).
Defined.

(** X2.  Digits followed by letters that are not one of the listed
    units are rejected: [parse_memory] raises [ValueError] unless the
    letters are [Ki], [Mi], [Gi], [K], [M] or [G] (so on [k], [T], [Ti],
    [m], ...), and [parse_cpu] unless they are [n] or [m] (so on [u],
    [Ki], ...). *)
Theorem unlisted_suffix_rejected d u t :
  NilZero.uint_of_string d = Some u -> Suffix.letters t ->
  (t ∉ Suffix.memory_unit_names -> parse_memory (d +:+ t) = Raise ValueError)
  /\ (t ∉ Suffix.cpu_unit_names -> parse_cpu (d +:+ t) = Raise ValueError).
Proof.
  intros Hd Hlet.
  destruct (SuffixFacts.letters_ends t Hlet) as [(c & r & Ht & Hc) _].
  pose proof (SuffixFacts.int_digits_then_letter d u c r t Hd Ht Hc) as Hbare.
  assert (forall unit c0 r0 n,
            Str.chars unit = c0 :: r0 -> PyInt.is_digit c0 = false ->
            length (Str.chars unit) = n -> t <> unit ->
            Str.endswith (d +:+ t) unit = true ->
            PyInt.int (Str.drop_last n (d +:+ t)) = Raise ValueError) as Hbranch.
  { intros unit c0 r0 n H1 H2 H3 H4 H5.
    by eapply (SuffixFacts.unit_branch_fails d u t unit c0 r0 n). }
  split; intros Hnot.
  - unfold parse_memory. rewrite (SuffixFacts.strip_digits_letters d u t Hd Hlet).
    unfold Suffix.memory_unit_names in Hnot.
    destruct (Str.endswith (d +:+ t) "Ki") eqn:E1.
    { rewrite (Hbranch "Ki" _ _ 2%nat eq_refl eq_refl eq_refl); [done| |done].
      intros ->. apply Hnot. set_solver. }
    destruct (Str.endswith (d +:+ t) "Mi") eqn:E2.
    { rewrite (Hbranch "Mi" _ _ 2%nat eq_refl eq_refl eq_refl); [done| |done].
      intros ->. apply Hnot. set_solver. }
    destruct (Str.endswith (d +:+ t) "Gi") eqn:E3.
    { rewrite (Hbranch "Gi" _ _ 2%nat eq_refl eq_refl eq_refl); [done| |done].
      intros ->. apply Hnot. set_solver. }
    destruct (Str.endswith (d +:+ t) "K") eqn:E4.
    { rewrite (Hbranch "K" _ _ 1%nat eq_refl eq_refl eq_refl); [done| |done].
      intros ->. apply Hnot. set_solver. }
    destruct (Str.endswith (d +:+ t) "M") eqn:E5.
    { rewrite (Hbranch "M" _ _ 1%nat eq_refl eq_refl eq_refl); [done| |done].
      intros ->. apply Hnot. set_solver. }
    destruct (Str.endswith (d +:+ t) "G") eqn:E6.
    { rewrite (Hbranch "G" _ _ 1%nat eq_refl eq_refl eq_refl); [done| |done].
      intros ->. apply Hnot. set_solver. }
    done.
  - unfold parse_cpu. unfold Suffix.cpu_unit_names in Hnot.
    destruct (Str.endswith (d +:+ t) "n") eqn:E1.
    { rewrite (Hbranch "n" _ _ 1%nat eq_refl eq_refl eq_refl); [done| |done].
      intros ->. apply Hnot. set_solver. }
    destruct (Str.endswith (d +:+ t) "m") eqn:E2.
    { rewrite (Hbranch "m" _ _ 1%nat eq_refl eq_refl eq_refl); [done| |done].
      intros ->. apply Hnot. set_solver. }
    by rewrite Hbare.
Qed.

Lemma unlisted_suffix_rejected_witness :
  NilZero.uint_of_string "128974848" = Some (N.to_uint 128974848)
  /\ Suffix.letters "k"
  /\ parse_memory "128974848k" = Raise ValueError
  /\ parse_cpu "128974848k" = Raise ValueError.
Proof.
  assert (Suffix.letters "k") as Hk by (split; [discriminate|reflexivity]).
  split; [reflexivity|]. split; [exact Hk|].
  destruct (unlisted_suffix_rejected "128974848" (N.to_uint 128974848) "k"
              eq_refl Hk) as [Hmem Hcpu].
  split.
  - apply Hmem. unfold Suffix.memory_unit_names.
    rewrite !elem_of_cons, elem_of_nil. intros H.
    repeat (destruct H as [H|H]; [discriminate H|]). exact H.
  - apply Hcpu. unfold Suffix.cpu_unit_names.
    rewrite !elem_of_cons, elem_of_nil. intros H.
    repeat (destruct H as [H|H]; [discriminate H|]). exact H.
Defined.

(** X3.  Nanocores are floored to millicores, also below zero: for a
    digit string [d] of value [n] and at most 4300 digits, [parse_cpu]
    returns on [d "n"] the [v] with [1000000 v <= n < 1000000 (v + 1)]
    and on ["-" d "n"] the [v] with [1000000 v <= -n < 1000000 (v + 1)];
    so less than a millicore reads as 0, and a negative amount of at most
    a millicore as -1. *)
Theorem nanocores_floored d u :
  NilZero.uint_of_string d = Some u ->
  Z.of_nat (String.length d) <= PyInt.max_str_digits ->
  (exists v, parse_cpu (d +:+ "n") = Ok v
             /\ 1000000 * v <= Z.of_uint u < 1000000 * (v + 1))
  /\ (exists v, parse_cpu ("-" +:+ d +:+ "n") = Ok v
                /\ 1000000 * v <= - Z.of_uint u < 1000000 * (v + 1))
  /\ (Z.of_uint u < 1000000 -> parse_cpu (d +:+ "n") = Ok 0)
  /\ (0 < Z.of_uint u <= 1000000 -> parse_cpu ("-" +:+ d +:+ "n") = Ok (-1)).
Proof.
  intros Hd Hlen.
  destruct (DigitFacts.digit_string_literal d u Hd) as [Hpos Hneg].
  destruct (QuantityFacts.digit_string_limit d u Hd Hlen) as [Hlim Hlim'].
  apply ParseFacts.parse_cpu_n in Hpos; [|done].
  apply ParseFacts.parse_cpu_n in Hneg; [|done].
  rewrite QuantityFacts.app_assoc_str in Hneg.
  assert (0 <= Z.of_uint u) as Hnn by (unfold Z.of_uint; lia).
  rewrite Hpos, Hneg. split; [|split; [|split]].
  - eexists. split; [done|].
    pose proof (Z.mul_div_le (Z.of_uint u) 1000000).
    pose proof (Z.mul_succ_div_gt (Z.of_uint u) 1000000). lia.
  - eexists. split; [done|].
    pose proof (Z.mul_div_le (- Z.of_uint u) 1000000).
    pose proof (Z.mul_succ_div_gt (- Z.of_uint u) 1000000). lia.
  - intros Hlt. f_equal. apply Z.div_small. lia.
  - intros Hrange. f_equal.
    symmetry. apply (Z.div_unique _ _ _ (1000000 - Z.of_uint u)); lia.
Qed.

Lemma nanocores_floored_witness :
  NilZero.uint_of_string "999999" = Some (N.to_uint 999999)
  /\ parse_cpu "999999n" = Ok 0
  /\ parse_cpu "-999999n" = Ok (-1).
Proof.
  split; [reflexivity|].
  destruct (nanocores_floored "999999" (N.to_uint 999999) eq_refl)
    as (_ & _ & Hzero & Hminus); [by vm_compute|].
  split; [apply Hzero; reflexivity|].
  apply Hminus. split; [reflexivity|discriminate].
Defined.

(** X4.  [parse_cpu] accepts blanks where [int] skips them: in front of
    the number, behind a number without unit, and between the number and
    its unit letter; the number is a digit string of at most 4300
    digits. *)
Theorem parse_cpu_blanks_accepted d u w1 w2 :
  NilZero.uint_of_string d = Some u ->
  Z.of_nat (String.length d) <= PyInt.max_str_digits ->
  forallb PyInt.is_blank (Str.chars w1) = true ->
  forallb PyInt.is_blank (Str.chars w2) = true ->
  parse_cpu (w1 +:+ d +:+ w2) = Ok (Z.of_uint u * 1000)
  /\ parse_cpu (w1 +:+ d +:+ w2 +:+ "m") = Ok (Z.of_uint u)
  /\ parse_cpu (w1 +:+ d +:+ w2 +:+ "n") = Ok (Z.of_uint u / 1000000).
Proof.
  intros Hd Hlen H1 H2.
  destruct (DigitFacts.digit_string d u Hd) as (Hne & Hdig & Hval).
  pose proof (DigitFacts.decimal_digit_groups _ Hne Hdig) as Hgrp.
  rewrite Hval in Hgrp.
  assert (Syntax.int_literal (w1 +:+ d +:+ w2) (Z.of_uint u)) as Hlit.
  { unfold Syntax.int_literal. rewrite !StrFacts.chars_app.
    pose proof (Syntax.int_chars_intro (Str.chars w1) [] 1 (Str.chars d) _
                  (Str.chars w2) H1 Syntax.sign_none Hgrp H2) as H.
    simpl in H. by destruct (Z.of_uint u). }
  assert (PyInt.within_limit (w1 +:+ d +:+ w2)) as Hlim.
  { unfold PyInt.within_limit.
    rewrite !StrFacts.chars_app, !IntFacts.digit_count_app,
      (IntFacts.digit_count_blanks _ H1), (IntFacts.digit_count_blanks _ H2),
      (IntFacts.digit_count_digits _ Hdig), StrFacts.chars_length. lia. }
  split; [|split].
  - by apply ParseFacts.parse_cpu_bare.
  - rewrite <- (QuantityFacts.app_assoc_str d w2 "m").
    rewrite <- (QuantityFacts.app_assoc_str w1 (d +:+ w2) "m").
    by apply ParseFacts.parse_cpu_m.
  - rewrite <- (QuantityFacts.app_assoc_str d w2 "n").
    rewrite <- (QuantityFacts.app_assoc_str w1 (d +:+ w2) "n").
    by apply ParseFacts.parse_cpu_n.
Qed.

Lemma parse_cpu_blanks_accepted_witness :
  NilZero.uint_of_string "250" = Some (N.to_uint 250)
  /\ forallb PyInt.is_blank (Str.chars "  ") = true
  /\ parse_cpu ("  " +:+ "250" +:+ " ") = Ok 250000
  /\ parse_cpu ("  " +:+ "250" +:+ " " +:+ "m") = Ok 250.
Proof.
  split; [reflexivity|]. split; [reflexivity|].
  destruct (parse_cpu_blanks_accepted "250" (N.to_uint 250) "  " " "
              eq_refl ltac:(by vm_compute) eq_refl eq_refl) as (Hbare & Hm & _).
  split; [exact Hbare|exact Hm].
Defined.

(** X5.  [get_node_metrics] returns one record per node, in the order of
    the node list.  Whatever the metrics are, a record has its node's
    name; its status is [Ready] exactly when the node has a condition of
    type [Ready] and status [True], and [NotReady] otherwise; it has the
    node's labels, none when the node has none; its conditions and its
    taints are those of the node, one for one and in the listed order,
    with [''] for a missing reason or value; its pod count is the number
    of pods listed for the node; and its CPU capacity is 1000 times the
    integer written in the node's capacity map. *)
Theorem records_follow_nodes api out :
  get_node_metrics api = Ok out ->
  exists nodes,
    list_node api = Ok nodes
    /\ length out = length nodes
    /\ Forall2 (fun node r =>
         name r = metadata_name node
         /\ (status r = "Ready" <-> node_ready node)
         /\ (status r = "Ready" \/ status r = "NotReady")
         /\ match metadata_labels node with
            | Some l => labels r = l
            | None => labels r = ∅
            end
         /\ (exists conds, status_conditions node = Some conds
                           /\ Forall2 same_condition conds (conditions r))
         /\ Forall2 same_taint (default [] (spec_taints node)) (taints r)
         /\ pod_count r = pods_listed api node
         /\ exists cap c, status_capacity node = Some cap
                          /\ PyInt.int (dict_get cap "cpu" "0") = Ok c
                          /\ cpu_capacity r = c * 1000)
       nodes out.
Proof.
  intros (nodes & Hnodes & H%NodeFacts.mapM_Forall2)%NodeFacts.get_node_metrics_ok.
  exists nodes. split; [done|].
  split; [symmetry; by eapply Forall2_length|].
  eapply Forall2_impl; [exact H|]. intros node r Hr. simpl in Hr.
  apply NodeFacts.record_fields in Hr
    as (cap & alloc & conds & listed & Hcap & _ & Hconds & Hl & Hname & Hc & Hc'
        & _ & _ & Hcount & Hready & Hcases & Hlabels & Hcs & Hts).
  split; [done|]. split; [unfold node_ready; by rewrite Hconds|].
  split; [done|]. split; [done|]. split; [eauto|]. split; [done|].
  split; [unfold pods_listed; by rewrite Hl|]. eauto.
Qed.

Lemma records_follow_nodes_witness :
  exists out, get_node_metrics sample_cluster = Ok out
              /\ length out = 2%nat
              /\ name <$> out = ["worker-1"; "bare"]
              /\ status <$> out = ["Ready"; "NotReady"].
Proof.
  assert (exists out, get_node_metrics sample_cluster = Ok out) as [out Hout]
    by (vm_compute; eauto).
  exists out. split; [exact Hout|].
  destruct (records_follow_nodes sample_cluster out Hout)
    as (nodes & Hnodes & Hlen & Hall).
  assert (nodes = [worker; bare_node]) as -> by (by injection Hnodes as <-).
  split; [exact Hlen|].
  inversion Hall as [|? r1 ? l1 (Hn1 & Hs1 & _) Hrest]; subst.
  inversion Hrest as [|? r2 ? l2 (Hn2 & Hs2 & Hc2 & _) Hnil]; subst.
  inversion Hnil; subst. simpl. rewrite Hn1, Hn2. split; [done|].
  assert (status r1 = "Ready") as ->.
  { apply Hs1. unfold node_ready. simpl. apply Exists_cons_hd. by split. }
  destruct Hc2 as [Hc2|Hc2]; [|by rewrite Hc2].
  apply Hs2 in Hc2. unfold node_ready in Hc2. simpl in Hc2.
  by apply Exists_nil in Hc2.
Defined.

(** ** Duplicate metrics items *)

Module MetricsFacts.

Lemma metrics_dict_snoc items m :
  metrics_dict (items ++ [m]) = <[metric_name m := m]> (metrics_dict items).
Proof. unfold metrics_dict. by rewrite foldl_app. Qed.

Lemma last_named_snoc k items m :
  last_named k (items ++ [m])
  = if bool_decide (metric_name m = k) then Some m else last_named k items.
Proof.
  unfold last_named. rewrite List.filter_app. simpl.
  destruct (bool_decide (metric_name m = k)).
  - by rewrite last_snoc.
  - by rewrite app_nil_r.
Qed.

Lemma metrics_dict_lookup items k : metrics_dict items !! k = last_named k items.
Proof.
  induction items as [|m items IH] using rev_ind; [done|].
  rewrite metrics_dict_snoc, last_named_snoc, lookup_insert.
  destruct (decide (metric_name m = k)) as [Heq|Hne].
  - by rewrite bool_decide_eq_true_2.
  - by rewrite bool_decide_eq_false_2.
Qed.

End MetricsFacts.

(** X6.  When the metrics listing holds several items with the same
    name, the last one counts: the metrics map sends a name to the last
    item so named, a node's usage is parsed from that item, and a name
    that no item has is absent from the map. *)
Theorem last_metrics_item_wins :
  (forall items k, metrics_dict items !! k = last_named k items)
  /\ (forall api items node r m,
        list_node_metrics api = Some items ->
        last_named (metadata_name node) items = Some m ->
        node_record (metrics_map_of api) (list_pod_for_node api) node = Ok r ->
        parse_cpu (dict_get (metric_usage m) "cpu" "0") = Ok (cpu_usage r)
        /\ parse_memory (dict_get (metric_usage m) "memory" "0") = Ok (memory_usage r))
  /\ (forall items k,
        Forall (fun m => metric_name m <> k) items -> metrics_dict items !! k = None).
Proof.
  split; [|split].
  - apply MetricsFacts.metrics_dict_lookup.
  - intros api items node r m Hitems Hlast Hr.
    apply NodeFacts.node_record_ok in Hr
      as (cap & alloc & conds & listed & c & mem & p & cu & mu & _ & _ & _ & _
          & _ & _ & _ & Hu & ->).
    unfold metrics_map_of in Hu.
    by rewrite Hitems, MetricsFacts.metrics_dict_lookup, Hlast in Hu.
  - intros items k Hall. rewrite MetricsFacts.metrics_dict_lookup.
    unfold last_named. induction Hall as [|m items Hm _ IH]; [done|].
    simpl. by rewrite bool_decide_eq_false_2.
Qed.

Lemma last_metrics_item_wins_witness :
  list_node_metrics sample_cluster = Some [usage_early; usage_late]
  /\ last_named (metadata_name worker) [usage_early; usage_late] = Some usage_late
  /\ exists r, node_record (metrics_map_of sample_cluster)
                 (list_pod_for_node sample_cluster) worker = Ok r
               /\ cpu_usage r = 500 /\ memory_usage r = 2097152.
Proof.
  split; [reflexivity|]. split; [reflexivity|].
  assert (exists r, node_record (metrics_map_of sample_cluster)
                      (list_pod_for_node sample_cluster) worker = Ok r) as [r Hr]
    by (vm_compute; eauto).
  exists r. split; [exact Hr|].
  destruct (proj1 (proj2 last_metrics_item_wins) sample_cluster
              [usage_early; usage_late] worker r usage_late eq_refl eq_refl Hr)
    as [Hcpu Hmem].
  split.
  - assert (Ok (cpu_usage r) = Ok 500) as H
      by (rewrite <- Hcpu; vm_compute; reflexivity).
    by injection H.
  - assert (Ok (memory_usage r) = Ok 2097152) as H
      by (rewrite <- Hmem; vm_compute; reflexivity).
    by injection H.
Defined.

(** X7.  [get_node_metrics] has no partial result.  It fails when the
    node listing fails, with the listing's error, and when the record of
    some node cannot be built: then the error is that of the first such
    node, and it is a [ValueError] for a quantity that does not parse, an
    [AttributeError] for a node without its capacity or allocatable map,
    a [TypeError] for a node without its condition list, or what the pod
    listing raised.  One such node makes the whole call fail, whatever
    the other nodes are. *)
Theorem one_bad_node_aborts api :
  (forall e, get_node_metrics api = Raise e ->
     list_node api = Raise e
     \/ exists nodes node,
          list_node api = Ok nodes /\ node ∈ nodes
          /\ node_record (metrics_map_of api) (list_pod_for_node api) node = Raise e
          /\ (e = ValueError
              \/ (e = AttributeError
                  /\ (status_capacity node = None \/ status_allocatable node = None))
              \/ (e = TypeError /\ status_conditions node = None)
              \/ list_pod_for_node api (metadata_name node) = Raise e))
  /\ (forall e, list_node api = Raise e -> get_node_metrics api = Raise e)
  /\ (forall nodes node e,
        list_node api = Ok nodes -> node ∈ nodes ->
        node_record (metrics_map_of api) (list_pod_for_node api) node = Raise e ->
        exists e', get_node_metrics api = Raise e')
  /\ (forall before node after e,
        list_node api = Ok (before ++ node :: after) ->
        Forall (fun n => exists r,
                  node_record (metrics_map_of api) (list_pod_for_node api) n = Ok r)
          before ->
        node_record (metrics_map_of api) (list_pod_for_node api) node = Raise e ->
        get_node_metrics api = Raise e).
Proof.
  split; [|split; [|split]].
  - intros e [H|(nodes & Hnodes & H)]%NodeFacts.get_node_metrics_raises; [by left|].
    right. apply ResultFacts.mapM_raises in H as (node & Hin & Hr).
    exists nodes, node. repeat (split; [done|]).
    by apply (NodeFacts.node_record_raises _ _ _ _ Hr).
  - intros e H. unfold get_node_metrics. by rewrite H.
  - intros nodes node e Hnodes Hin Hr.
    rewrite (NodeFacts.get_node_metrics_unfold _ _ Hnodes).
    by eapply NodeFacts.mapM_fails.
  - intros before node after e Hnodes Hok Hr.
    rewrite (NodeFacts.get_node_metrics_unfold _ _ Hnodes).
    by apply NodeFacts.mapM_first_failure.
Qed.

Lemma one_bad_node_aborts_witness :
  let api := {| list_node := Ok [worker; blank_node; milli_node];
                list_node_metrics := None;
                list_pod_for_node := sample_pods |} in
  node_record (metrics_map_of api) (list_pod_for_node api) blank_node
  = Raise AttributeError
  /\ node_record (metrics_map_of api) (list_pod_for_node api) milli_node
     = Raise ValueError
  /\ get_node_metrics api = Raise AttributeError.
Proof.
  intros api.
  assert (node_record (metrics_map_of api) (list_pod_for_node api) blank_node
          = Raise AttributeError) as Hr by (vm_compute; reflexivity).
  split; [exact Hr|]. split; [vm_compute; reflexivity|].
  apply (proj2 (proj2 (proj2 (one_bad_node_aborts api)))
           [worker] blank_node [milli_node] AttributeError eq_refl); [|exact Hr].
  constructor; [|constructor]. vm_compute. eauto.
Defined.

(** X8.  Missing keys count as zero: in a node that has its capacity and
    allocatable maps, a missing [cpu] or [memory] capacity or a missing
    [pods] allocatable entry gives the capacity 0, and a metrics item
    without a [cpu] or [memory] usage gives the usage 0.  A node whose
    maps are there but empty, which has a condition list and whose pods
    can be listed, is built without failure. *)
Theorem missing_keys_read_as_zero mm pods node :
  (forall r cap alloc,
     node_record mm pods node = Ok r ->
     status_capacity node = Some cap -> status_allocatable node = Some alloc ->
     (cap !! "cpu" = None -> cpu_capacity r = 0)
     /\ (cap !! "memory" = None -> memory_capacity r = 0)
     /\ (alloc !! "pods" = None -> pod_capacity r = 0)
     /\ (forall item, mm !! metadata_name node = Some item ->
           (metric_usage item !! "cpu" = None -> cpu_usage r = 0)
           /\ (metric_usage item !! "memory" = None -> memory_usage r = 0)))
  /\ (forall cap alloc conds listed,
        status_capacity node = Some cap -> status_allocatable node = Some alloc ->
        status_conditions node = Some conds ->
        pods (metadata_name node) = Ok listed ->
        cap !! "cpu" = None -> cap !! "memory" = None -> alloc !! "pods" = None ->
        (forall item, mm !! metadata_name node = Some item ->
           metric_usage item !! "cpu" = None
           /\ metric_usage item !! "memory" = None) ->
        exists r, node_record mm pods node = Ok r).
Proof.
  split.
  - intros r cap alloc
      (cap' & alloc' & conds & listed & c & m & p & cu & mu & Hcap & Halloc & _
       & _ & Hc & Hm & Hp & Hu & ->)%NodeFacts.node_record_ok Hcap' Halloc'.
    rewrite Hcap in Hcap'. injection Hcap' as ->.
    rewrite Halloc in Halloc'. injection Halloc' as ->.
    simpl. unfold dict_get in *. split; [|split; [|split]].
    + intros Hk. rewrite Hk in Hc. vm_compute in Hc. by injection Hc as <-.
    + intros Hk. rewrite Hk in Hm. vm_compute in Hm. by injection Hm as <-.
    + intros Hk. rewrite Hk in Hp. vm_compute in Hp. by injection Hp as <-.
    + intros item Hitem. rewrite Hitem in Hu. destruct Hu as [Hcu Hmu]. split.
      * intros Hk. rewrite Hk in Hcu. vm_compute in Hcu. by injection Hcu as <-.
      * intros Hk. rewrite Hk in Hmu. vm_compute in Hmu. by injection Hmu as <-.
  - intros cap alloc conds listed Hcap Halloc Hconds Hl Hc Hm Hp Hu.
    eexists.
    apply (NodeFacts.node_record_builds _ _ _ cap alloc conds listed 0 0 0 0 0);
      try done; unfold dict_get.
    + by rewrite Hc.
    + by rewrite Hm.
    + by rewrite Hp.
    + destruct (mm !! metadata_name node) as [item|]; [|done].
      destruct (Hu item eq_refl) as [-> ->]. done.
Qed.

Lemma missing_keys_read_as_zero_witness :
  status_capacity bare_node = Some ∅
  /\ exists r, node_record ∅ sample_pods bare_node = Ok r
               /\ cpu_capacity r = 0 /\ memory_capacity r = 0 /\ pod_capacity r = 0.
Proof.
  split; [reflexivity|].
  destruct (proj2 (missing_keys_read_as_zero ∅ sample_pods bare_node)
              ∅ ∅ [] [] eq_refl eq_refl eq_refl eq_refl) as [r Hr].
  { apply lookup_empty. }
  { apply lookup_empty. }
  { apply lookup_empty. }
  { intros item Hitem. by rewrite lookup_empty in Hitem. }
  exists r. split; [exact Hr|].
  destruct (proj1 (missing_keys_read_as_zero ∅ sample_pods bare_node) r ∅ ∅ Hr
              eq_refl eq_refl) as (H1 & H2 & H3 & _).
  split; [apply H1, lookup_empty|].
  split; [apply H2, lookup_empty|apply H3, lookup_empty].
Defined.

(** X9.  The CPU capacity and the pod allocation of a node are read with
    [int], not with [parse_cpu]: written with a unit behind the digits
    (as in [3900m]) they make the record fail with [ValueError].  The
    whole listing then fails, and with this [ValueError] when the nodes
    listed before it are built without failure. *)
Theorem capacity_with_unit_aborts api nodes node cap d u t :
  list_node api = Ok nodes -> node ∈ nodes ->
  NilZero.uint_of_string d = Some u -> Suffix.letters t ->
  status_capacity node = Some cap ->
  cap !! "cpu" = Some (d +:+ t)
  \/ (exists alloc c m,
        status_allocatable node = Some alloc
        /\ alloc !! "pods" = Some (d +:+ t)
        /\ PyInt.int (dict_get cap "cpu" "0") = Ok c
        /\ parse_memory (dict_get cap "memory" "0") = Ok m) ->
  node_record (metrics_map_of api) (list_pod_for_node api) node = Raise ValueError
  /\ (exists e, get_node_metrics api = Raise e)
  /\ (forall before after,
        nodes = before ++ node :: after ->
        Forall (fun n => exists r,
                  node_record (metrics_map_of api) (list_pod_for_node api) n = Ok r)
          before ->
        get_node_metrics api = Raise ValueError).
Proof.
  intros Hnodes Hin Hd Hlet Hcap Hkey.
  destruct (SuffixFacts.letters_ends t Hlet) as [(c0 & r0 & Ht & Hc0) _].
  pose proof (SuffixFacts.int_digits_then_letter d u c0 r0 t Hd Ht Hc0) as Hint.
  assert (node_record (metrics_map_of api) (list_pod_for_node api) node
          = Raise ValueError) as Hr.
  { unfold node_record. rewrite Hcap. cbn [attribute bind].
    destruct Hkey as [Hcpu|(alloc & c & m & Halloc & Hpods & Hc & Hm)].
    - unfold dict_get. rewrite Hcpu. simpl. by rewrite Hint.
    - rewrite Hc. cbn [bind]. rewrite Hm, Halloc. cbn [attribute bind].
      unfold dict_get. rewrite Hpods. simpl. by rewrite Hint. }
  split; [exact Hr|]. split.
  - rewrite (NodeFacts.get_node_metrics_unfold _ _ Hnodes).
    by eapply NodeFacts.mapM_fails.
  - intros before after -> Hok.
    rewrite (NodeFacts.get_node_metrics_unfold _ _ Hnodes).
    by apply NodeFacts.mapM_first_failure.
Qed.

Lemma capacity_with_unit_aborts_witness :
  let api := {| list_node := Ok [worker; milli_node];
                list_node_metrics := None;
                list_pod_for_node := sample_pods |} in
  status_capacity milli_node = Some {[ "cpu" := "3900m"; "memory" := "16Gi" ]}
  /\ get_node_metrics api = Raise ValueError.
Proof.
  intros api. split; [reflexivity|].
  assert (({[ "cpu" := "3900m"; "memory" := "16Gi" ]} : gmap string string) !! "cpu"
          = Some ("3900" +:+ "m")) as Hk by (by vm_compute).
  destruct (capacity_with_unit_aborts api [worker; milli_node] milli_node
              {[ "cpu" := "3900m"; "memory" := "16Gi" ]}
              "3900" (N.to_uint 3900) "m") as (_ & _ & Hfirst).
  - reflexivity.
  - right. left.
  - reflexivity.
  - split; [discriminate|reflexivity].
  - reflexivity.
  - left. exact Hk.
  - apply (Hfirst [worker] []); [reflexivity|].
    constructor; [|constructor]. vm_compute. eauto.
Defined.

Module CountFacts.
Import ResultFacts.

Lemma Forall2_filter_length {A B} (R : A -> B -> Prop)
    (p : A -> bool) (q : B -> bool) l k :
  Forall2 R l k -> (forall x y, R x y -> p x = q y) ->
  length (List.filter p l) = length (List.filter q k).
Proof.
  intros H Hpq. induction H as [|x y l k Hxy _ IH]; [done|].
  simpl. rewrite (Hpq x y Hxy). destruct (q y); simpl; by rewrite IH.
Qed.

Lemma Forall2_fmap_eq {A B C} (R : A -> B -> Prop) (f : A -> C) (g : B -> C) l k :
  Forall2 R l k -> (forall x y, R x y -> f x = g y) -> f <$> l = g <$> k.
Proof.
  intros H Hfg. induction H as [|x y l k Hxy _ IH]; [done|].
  rewrite !fmap_cons, IH. by rewrite (Hfg x y Hxy).
Qed.

(** The counts and totals of a summary. *)
Lemma print_summary_ok nodes s :
  print_summary nodes = Ok s ->
  total_nodes s = Z.of_nat (length nodes)
  /\ ready_nodes s = Z.of_nat (length (List.filter is_ready nodes))
  /\ tainted_nodes s = Z.of_nat (length (List.filter has_taints nodes))
  /\ total_cpu_usage s = PyList.sum (cpu_usage <$> nodes)
  /\ total_cpu_capacity s = PyList.sum (cpu_capacity <$> nodes)
  /\ total_mem_usage s = PyList.sum (memory_usage <$> nodes)
  /\ total_mem_capacity s = PyList.sum (memory_capacity <$> nodes)
  /\ total_pods s = PyList.sum (pod_count <$> nodes)
  /\ percent_of (total_cpu_usage s) (total_cpu_capacity s) = Ok (cpu_percent s)
  /\ percent_of (total_mem_usage s) (total_mem_capacity s) = Ok (mem_percent s).
Proof.
  unfold print_summary.
  intros (cp & Hcp & (mp & Hmp & [= <-])%bind_ok)%bind_ok. simpl.
  by rewrite !NodeFacts.sum_ones.
Qed.

Lemma filter_length_le {A} (p : A -> bool) l :
  (length (List.filter p l) <= length l)%nat.
Proof. induction l as [|x l IH]; simpl; [lia|]. destruct (p x); simpl; lia. Qed.

Lemma filter_all {A} (p : A -> bool) l :
  length (List.filter p l) = length l <-> Forall (fun x => p x = true) l.
Proof.
  induction l as [|x l IH]; simpl; [by split; [constructor|]|].
  pose proof (filter_length_le p l) as Hle.
  destruct (p x) eqn:Hx; simpl.
  - split.
    + intros [= H]. constructor; [done|by apply IH].
    + intros [_ H%IH]%Forall_cons. by rewrite H.
  - split; [lia|]. intros [H _]%Forall_cons. congruence.
Qed.

Lemma filter_none {A} (p : A -> bool) l :
  length (List.filter p l) = 0%nat <-> Forall (fun x => p x = false) l.
Proof.
  induction l as [|x l IH]; simpl; [by split; [constructor|]|].
  destruct (p x) eqn:Hx; simpl.
  - split; [done|]. intros [H _]%Forall_cons. congruence.
  - rewrite IH. split; [by constructor|by intros [_ H]%Forall_cons].
Qed.

End CountFacts.

(** X10.  [get_node_metrics] followed by [print_summary]: the summary
    of the records counts the nodes of the cluster, those with a [Ready]
    condition of status [True], those with a non-empty taint list, and
    adds up the pods listed for each node. *)
Theorem summary_counts_cluster api out s :
  get_node_metrics api = Ok out ->
  print_summary out = Ok s ->
  exists nodes,
    list_node api = Ok nodes
    /\ total_nodes s = Z.of_nat (length nodes)
    /\ ready_nodes s
       = Z.of_nat (length (List.filter (fun node => bool_decide (node_ready node))
                             nodes))
    /\ tainted_nodes s = Z.of_nat (length (List.filter node_tainted nodes))
    /\ total_pods s = PyList.sum (pods_listed api <$> nodes).
Proof.
  intros (nodes & Hnodes & H%NodeFacts.mapM_Forall2)%NodeFacts.get_node_metrics_ok.
  intros (Hn & Hr & Ht & _ & _ & _ & _ & Hp & _)%CountFacts.print_summary_ok.
  exists nodes. split; [done|].
  rewrite Hn, Hr, Ht, Hp. clear Hn Hr Ht Hp.
  split; [f_equal; symmetry; by eapply Forall2_length|].
  split; [|split].
  - f_equal. symmetry. eapply CountFacts.Forall2_filter_length; [exact H|].
    intros node r Hrec. simpl in Hrec.
    apply NodeFacts.record_fields in Hrec
      as (cap & alloc & conds & listed & _ & _ & Hconds & _ & _ & _ & _ & _ & _
          & _ & Hready & _).
    unfold is_ready. apply bool_decide_ext. unfold node_ready.
    rewrite Hconds. symmetry. apply Hready.
  - f_equal. symmetry. eapply CountFacts.Forall2_filter_length; [exact H|].
    intros node r Hrec. simpl in Hrec.
    apply NodeFacts.node_record_ok in Hrec
      as (cap & alloc & conds & listed & c & m & p & cu & mu & _ & _ & _ & _
          & _ & _ & _ & _ & ->).
    unfold has_taints, node_tainted. simpl.
    by destruct (spec_taints node) as [[|]|].
  - f_equal. symmetry. eapply CountFacts.Forall2_fmap_eq; [exact H|].
    intros node r Hrec. simpl in Hrec.
    apply NodeFacts.record_fields in Hrec
      as (cap & alloc & conds & listed & _ & _ & _ & Hl & _ & _ & _ & _ & _
          & Hcount & _).
    unfold pods_listed. by rewrite Hl.
Qed.

Lemma summary_counts_cluster_witness :
  exists out s,
    get_node_metrics sample_cluster = Ok out /\ print_summary out = Ok s
    /\ total_nodes s = 2 /\ ready_nodes s = 1 /\ tainted_nodes s = 1
    /\ total_pods s = 2.
Proof.
  assert (exists out, get_node_metrics sample_cluster = Ok out) as [out Hout]
    by (vm_compute; eauto).
  assert (exists s, print_summary out = Ok s) as [s Hs].
  { assert (Ok out = get_node_metrics sample_cluster) as E by done.
    vm_compute in E. injection E as ->. vm_compute. eauto. }
  exists out, s. split; [exact Hout|]. split; [exact Hs|].
  destruct (summary_counts_cluster sample_cluster out s Hout Hs)
    as (nodes & Hnodes & H).
  assert (nodes = [worker; bare_node]) as -> by (by injection Hnodes as <-).
  exact H.
Defined.

Module SelectionFacts.
Import ResultFacts.

Lemma sort_perm {A K} (key : A -> result K) ltb r l out :
  PyList.sort key ltb r l = Ok out -> out ≡ₚ l.
Proof.
  unfold PyList.sort. intros (ks & Hks & [= <-])%bind_ok.
  apply KeySortFacts.decorate_ok in Hks as [<- _].
  apply fmap_Permutation, SortFacts.sort_with_perm.
Qed.

Lemma sort_stage_perm sb l out : sort_stage sb l = Ok out -> out ≡ₚ l.
Proof. destruct sb; apply sort_perm. Qed.

Lemma main_perm ft fh sb nodes out :
  main ft fh sb nodes = Ok out ->
  out ≡ₚ List.filter (SortSpec.passes ft fh) nodes.
Proof.
  unfold main. intros (kept & Hkept & Hout)%bind_ok.
  apply PipelineFacts.filter_stage_ok in Hkept as ->.
  by eapply sort_stage_perm.
Qed.

Lemma print_summary_perm l l' : l ≡ₚ l' -> print_summary l = print_summary l'.
Proof.
  intros H. unfold print_summary.
  rewrite (Permutation_length H).
  rewrite (SummaryFacts.count_perm is_ready _ _ H).
  rewrite (SummaryFacts.count_perm has_taints _ _ H).
  rewrite (SummaryFacts.sum_field_perm cpu_usage _ _ H).
  rewrite (SummaryFacts.sum_field_perm cpu_capacity _ _ H).
  rewrite (SummaryFacts.sum_field_perm memory_usage _ _ H).
  rewrite (SummaryFacts.sum_field_perm memory_capacity _ _ H).
  by rewrite (SummaryFacts.sum_field_perm pod_count _ _ H).
Qed.

Lemma filter_Forall {A} (p : A -> bool) l :
  Forall (fun x => p x = true) (List.filter p l).
Proof.
  induction l as [|x l IH]; simpl; [constructor|].
  destruct (p x) eqn:Hx; [by constructor|done].
Qed.

(** The filter test and the percentage shown are the same number. *)
Lemma above_75_percent u c p :
  percent_of u c = Ok p -> above_75 u c = Ok (PyNum.gt p (PyNum.Int 75)).
Proof.
  unfold percent_of, above_75. destruct (0 <? c).
  - intros (q & Hq & (x & Hx & [= <-])%bind_ok)%bind_ok.
    rewrite Hq. cbn [bind]. by rewrite Hx.
  - by intros [= <-].
Qed.

Lemma gt_ge a b : PyNum.gt a b = true -> PyNum.ge a b = true.
Proof. unfold PyNum.gt, PyNum.ge. by destruct (PyNum.compare a b) as [[]|]. Qed.

Lemma eq_not_gt a b : PyNum.compare a b = Some Eq -> PyNum.gt a b = false.
Proof. unfold PyNum.gt. by intros ->. Qed.

Lemma warm_colour p :
  PyNum.ge p (PyNum.Int 75) = true ->
  get_color_for_usage p = "red" \/ get_color_for_usage p = "yellow".
Proof.
  intros H. unfold get_color_for_usage. rewrite H.
  destruct (PyNum.ge p (PyNum.Int 90)); auto.
Qed.

Lemma at_75_yellow p :
  PyNum.compare p (PyNum.Int 75) = Some Eq -> get_color_for_usage p = "yellow".
Proof.
  intros H. unfold get_color_for_usage.
  assert (PyNum.ge p (PyNum.Int 75) = true) as -> by (unfold PyNum.ge; by rewrite H).
  destruct (PyNum.ge p (PyNum.Int 90)) eqn:H90; [|done].
  apply NumFacts.ge_xle in H90.
  assert (PyNum.le p (PyNum.Int 75) = true) as Hle.
  { unfold PyNum.le. by rewrite H. }
  apply NumFacts.le_xle in Hle.
  pose proof (NumFacts.xle_trans _ _ _ H90 Hle) as Hbad.
  apply NumFacts.xle_int in Hbad. lia.
Qed.

End SelectionFacts.

(** X11.  The counts of a summary: the total is the length of the list,
    the ready and the tainted counts lie between 0 and the total, the
    tainted count is 0 exactly when no node has a taint, and all nodes
    count as ready exactly when every status is [Ready]. *)
Theorem summary_count_bounds nodes s :
  print_summary nodes = Ok s ->
  total_nodes s = Z.of_nat (length nodes)
  /\ 0 <= ready_nodes s <= total_nodes s
  /\ 0 <= tainted_nodes s <= total_nodes s
  /\ (tainted_nodes s = 0 <-> Forall (fun n => taints n = []) nodes)
  /\ (ready_nodes s = total_nodes s <-> Forall (fun n => status n = "Ready") nodes).
Proof.
  intros (Hn & Hr & Ht & _)%CountFacts.print_summary_ok.
  rewrite Hn, Hr, Ht.
  pose proof (CountFacts.filter_length_le is_ready nodes).
  pose proof (CountFacts.filter_length_le has_taints nodes).
  split; [done|]. split; [lia|]. split; [lia|]. split.
  - rewrite <- Nat2Z.inj_0, Nat2Z.inj_iff, CountFacts.filter_none.
    apply Forall_proper; [|done]. intros n. unfold has_taints.
    by destruct (taints n).
  - rewrite Nat2Z.inj_iff, CountFacts.filter_all.
    apply Forall_proper; [|done]. intros n. unfold is_ready.
    by rewrite bool_decide_eq_true.
Qed.

Lemma summary_count_bounds_witness :
  exists s, print_summary [NodeA; NodeB; unregistered] = Ok s
            /\ total_nodes s = 3 /\ ready_nodes s = 2 /\ tainted_nodes s = 1.
Proof.
  assert (exists s, print_summary [NodeA; NodeB; unregistered] = Ok s) as [s Hs]
    by (vm_compute; eauto).
  exists s. split; [exact Hs|].
  destruct (summary_count_bounds _ s Hs) as (Hn & _).
  split; [exact Hn|].
  assert (Ok s = print_summary [NodeA; NodeB; unregistered]) as E by done.
  vm_compute in E. injection E as ->. done.
Defined.

(** X12.  The summary [main] prints is that of the nodes which pass the
    filters, not of the whole cluster; the sort option has no influence
    on it; with [--filter-tainted] every node counted is tainted; and
    the total never exceeds the number of nodes read. *)
Theorem summary_covers_selection ft fh sb nodes out :
  main ft fh sb nodes = Ok out ->
  print_summary out = print_summary (List.filter (SortSpec.passes ft fh) nodes)
  /\ (forall sb' out', main ft fh sb' nodes = Ok out' ->
        print_summary out' = print_summary out)
  /\ (forall s, print_summary out = Ok s ->
        (ft = true -> tainted_nodes s = total_nodes s)
        /\ total_nodes s <= Z.of_nat (length nodes)).
Proof.
  intros Hperm%SelectionFacts.main_perm.
  split; [by apply SelectionFacts.print_summary_perm|].
  split.
  - intros sb' out' Hperm'%SelectionFacts.main_perm.
    apply SelectionFacts.print_summary_perm. by rewrite Hperm, Hperm'.
  - intros s (Hn & _ & Ht & _)%CountFacts.print_summary_ok.
    rewrite Hn, Ht, !(Permutation_length Hperm).
    rewrite (Permutation_length (SummaryFacts.filter_perm has_taints _ _ Hperm)).
    split.
    + intros ->. f_equal. apply CountFacts.filter_all.
      eapply Forall_impl; [apply SelectionFacts.filter_Forall|].
      intros n. unfold SortSpec.passes. simpl.
      by intros [H _]%andb_true_iff.
    + pose proof (CountFacts.filter_length_le (SortSpec.passes ft fh) nodes). lia.
Qed.

Lemma summary_covers_selection_witness :
  exists out s,
    main true false by_cpu [NodeA; NodeB; NodeC] = Ok out
    /\ print_summary out = Ok s
    /\ tainted_nodes s = total_nodes s
    /\ total_nodes s <= 3.
Proof.
  assert (exists out, main true false by_cpu [NodeA; NodeB; NodeC] = Ok out)
    as [out Hout] by (vm_compute; eauto).
  assert (exists s, print_summary out = Ok s) as [s Hs].
  { assert (Ok out = main true false by_cpu [NodeA; NodeB; NodeC]) as E by done.
    vm_compute in E. injection E as ->. vm_compute. eauto. }
  exists out, s. split; [exact Hout|]. split; [exact Hs|].
  destruct (summary_covers_selection _ _ _ _ out Hout) as (_ & _ & H).
  destruct (H s Hs) as [Ht Hn]. split; [exact (Ht eq_refl)|exact Hn].
Defined.

(** X13.  The [--filter-high-usage] test and the colours of
    [print_node_details] are computed from the same percentages: the
    filter keeps a node exactly when its CPU or its memory percentage is
    greater than 75, every node it keeps is shown with a red or yellow
    CPU or memory figure, and a node at exactly 75 percent is shown
    yellow without passing the test for that resource. *)
Theorem high_usage_matches_colours n d :
  print_node_details n = Ok d ->
  high_usage n = Ok (PyNum.gt (node_cpu_percent d) (PyNum.Int 75)
                     || PyNum.gt (node_mem_percent d) (PyNum.Int 75))
  /\ (high_usage n = Ok true ->
      (cpu_color d = "red" \/ cpu_color d = "yellow")
      \/ (mem_color d = "red" \/ mem_color d = "yellow"))
  /\ (PyNum.compare (node_cpu_percent d) (PyNum.Int 75) = Some Eq ->
      cpu_color d = "yellow"
      /\ above_75 (cpu_usage n) (cpu_capacity n) = Ok false)
  /\ (PyNum.compare (node_mem_percent d) (PyNum.Int 75) = Some Eq ->
      mem_color d = "yellow"
      /\ above_75 (memory_usage n) (memory_capacity n) = Ok false).
Proof.
  unfold print_node_details.
  intros (pc & Hpc & (pm & Hpm & (pp & Hpp & [= <-])%ResultFacts.bind_ok)
            %ResultFacts.bind_ok)%ResultFacts.bind_ok.
  simpl.
  pose proof (SelectionFacts.above_75_percent _ _ _ Hpc) as Hc.
  pose proof (SelectionFacts.above_75_percent _ _ _ Hpm) as Hm.
  assert (high_usage n = Ok (PyNum.gt pc (PyNum.Int 75) || PyNum.gt pm (PyNum.Int 75)))
    as Hhigh.
  { unfold high_usage. rewrite Hc. simpl.
    destruct (PyNum.gt pc (PyNum.Int 75)); [done|]. by rewrite Hm. }
  split; [exact Hhigh|]. split; [|split].
  - rewrite Hhigh. intros [= [H|H]%orb_true_iff].
    + left. by apply SelectionFacts.warm_colour, SelectionFacts.gt_ge.
    + right. by apply SelectionFacts.warm_colour, SelectionFacts.gt_ge.
  - intros H. split; [by apply SelectionFacts.at_75_yellow|].
    by rewrite Hc, (SelectionFacts.eq_not_gt _ _ H).
  - intros H. split; [by apply SelectionFacts.at_75_yellow|].
    by rewrite Hm, (SelectionFacts.eq_not_gt _ _ H).
Qed.

Lemma high_usage_matches_colours_witness :
  exists d, print_node_details (sample "edge" 750 1000 []) = Ok d
            /\ cpu_color d = "yellow"
            /\ above_75 750 1000 = Ok false.
Proof.
  assert (exists d, print_node_details (sample "edge" 750 1000 []) = Ok d)
    as [d Hd] by (vm_compute; eauto).
  exists d. split; [exact Hd|].
  destruct (high_usage_matches_colours _ d Hd) as (_ & _ & H & _).
  apply H.
  assert (Ok d = print_node_details (sample "edge" 750 1000 [])) as E by done.
  vm_compute in E. injection E as ->. vm_compute. reflexivity.
Defined.

Module ResortFacts.
Import ResultFacts.

Section Sorted.
Context {A : Type} (ltb : A -> A -> bool).

Lemma insert_head x l :
  Forall (fun y => ltb y x = false) l -> PyList.insert ltb x l = x :: l.
Proof. destruct l as [|y l]; [done|]. simpl. by intros [-> _]%Forall_cons. Qed.

Lemma stable_sort_id l :
  StronglySorted (fun a b => ltb b a = false) l -> PyList.stable_sort ltb l = l.
Proof.
  induction 1 as [|x l Hs IH Hx]; [done|].
  unfold PyList.stable_sort in *. simpl. rewrite IH. by apply insert_head.
Qed.

Lemma sort_with_id (r : bool) l :
  StronglySorted (fun a b => (if r then ltb a b else ltb b a) = false) l ->
  PyList.sort_with ltb r l = l.
Proof.
  destruct r; simpl; intros Hs; [|by apply stable_sort_id].
  rewrite stable_sort_id; [apply reverse_involutive|].
  by apply (SortFacts.StronglySorted_reverse (fun a b => ltb a b = false)).
Qed.
End Sorted.

Section Keyed.
Context {A K : Type} (key : A -> result K) (ltb : K -> K -> bool).
Context (good : K -> Prop).
Hypothesis ltb_asym :
  forall a b, good a -> good b -> ltb a b = true -> ltb b a = false.
Hypothesis ltb_negtrans :
  forall a b c, good a -> good b -> good c ->
    ltb a b = false -> ltb b c = false -> ltb a c = false.
Hypothesis key_good : forall x k, key x = Ok k -> good k.

Lemma decorate_keyed (ks : list (K * A)) :
  Forall (fun p => key p.2 = Ok p.1) ks ->
  mapM (fun x => k <- key x ;; Ok (k, x)) (ks.*2) = Ok ks.
Proof.
  induction 1 as [|[k x] ks Hp _ IH]; [done|].
  rewrite fmap_cons. simpl in *. rewrite Hp. cbn [bind]. by rewrite IH.
Qed.

Lemma sort_idem r l out :
  PyList.sort key ltb r l = Ok out -> PyList.sort key ltb r out = Ok out.
Proof.
  unfold PyList.sort.
  intros (ks & Hks & [= <-])%bind_ok.
  apply KeySortFacts.decorate_ok in Hks as [_ Hkeyed].
  set (ltb2 := fun a b : K * A => ltb a.1 b.1).
  assert (Forall (fun p : K * A => good p.1) ks) as Hgood.
  { eapply Forall_impl; [exact Hkeyed|]. intros [k x] Hp. by eapply key_good. }
  pose proof (SortFacts.sort_with_perm ltb2 r ks) as Hperm.
  assert (Forall (fun p => key p.2 = Ok p.1) (PyList.sort_with ltb2 r ks))
    as Hkeyed' by (by rewrite Hperm).
  rewrite (decorate_keyed _ Hkeyed'). cbn [bind]. do 2 f_equal.
  apply sort_with_id.
  apply (SortFacts.sort_with_sorted ltb2 (fun p => good p.1)); [..|done].
  - unfold ltb2. eauto.
  - unfold ltb2. eauto.
Qed.
End Keyed.

Lemma num_sort_idem (key : NodeMetrics -> result PyNum.num) r l out :
  (forall x k, key x = Ok k -> PyNum.ordered_num k) ->
  PyList.sort key PyNum.lt r l = Ok out -> PyList.sort key PyNum.lt r out = Ok out.
Proof.
  intros Hkey. apply (sort_idem key PyNum.lt PyNum.ordered_num).
  - intros a b _ _. apply NumFacts.lt_asym.
  - intros a b c. apply NumFacts.lt_negtrans.
  - done.
Qed.

Lemma name_sort_idem r l out :
  PyList.sort name_key String.ltb r l = Ok out ->
  PyList.sort name_key String.ltb r out = Ok out.
Proof.
  apply (sort_idem name_key String.ltb (fun _ => True)).
  - intros a b _ _. unfold String.ltb. rewrite (String.compare_antisym b a).
    by destruct (String.compare a b).
  - intros a b c _ _ _. rewrite !PipelineFacts.string_ltb_false.
    intros H1%Is_true_true H2%Is_true_true. apply Is_true_true.
    change (String.le c a). by etrans.
  - done.
Qed.

Lemma filter_id {A} (p : A -> bool) l :
  Forall (fun x => p x = true) l -> List.filter p l = l.
Proof. induction 1 as [|x l Hx _ IH]; [done|]. simpl. by rewrite Hx, IH. Qed.

Lemma filterM_id {A} (p : A -> result bool) l :
  Forall (fun x => p x = Ok true) l -> filterM p l = Ok l.
Proof.
  induction 1 as [|x l Hx _ IH]; [done|]. simpl. rewrite Hx. cbn [bind].
  by rewrite IH.
Qed.

Lemma filter_stage_id ft fh l :
  Forall (fun n => SortSpec.passes ft fh n = true) l -> filter_stage ft fh l = Ok l.
Proof.
  intros H. unfold filter_stage.
  assert ((if ft then List.filter has_taints l else l) = l) as ->.
  { destruct ft; [|done]. apply filter_id. eapply Forall_impl; [exact H|].
    intros n. unfold SortSpec.passes. simpl. by intros [? _]%andb_true_iff. }
  destruct fh; [|done]. apply filterM_id. eapply Forall_impl; [exact H|].
  intros n. unfold SortSpec.passes. simpl. intros [_ Hn]%andb_true_iff.
  by destruct (high_usage n) as [[]|].
Qed.

End ResortFacts.

(** X14.  Running the pipeline of [main] on its own output changes
    nothing: the nodes it returns all pass the filters again, and sorting
    a sorted list keeps it as it is, ties included, for every sort
    option. *)
Theorem main_idempotent ft fh sb nodes out :
  main ft fh sb nodes = Ok out ->
  filter_stage ft fh out = Ok out
  /\ sort_stage sb out = Ok out
  /\ main ft fh sb out = Ok out.
Proof.
  intros Hmain.
  assert (filter_stage ft fh out = Ok out) as Hf.
  { apply ResortFacts.filter_stage_id.
    rewrite (SelectionFacts.main_perm _ _ _ _ _ Hmain).
    apply SelectionFacts.filter_Forall. }
  assert (sort_stage sb out = Ok out) as Hs.
  { unfold main in Hmain.
    apply ResultFacts.bind_ok in Hmain as (kept & _ & Hsort).
    destruct sb; simpl in *.
    - eapply ResortFacts.num_sort_idem; [|exact Hsort].
      intros x k. apply PipelineFacts.ratio_key_ordered.
    - eapply ResortFacts.num_sort_idem; [|exact Hsort].
      intros x k. apply PipelineFacts.ratio_key_ordered.
    - eapply ResortFacts.num_sort_idem; [|exact Hsort].
      intros x k. apply PipelineFacts.ratio_key_ordered.
    - by eapply ResortFacts.name_sort_idem. }
  split; [exact Hf|]. split; [exact Hs|].
  unfold main. rewrite Hf. exact Hs.
Qed.

Lemma main_idempotent_witness :
  exists out, main false true by_cpu [NodeC; NodeA; NodeB] = Ok out
              /\ main false true by_cpu out = Ok out.
Proof.
  assert (exists out, main false true by_cpu [NodeC; NodeA; NodeB] = Ok out)
    as [out Hout] by (vm_compute; eauto).
  exists out. split; [exact Hout|].
  exact (proj2 (proj2 (main_idempotent _ _ _ _ out Hout))).
Defined.

Module NameOrderFacts.

Lemma name_le_antisym a b :
  NameOrder.name_le a b -> NameOrder.name_le b a -> a = b.
Proof.
  unfold NameOrder.name_le, String.leb. rewrite (String.compare_antisym b a).
  destruct (String.compare a b) eqn:Hc; simpl; try done.
  intros _ _. by apply String.compare_eq_iff.
Qed.

Lemma sorted_unique (l1 l2 : list string) :
  StronglySorted NameOrder.name_le l1 -> StronglySorted NameOrder.name_le l2 ->
  l1 ≡ₚ l2 -> l1 = l2.
Proof.
  revert l2. induction l1 as [|x l1 IH]; intros l2 H1 H2 Hp.
  { by apply Permutation_nil_l in Hp. }
  destruct l2 as [|y l2]; [by apply Permutation_nil_r in Hp|].
  apply StronglySorted_inv in H1 as [H1 Hx], H2 as [H2 Hy].
  assert (x = y) as ->.
  { assert (x ∈ y :: l2) as Hxin by (rewrite <- Hp; left).
    assert (y ∈ x :: l1) as Hyin by (rewrite Hp; left).
    apply elem_of_cons in Hxin as [?|Hxin]; [done|].
    apply elem_of_cons in Hyin as [?|Hyin]; [done|].
    rewrite Forall_forall in Hx, Hy.
    apply name_le_antisym; auto. }
  f_equal. apply IH; [done..|]. by eapply Permutation_cons_inv.
Qed.

Lemma names_sorted out :
  StronglySorted (SortSpec.ascending name_key String.ltb) out ->
  StronglySorted NameOrder.name_le (name <$> out).
Proof.
  apply StronglySorted_fmap. intros x y (kx & ky & [= <-] & [= <-] & H).
  by apply PipelineFacts.string_ltb_false.
Qed.

Lemma fmap_perm_inj {A B} (f : A -> B) (l l' : list A) :
  f <$> l = f <$> l' -> l ≡ₚ l' -> NoDup (f <$> l) -> l = l'.
Proof.
  revert l'. induction l as [|x l IH]; intros [|y l'] Hf Hp Hd; try done.
  rewrite !fmap_cons in Hf. injection Hf as Hxy Hf.
  rewrite fmap_cons in Hd. apply NoDup_cons in Hd as [Hx Hd].
  assert (x = y) as ->.
  { assert (x ∈ y :: l') as Hin by (rewrite <- Hp; left).
    apply elem_of_cons in Hin as [?|Hin]; [done|].
    exfalso. apply Hx. rewrite Hf. by apply list_elem_of_fmap_2. }
  f_equal. apply IH; [done| |done]. by eapply Permutation_cons_inv.
Qed.

Lemma filter_fmap_NoDup {A B} (f : A -> B) (p : A -> bool) l :
  NoDup (f <$> l) -> NoDup (f <$> List.filter p l).
Proof.
  induction l as [|x l IH]; [done|]. rewrite fmap_cons.
  intros [Hx Hd]%NoDup_cons. simpl. destruct (p x); [|by apply IH].
  rewrite fmap_cons. apply NoDup_cons. split; [|by apply IH].
  intros (y & Hy & Hin)%list_elem_of_fmap. apply Hx.
  apply list_elem_of_fmap. exists y. split; [done|].
  apply list_elem_of_In in Hin. apply List.filter_In in Hin as [Hin _].
  by apply list_elem_of_In.
Qed.

End NameOrderFacts.

(** X15.  With the default sort by name, the order in which the names
    are shown depends only on which nodes the cluster has, not on the
    order in which the API lists them; when the names are distinct the
    whole output list is the same. *)
Theorem name_order_canonical ft fh nodes nodes' out out' :
  nodes ≡ₚ nodes' ->
  main ft fh by_name nodes = Ok out ->
  main ft fh by_name nodes' = Ok out' ->
  name <$> out = name <$> out'
  /\ (NoDup (name <$> nodes) -> out = out').
Proof.
  intros Hp Hout Hout'.
  pose proof (SelectionFacts.main_perm _ _ _ _ _ Hout) as Hperm.
  pose proof (SelectionFacts.main_perm _ _ _ _ _ Hout') as Hperm'.
  assert (out ≡ₚ out') as Hoo.
  { rewrite Hperm, Hperm'. by apply SummaryFacts.filter_perm. }
  unfold main in Hout, Hout'.
  apply ResultFacts.bind_ok in Hout as (kept & _ & Hs).
  apply ResultFacts.bind_ok in Hout' as (kept' & _ & Hs').
  apply PipelineFacts.name_sort_spec in Hs as (_ & Hs & _).
  apply PipelineFacts.name_sort_spec in Hs' as (_ & Hs' & _).
  assert (name <$> out = name <$> out') as Hnames.
  { apply NameOrderFacts.sorted_unique.
    - by apply NameOrderFacts.names_sorted.
    - by apply NameOrderFacts.names_sorted.
    - by apply fmap_Permutation. }
  split; [exact Hnames|].
  intros Hd. apply (NameOrderFacts.fmap_perm_inj name); [done..|].
  rewrite Hperm. by apply NameOrderFacts.filter_fmap_NoDup.
Qed.

Lemma name_order_canonical_witness :
  exists out,
    main false false by_name [NodeC; NodeA; NodeB] = Ok out
    /\ main false false by_name [NodeB; NodeC; NodeA] = Ok out
    /\ name <$> out = ["NodeA"; "NodeB"; "NodeC"].
Proof.
  assert (exists out, main false false by_name [NodeC; NodeA; NodeB] = Ok out)
    as [out Hout] by (vm_compute; eauto).
  assert (exists out', main false false by_name [NodeB; NodeC; NodeA] = Ok out')
    as [out' Hout'] by (vm_compute; eauto).
  assert ([NodeC; NodeA; NodeB] ≡ₚ [NodeB; NodeC; NodeA]) as Hp.
  { apply (Permutation_trans (l' := [NodeC; NodeB; NodeA])).
    - apply perm_skip, perm_swap.
    - apply perm_swap. }
  assert (NoDup (name <$> [NodeC; NodeA; NodeB])) as Hd.
  { apply NoDup_ListNoDup. repeat constructor; simpl; intuition discriminate. }
  destruct (name_order_canonical false false _ _ out out' Hp Hout Hout') as [_ Heq].
  exists out. split; [exact Hout|]. split.
  - rewrite (Heq Hd). exact Hout'.
  - assert (Ok out = main false false by_name [NodeC; NodeA; NodeB]) as E by done.
    vm_compute in E. injection E as ->. reflexivity.
Defined.

(** ** What [format_memory] prints, and what [parse_memory] reads of it *)

(** A quotient rounded to binary64 has a mantissa below [2 ^ 53] and an
    exponent of at most 971, so it has at most 309 digits before the
    point. *)
Module RoundFacts.
Import Str PyInt Syntax StrFacts IntFacts DigitFacts.

Lemma digits2_bound p : Zpos p < 2 ^ Zpos (digits2_pos p).
Proof.
  induction p as [p IH|p IH|]; simpl digits2_pos.
  - rewrite Pos2Z.inj_succ, Z.pow_succ_r by lia. lia.
  - rewrite Pos2Z.inj_succ, Z.pow_succ_r by lia. lia.
  - reflexivity.
Qed.

Lemma Zdigits2_bound m : 0 <= m -> m < 2 ^ Zdigits2 m.
Proof.
  destruct m as [|p|p]; simpl; [reflexivity| |lia]. intros _. apply digits2_bound.
Qed.

Lemma shr_1_m mrs : 0 <= shr_m mrs -> shr_m (shr_1 mrs) = shr_m mrs / 2.
Proof.
  destruct mrs as [m r s]. simpl. destruct m as [|[p|p|]|p]; simpl; intros H.
  - reflexivity.
  - apply (Z.div_unique _ _ _ 1); lia.
  - apply (Z.div_unique _ _ _ 0); lia.
  - reflexivity.
  - lia.
Qed.

Lemma iter_shr_m p : forall mrs,
  0 <= shr_m mrs -> shr_m (SpecFloat.iter_pos shr_1 p mrs) = shr_m mrs / 2 ^ Zpos p.
Proof.
  induction p as [p IH|p IH|]; intros mrs Hm; simpl SpecFloat.iter_pos.
  - assert (0 <= shr_m (shr_1 mrs)) as H1 by (rewrite shr_1_m by lia; apply Z.div_pos; lia).
    assert (0 <= shr_m (SpecFloat.iter_pos shr_1 p (shr_1 mrs))) as H2
      by (rewrite IH by lia; apply Z.div_pos; lia).
    rewrite IH, IH, shr_1_m by lia.
    rewrite !Z.div_div by lia.
    f_equal. replace (Z.pos p~1) with (1 + Z.pos p + Z.pos p) by lia.
    rewrite !Z.pow_add_r by lia. lia.
  - assert (0 <= shr_m (SpecFloat.iter_pos shr_1 p mrs)) as H2
      by (rewrite IH by lia; apply Z.div_pos; lia).
    rewrite IH, IH by lia. rewrite !Z.div_div by lia.
    f_equal. replace (Z.pos p~0) with (Z.pos p + Z.pos p) by lia.
    rewrite !Z.pow_add_r by lia. lia.
  - rewrite shr_1_m by lia. reflexivity.
Qed.

Lemma shr_record_m m l : shr_m (shr_record_of_loc m l) = m.
Proof. destruct l as [|[]]; reflexivity. Qed.

Lemma shr_fexp_bound m e l mrs e' :
  0 <= m -> shr_fexp 53 1024 m e l = (mrs, e') -> 0 <= shr_m mrs < 2 ^ 53.
Proof.
  intros Hm. unfold shr_fexp, shr.
  pose proof (Zdigits2_bound m Hm) as Hd.
  assert (Zdigits2 m + e - 53 <= fexp 53 1024 (Zdigits2 m + e)) as Hf
    by (unfold fexp; lia).
  assert (0 <= Zdigits2 m) as Hd0 by (destruct m; simpl; lia).
  destruct (fexp 53 1024 (Zdigits2 m + e) - e) as [|p|p] eqn:Hn;
    intros [= <- <-]; rewrite ?shr_record_m.
  - split; [lia|]. eapply Z.lt_le_trans; [exact Hd|].
    apply Z.pow_le_mono_r; lia.
  - rewrite iter_shr_m by (rewrite shr_record_m; lia). rewrite shr_record_m.
    split; [apply Z.div_pos; lia|].
    apply Z.div_lt_upper_bound; [lia|].
    rewrite <- Z.pow_add_r by lia.
    eapply Z.lt_le_trans; [exact Hd|]. apply Z.pow_le_mono_r; lia.
  - split; [lia|]. eapply Z.lt_le_trans; [exact Hd|].
    apply Z.pow_le_mono_r; lia.
Qed.

Lemma round_nonneg m l : 0 <= m -> 0 <= round_nearest_even m l.
Proof. destruct l as [|[]]; simpl; [lia| |lia|lia]. destruct (Z.even m); lia. Qed.

Lemma binary_round_aux_bound sx mx ex lx s m e :
  0 <= mx ->
  binary_round_aux 53 1024 sx mx ex lx = S754_finite s m e ->
  Zpos m < 2 ^ 53 /\ e <= 971.
Proof.
  intros Hmx. unfold binary_round_aux.
  destruct (shr_fexp 53 1024 mx ex lx) as [mrs' e1] eqn:H1.
  apply shr_fexp_bound in H1 as [H1 _]; [|done].
  destruct (shr_fexp 53 1024 _ e1 loc_Exact) as [mrs'' e2] eqn:H2.
  apply shr_fexp_bound in H2 as [_ H2]; [|by apply round_nonneg].
  destruct (shr_m mrs'') as [|p|p]; try discriminate.
  destruct (e2 <=? 1024 - 53) eqn:He; [|discriminate].
  intros [= <- <- <-]. apply Z.leb_le in He. lia.
Qed.

Lemma SFdiv_bound x y s m e :
  SFdiv 53 1024 x y = S754_finite s m e -> Zpos m < 2 ^ 53 /\ e <= 971.
Proof.
  destruct x as [sx|sx| |sx mx ex], y as [sy|sy| |sy my ey]; try discriminate.
  unfold SFdiv, SFdiv_core_binary.
  set (m' := match _ with Z0 => _ | Zpos _ => _ | Zneg _ => _ end).
  assert (0 <= m') as Hm'.
  { unfold m'. destruct (_ - _ - _); [lia| |lia]. apply Z.shiftl_nonneg. lia. }
  destruct (Z.div_eucl m' (Zpos my)) as [q r] eqn:Hdiv.
  assert (q = m' / Zpos my) as -> by (unfold Z.div; now rewrite Hdiv).
  apply binary_round_aux_bound. apply Z.div_pos; lia.
Qed.

Lemma truediv_bounded a b s m e :
  PyNum.truediv a b = Ok (S754_finite s m e) -> Zpos m < 2 ^ 53 /\ e <= 971.
Proof.
  unfold PyNum.truediv. destruct (b =? 0); [done|].
  destruct (PyNum.is_finite _); [|done]. intros [= H].
  by apply SFdiv_bound in H.
Qed.

Lemma size_length u :
  Z.of_N (DecimalPos.Unsigned.usize u)
  = Z.of_nat (String.length (NilEmpty.string_of_uint u)).
Proof.
  induction u; cbn [DecimalPos.Unsigned.usize NilEmpty.string_of_uint String.length];
    rewrite ?N2Z.inj_succ, ?Nat2Z.inj_succ; lia.
Qed.

Lemma uint_value u :
  Z.of_uint u = decimal 0 (chars (NilEmpty.string_of_uint u)).
Proof.
  rewrite decimal_of_uint. unfold Z.of_uint.
  by rewrite DecimalPos.Unsigned.of_uint_alt.
Qed.

(** A numeral that starts with a digit other than 0 is at least the
    power of ten of its other digits. *)
Lemma leading_digit_lower u :
  match u with
  | Decimal.Nil | Decimal.D0 _ => True
  | _ => 10 ^ (Z.of_nat (String.length (NilEmpty.string_of_uint u)) - 1) <= Z.of_uint u
  end.
Proof.
  destruct u as [|u|u|u|u|u|u|u|u|u|u]; try done;
    rewrite uint_value;
    cbn [NilEmpty.string_of_uint chars list_ascii_of_string String.length];
    fold (chars (NilEmpty.string_of_uint u));
    unfold decimal; cbn [foldl];
    match goal with
    | |- context [foldl ?f ?a ?l] => change (foldl f a l) with (decimal a l)
    end;
    rewrite decimal_of_uint, size_length;
    replace (Z.of_nat (S (String.length (NilEmpty.string_of_uint u))) - 1)
      with (Z.of_nat (String.length (NilEmpty.string_of_uint u))) by lia;
    pose proof (N2Z.is_nonneg (DecimalPos.Unsigned.of_lu (Decimal.rev u)));
    assert (0 < 10 ^ Z.of_nat (String.length (NilEmpty.string_of_uint u)))
      by (apply Z.pow_pos_nonneg; lia);
    match goal with
    | |- context [digit_value ?c] =>
        let v := eval vm_compute in (digit_value c) in
        change (digit_value c) with v
    end; lia.
Qed.

Lemma to_uint_leading p :
  match Pos.to_uint p with
  | Decimal.Nil | Decimal.D0 _ => False
  | _ => True
  end.
Proof.
  pose proof (DecimalPos.Unsigned.to_of (Pos.to_uint p)) as H.
  rewrite DecimalPos.Unsigned.of_to in H. simpl in H.
  pose proof (DecimalPos.Unsigned.to_uint_nonzero p) as Hz.
  pose proof (DecimalFacts.nzhead_nonzero (Pos.to_uint p)) as Hh.
  unfold Decimal.unorm in H.
  destruct (Decimal.nzhead (Pos.to_uint p)) as [|u|u|u|u|u|u|u|u|u|u];
    rewrite H in *; try done. by apply (Hh u).
Qed.

(** The digits of a number below [10 ^ k]: at most [k] of them, and
    one for 0. *)
Lemma digits_length n k :
  0 <= n < 10 ^ Z.of_nat k ->
  (String.length (PyFormat.digits n) <= Nat.max 1 k)%nat.
Proof.
  intros [H0 Hk]. unfold PyFormat.digits.
  destruct n as [|p|p]; [simpl; lia| |lia]. simpl Z.to_N. simpl N.to_uint.
  pose proof (to_uint_leading p) as Hl.
  pose proof (leading_digit_lower (Pos.to_uint p)) as Hv.
  assert (Z.of_uint (Pos.to_uint p) = Zpos p) as Hp
    by (unfold Z.of_uint; by rewrite DecimalPos.Unsigned.of_to).
  rewrite Hp in Hv.
  assert (NilZero.string_of_uint (Pos.to_uint p)
          = NilEmpty.string_of_uint (Pos.to_uint p)) as ->
    by (by destruct (Pos.to_uint p)).
  set (len := String.length _) in *.
  assert (10 ^ (Z.of_nat len - 1) < 10 ^ Z.of_nat k) as Hlt
    by (destruct (Pos.to_uint p); try done; lia).
  apply Z.pow_lt_mono_r_iff in Hlt; lia.
Qed.

Lemma scaled_bound m e :
  Zpos m < 2 ^ 53 -> e <= 971 -> 0 <= PyFormat.scaled 0 m e < 10 ^ 309.
Proof.
  intros Hm He. unfold PyFormat.scaled. simpl Z.of_nat. rewrite Z.pow_0_r, Z.mul_1_r.
  destruct (0 <=? e) eqn:E.
  - apply Z.leb_le in E.
    assert (2 ^ e <= 2 ^ 971) by (apply Z.pow_le_mono_r; lia).
    assert (0 < 2 ^ e) by (apply Z.pow_pos_nonneg; lia).
    assert (2 ^ 53 * 2 ^ 971 < 10 ^ 309) by (by vm_compute).
    nia.
  - apply Z.leb_gt in E. unfold PyFormat.round_half_even.
    assert (0 < 2 ^ (- e)) as Hd by (apply Z.pow_pos_nonneg; lia).
    assert (0 <= Zpos m / 2 ^ (- e) <= Zpos m) as Hq.
    { split; [apply Z.div_pos; lia|]. apply Z.div_le_upper_bound; [lia|]. nia. }
    assert (2 ^ 53 + 1 < 10 ^ 309) by (by vm_compute).
    destruct (_ ?= _); [destruct (Z.even _)|..]; lia.
Qed.

End RoundFacts.

Module FormatFacts.
Import ResultFacts.

Lemma digits_uint n :
  NilZero.uint_of_string (PyFormat.digits n) = Some (N.to_uint (Z.to_N n)).
Proof.
  unfold PyFormat.digits. apply NilZero.usu.
  destruct (Z.to_N n) as [|p]; [done|]. apply DecimalPos.Unsigned.to_uint_nonnil.
Qed.

Lemma digit_single k :
  0 <= k < 10 ->
  exists c, PyFormat.digits k = String c EmptyString /\ PyInt.is_digit c = true.
Proof.
  intros H.
  assert (k = 0 \/ k = 1 \/ k = 2 \/ k = 3 \/ k = 4 \/ k = 5 \/ k = 6 \/ k = 7
          \/ k = 8 \/ k = 9) as Hk by lia.
  repeat (destruct Hk as [->|Hk]; [by eexists|]). subst. by eexists.
Qed.

(** One decimal: digits, a point and one more digit. *)
Lemma fixed_one n :
  exists d u f,
    NilZero.uint_of_string d = Some u /\ PyInt.is_digit f = true
    /\ PyFormat.fixed_digits 1 n = d +:+ "." +:+ String f EmptyString.
Proof.
  unfold PyFormat.fixed_digits.
  destruct (digit_single (n mod 10 ^ Z.of_nat 1)) as (c & Hc & Hd).
  { by apply Z.mod_pos_bound. }
  rewrite Hc. eexists (PyFormat.digits (n / 10 ^ Z.of_nat 1)), _, c.
  split; [apply digits_uint|]. split; [done|]. done.
Qed.

Lemma ge_one_positive gb :
  PyNum.ge (PyNum.Float gb) (PyNum.Int 1) = true ->
  PyNum.is_finite gb = true ->
  exists m e, gb = S754_finite false m e.
Proof.
  destruct gb as [s|s| |s m e]; try done.
  destruct s; [|eauto]. intros H _. exfalso.
  unfold PyNum.ge, PyNum.compare, PyNum.view, PyNum.xcompare, PyNum.fin_compare in H.
  assert (Z.neg m * 2 ^ (e - Z.min e 0) < 1 * 2 ^ (0 - Z.min e 0)) as Hlt.
  { assert (0 < 2 ^ (e - Z.min e 0)) by (apply Z.pow_pos_nonneg; lia).
    assert (0 < 2 ^ (0 - Z.min e 0)) by (apply Z.pow_pos_nonneg; lia).
    pose proof (Pos2Z.neg_is_neg m). nia. }
  apply Z.compare_lt_iff in Hlt. by rewrite Hlt in H.
Qed.

(** A number with a decimal point is not a quantity [parse_memory]
    reads. *)
Lemma decimal_point_rejected d u f :
  NilZero.uint_of_string d = Some u -> PyInt.is_digit f = true ->
  parse_memory ((d +:+ "." +:+ String f EmptyString) +:+ "Gi") = Raise ValueError.
Proof.
  intros Hd Hf. set (X := d +:+ "." +:+ String f EmptyString).
  destruct (DigitFacts.digit_string_ends d u Hd) as [(c & r & Hc & Hdig) _].
  destruct (IntFacts.digit_not_space c Hdig) as (_ & Hsp & _).
  assert (Str.strip (X +:+ "Gi") = X +:+ "Gi") as Hstrip.
  { apply (QuantityFacts.strip_with_unit X c (r ++ Str.chars ("." +:+ String f EmptyString))
             ["G"%char] "i"%char "Gi"); [|done..].
    unfold X. by rewrite StrFacts.chars_app, Hc. }
  assert (Str.endswith (X +:+ "Gi") "Ki" = false) as E1.
  { rewrite ParseFacts.endswith_app_short; [done|simpl; lia]. }
  assert (Str.endswith (X +:+ "Gi") "Mi" = false) as E2.
  { rewrite ParseFacts.endswith_app_short; [done|simpl; lia]. }
  unfold parse_memory. rewrite Hstrip, E1, E2, StrFacts.endswith_app.
  rewrite (StrFacts.drop_last_app 2 X "Gi") by done.
  unfold X.
  by rewrite (SuffixFacts.int_digits_then_letter d u "."%char [f]
                ("." +:+ String f EmptyString) Hd eq_refl eq_refl).
Qed.

(** A whole number of mebibytes is read back. *)
Lemma whole_mebibytes (neg : bool) d u :
  NilZero.uint_of_string d = Some u ->
  Z.of_nat (String.length d) <= PyInt.max_str_digits ->
  parse_memory ((if neg then "-" else EmptyString) +:+ d +:+ "Mi")
  = Ok ((if neg then - Z.of_uint u else Z.of_uint u) * 1024 ^ 2).
Proof.
  intros Hd Hlen.
  destruct (DigitFacts.digit_string_literal d u Hd) as [Hpos Hneg].
  destruct (QuantityFacts.digit_string_limit d u Hd Hlen) as [Hlim Hlim'].
  destruct (DigitFacts.digit_string_ends d u Hd) as [(c & r & Hc & Hdig) _].
  destruct (IntFacts.digit_not_space c Hdig) as (_ & Hsp & _).
  destruct neg.
  - apply (ParseFacts.parse_memory_unit _ ("-" +:+ d) _ "Mi"); [|done|done|].
    { unfold Syntax.memory_units. set_solver. }
    change ("-" +:+ d +:+ "Mi") with (("-" +:+ d) +:+ "Mi").
    by apply (QuantityFacts.strip_with_unit ("-" +:+ d) "-"%char (Str.chars d)
                ["M"%char] "i"%char "Mi").
  - apply (ParseFacts.parse_memory_unit _ d _ "Mi"); [|done|done|].
    { unfold Syntax.memory_units. set_solver. }
    change (EmptyString +:+ d +:+ "Mi") with (d +:+ "Mi").
    by apply (QuantityFacts.strip_with_unit d c r ["M"%char] "i"%char "Mi").
Qed.

(** Without decimals a quotient is printed as a whole number of at
    most 309 digits. *)
Lemma format_whole a b mb :
  PyNum.truediv a b = Ok mb ->
  exists (neg : bool) d u,
    NilZero.uint_of_string d = Some u
    /\ Z.of_nat (String.length d) <= 309
    /\ PyFormat.format_f 0 mb = (if neg then "-" else EmptyString) +:+ d.
Proof.
  intros Hq. pose proof (RatioFacts.truediv_finite _ _ _ Hq) as Hfin.
  destruct mb as [s|s| |s m e]; try done.
  - eexists s, (PyFormat.digits 0), _. split; [apply digits_uint|].
    split; [simpl; lia|done].
  - eexists s, (PyFormat.digits (PyFormat.scaled 0 m e)), _.
    split; [apply digits_uint|]. split; [|done].
    destruct (RoundFacts.truediv_bounded _ _ _ _ _ Hq) as [Hm He].
    pose proof (RoundFacts.digits_length _ 309 (RoundFacts.scaled_bound m e Hm He)).
    lia.
Qed.

End FormatFacts.

(** X16.  [format_memory] and [parse_memory] are not inverse to each
    other.  [format_memory] fails only with [OverflowError]; what it
    prints with the unit [Gi] has one decimal behind a point and is
    rejected by [parse_memory] with [ValueError]; what it prints with the
    unit [Mi] is a whole number, possibly signed, which [parse_memory]
    reads back as that many mebibytes. *)
Theorem format_memory_reparsed b :
  (forall e, format_memory b = Raise e -> e = OverflowError)
  /\ (forall s, format_memory b = Ok s ->
        (exists d u f,
            NilZero.uint_of_string d = Some u /\ PyInt.is_digit f = true
            /\ s = (d +:+ "." +:+ String f EmptyString) +:+ "Gi"
            /\ parse_memory s = Raise ValueError)
        \/ (exists (neg : bool) d u,
              NilZero.uint_of_string d = Some u
              /\ s = (if neg then "-" else EmptyString) +:+ d +:+ "Mi"
              /\ parse_memory s
                 = Ok ((if neg then - Z.of_uint u else Z.of_uint u) * 1024 ^ 2))).
Proof.
  unfold format_memory. split.
  - intros e [H|(gb & Hgb & H)]%ResultFacts.bind_raises.
    { by apply RatioFacts.truediv_raises in H as [[? _]|[_ ->]]. }
    destruct (PyNum.ge _ _); [done|].
    apply ResultFacts.bind_raises in H as [H|(mb & _ & H)]; [|done].
    by apply RatioFacts.truediv_raises in H as [[? _]|[_ ->]].
  - intros s (gb & Hgb & H)%ResultFacts.bind_ok.
    destruct (PyNum.ge _ _) eqn:Hge.
    + left. injection H as <-.
      apply RatioFacts.truediv_finite in Hgb.
      destruct (FormatFacts.ge_one_positive gb Hge Hgb) as (m & e & ->).
      destruct (FormatFacts.fixed_one (PyFormat.scaled 1 m e))
        as (d & u & f & Hd & Hf & Hfix).
      exists d, u, f. split; [done|]. split; [done|].
      assert (PyFormat.format_f 1 (S754_finite false m e)
              = d +:+ "." +:+ String f EmptyString) as -> by exact Hfix.
      split; [done|]. by eapply FormatFacts.decimal_point_rejected.
    + right. apply ResultFacts.bind_ok in H as (mb & Hmb & [= <-]).
      destruct (FormatFacts.format_whole _ _ mb Hmb) as (neg & d & u & Hd & Hlen & ->).
      exists neg, d, u. split; [done|].
      assert (((if neg then "-" else EmptyString) +:+ d) +:+ "Mi"
              = (if neg then "-" else EmptyString) +:+ d +:+ "Mi") as ->
        by (by destruct neg).
      split; [done|]. apply FormatFacts.whole_mebibytes; [done|].
      unfold PyInt.max_str_digits. lia.
Qed.

Lemma format_memory_reparsed_witness :
  format_memory 1610612736 = Ok "1.5Gi"
  /\ parse_memory "1.5Gi" = Raise ValueError.
Proof.
  assert (format_memory 1610612736 = Ok "1.5Gi") as Hs by (vm_compute; reflexivity).
  split; [exact Hs|].
  destruct (proj2 (format_memory_reparsed 1610612736) _ Hs)
    as [(d & u & f & _ & _ & _ & H)|(neg & d & u & _ & _ & H)]; [exact H|].
  exfalso. vm_compute in H. discriminate H.
Defined.

Module AdapterFacts.

Lemma metric_item_none it :
  metric_item it = None <-> raw_name it = None \/ raw_usage it = None.
Proof.
  unfold metric_item. destruct (raw_name it), (raw_usage it); intuition congruence.
Qed.

Lemma metric_items_none items :
  metric_items items = None
  <-> Exists (fun it => raw_name it = None \/ raw_usage it = None) items.
Proof.
  induction items as [|it items IH]; simpl.
  { split; [done|]. by intros ?%Exists_nil. }
  rewrite Exists_cons, <- IH, <- metric_item_none.
  destruct (metric_item it); [|by split; [left|]].
  destruct (metric_items items); intuition congruence.
Qed.

Lemma metric_items_some items ms :
  metric_items items = Some ms ->
  Forall2 (fun it m => raw_name it = Some (metric_name m)
                       /\ raw_usage it = Some (metric_usage m)) items ms.
Proof.
  revert ms. induction items as [|it items IH]; intros ms; simpl.
  { intros [= <-]. constructor. }
  destruct (metric_item it) as [m|] eqn:Hm; [|done].
  destruct (metric_items items) as [ms'|]; [|done].
  intros [= <-]. constructor; [|by apply IH].
  unfold metric_item in Hm.
  destruct (raw_name it), (raw_usage it); try done. by injection Hm as <-.
Qed.

Lemma no_metrics_zero_usage nodes pods out :
  mapM (node_record ∅ pods) nodes = Ok out ->
  Forall (fun r => cpu_usage r = 0 /\ memory_usage r = 0) out.
Proof.
  intros H%NodeFacts.mapM_Forall2.
  induction H as [|node r nodes out Hr _ IH]; constructor; [|done].
  apply NodeFacts.node_record_ok in Hr
    as (cap & alloc & conds & listed & c & m & p & cu & mu
        & _ & _ & _ & _ & _ & _ & _ & Hu & ->).
  rewrite lookup_empty in Hu. by destruct Hu as [-> ->].
Qed.

End AdapterFacts.

(** X17.  The metrics adapter of [main] under [get_node_metrics]: the
    listing fails when the call fails, when the response has no [items],
    or when a single item lacks its name or its usage; every such failure
    is swallowed, the nodes are then reported as if no metrics existed,
    all with usage 0.  A listing that succeeds keeps the items in order
    with their names and usages. *)
Theorem malformed_metrics_discarded nodes response pods :
  (adapter_list_node_metrics response = None <->
     match response with
     | None => True
     | Some data =>
         match raw_items data with
         | None => True
         | Some items =>
             Exists (fun it => raw_name it = None \/ raw_usage it = None) items
         end
     end)
  /\ (adapter_list_node_metrics response = None ->
      get_node_metrics (cluster_of nodes response pods)
      = get_node_metrics (cluster_of nodes None pods)
      /\ forall out,
           get_node_metrics (cluster_of nodes response pods) = Ok out ->
           Forall (fun r => cpu_usage r = 0 /\ memory_usage r = 0) out)
  /\ (forall ms,
        adapter_list_node_metrics response = Some ms ->
        exists data items,
          response = Some data /\ raw_items data = Some items
          /\ Forall2 (fun it m => raw_name it = Some (metric_name m)
                                  /\ raw_usage it = Some (metric_usage m))
               items ms).
Proof.
  split; [|split].
  - unfold adapter_list_node_metrics.
    destruct response as [data|]; [|done].
    destruct (raw_items data) as [items|]; [|done].
    apply AdapterFacts.metric_items_none.
  - intros Hnone. unfold get_node_metrics, cluster_of.
    cbn [list_node list_node_metrics list_pod_for_node]. rewrite Hnone.
    split; [done|]. destruct nodes as [l|e]; [|done].
    apply AdapterFacts.no_metrics_zero_usage.
  - intros ms. unfold adapter_list_node_metrics.
    destruct response as [data|]; [|done].
    destruct (raw_items data) as [items|] eqn:Hitems; [|done].
    intros H%AdapterFacts.metric_items_some. eauto.
Qed.

Lemma malformed_metrics_discarded_witness :
  let response :=
    Some {| raw_items :=
              Some [{| raw_name := Some "worker-1";
                       raw_usage := Some {[ "cpu" := "500m"; "memory" := "1Gi" ]} |};
                    {| raw_name := Some "bare"; raw_usage := None |}] |} in
  adapter_list_node_metrics response = None
  /\ exists out, get_node_metrics
                   (cluster_of (Ok [worker; bare_node]) response sample_pods)
                 = Ok out
                 /\ Forall (fun r => cpu_usage r = 0 /\ memory_usage r = 0) out.
Proof.
  intros response.
  assert (adapter_list_node_metrics response = None) as Hnone by reflexivity.
  split; [exact Hnone|].
  assert (exists out,
            get_node_metrics
              (cluster_of (Ok [worker; bare_node]) response sample_pods)
            = Ok out) as [out Hout] by (vm_compute; eauto).
  exists out. split; [exact Hout|].
  destruct (malformed_metrics_discarded (Ok [worker; bare_node]) response sample_pods)
    as (_ & H & _).
  exact (proj2 (H Hnone) out Hout).
Defined.

Module IdleFacts.

(** A usage of 0 is never above 75 percent, whatever the capacity. *)
Lemma above_75_idle c : above_75 0 c = Ok false.
Proof.
  unfold above_75. destruct (0 <? c) eqn:Hc; [|done].
  apply Z.ltb_lt in Hc. destruct c as [|p|p]; try lia.
  reflexivity.
Qed.

Lemma high_usage_idle n :
  cpu_usage n = 0 -> memory_usage n = 0 -> high_usage n = Ok false.
Proof.
  intros Hc Hm. unfold high_usage. rewrite Hc, Hm, above_75_idle. simpl.
  apply above_75_idle.
Qed.

Lemma filterM_none {A} (p : A -> result bool) l :
  Forall (fun x => p x = Ok false) l -> filterM p l = Ok [].
Proof.
  induction 1 as [|x l Hx _ IH]; [done|]. simpl. rewrite Hx. cbn [bind].
  by rewrite IH.
Qed.

Lemma filter_idle ft l :
  Forall (fun n => cpu_usage n = 0 /\ memory_usage n = 0) l ->
  filter_stage ft true l = Ok [].
Proof.
  intros H. unfold filter_stage. apply filterM_none.
  assert (Forall (fun n => high_usage n = Ok false) l) as Hall.
  { eapply Forall_impl; [exact H|]. intros n [? ?]. by apply high_usage_idle. }
  destruct ft; [|done].
  rewrite Forall_forall in *. intros n Hn%list_elem_of_In.
  apply List.filter_In in Hn as [Hn%list_elem_of_In _]. by apply Hall.
Qed.

End IdleFacts.

(** X18.  Without usage figures [--filter-high-usage] selects nothing:
    nodes whose CPU and memory usage are 0 never pass the test, so when
    the metrics listing is unavailable the pipeline of [main] returns the
    empty list for every cluster that can be read, whatever the other
    options are. *)
Theorem no_metrics_no_high_usage api recs ft sb :
  list_node_metrics api = None ->
  get_node_metrics api = Ok recs ->
  Forall (fun n => high_usage n = Ok false) recs
  /\ main ft true sb recs = Ok [].
Proof.
  intros Hnone Hrecs.
  assert (Forall (fun r => cpu_usage r = 0 /\ memory_usage r = 0) recs) as Hidle.
  { apply NodeFacts.get_node_metrics_ok in Hrecs as (nodes & _ & Hrecs).
    unfold metrics_map_of in Hrecs. rewrite Hnone in Hrecs.
    by apply AdapterFacts.no_metrics_zero_usage in Hrecs. }
  split.
  - eapply Forall_impl; [exact Hidle|]. intros n [? ?].
    by apply IdleFacts.high_usage_idle.
  - unfold main. rewrite (IdleFacts.filter_idle ft recs Hidle). cbn [bind].
    by destruct sb.
Qed.

Lemma no_metrics_no_high_usage_witness :
  let api := {| list_node := Ok [worker; bare_node];
                list_node_metrics := None;
                list_pod_for_node := sample_pods |} in
  exists recs, get_node_metrics api = Ok recs
               /\ length recs = 2%nat
               /\ main false true by_cpu recs = Ok [].
Proof.
  intros api.
  assert (exists recs, get_node_metrics api = Ok recs) as [recs Hrecs]
    by (vm_compute; eauto).
  exists recs. split; [exact Hrecs|]. split.
  - assert (Ok recs = get_node_metrics api) as E by done.
    vm_compute in E. by injection E as ->.
  - exact (proj2 (no_metrics_no_high_usage api recs false by_cpu eq_refl Hrecs)).
Defined.

Module StopFacts.
Import StrFacts.

Lemma app_stop {A} (l1 l2 pre suf : list A) c :
  l1 ++ c :: l2 = pre ++ suf -> c ∉ suf ->
  exists t0, pre = l1 ++ c :: t0 /\ l2 = t0 ++ suf.
Proof.
  revert pre. induction l1 as [|a l1 IH]; intros [|b pre] H Hc; simpl in *.
  - exfalso. apply Hc. rewrite <- H. left.
  - injection H as <- ->. by exists pre.
  - exfalso. apply Hc. rewrite <- H. right. apply elem_of_app. right. left.
  - injection H as <- H. destruct (IH _ H Hc) as (t0 & -> & ->). by exists t0.
Qed.

Lemma drop_while_stop p x c y :
  p c = false ->
  Str.drop_while p (x ++ c :: y) = Str.drop_while p x ++ c :: y.
Proof.
  intros Hc. induction x as [|a x IH]; simpl; [by rewrite Hc|].
  by destruct (p a).
Qed.

Lemma rstrip_stop a c t :
  Str.isspace c = false -> Str.rstrip (a ++ c :: t) = a ++ c :: Str.rstrip t.
Proof.
  intros Hc. unfold Str.rstrip, Str.lstrip.
  rewrite reverse_app, reverse_cons, <- app_assoc. simpl.
  rewrite (drop_while_stop _ _ _ _ Hc).
  rewrite reverse_app, reverse_cons, reverse_involutive, <- app_assoc. done.
Qed.

(** Behind leading digits, a character that is no digit, underscore or
    blank ends the number: [int] fails whatever follows. *)
Lemma int_stop d u c t :
  NilZero.uint_of_string d = Some u -> Suffix.letter c = true ->
  PyInt.int (d +:+ String c t) = Raise ValueError.
Proof.
  intros Hd Hc.
  by apply (SuffixFacts.int_digits_then_letter d u c (Str.chars t) (String c t)).
Qed.

Lemma strip_stop d u c t :
  NilZero.uint_of_string d = Some u -> Suffix.letter c = true ->
  exists t', Str.strip (d +:+ String c t) = d +:+ String c t'.
Proof.
  intros Hd (_ & _ & Hsp & _)%SuffixFacts.letter_facts.
  destruct (DigitFacts.digit_string_ends d u Hd) as [(c0 & r0 & Hc0 & Hdig) _].
  destruct (IntFacts.digit_not_space c0 Hdig) as (_ & Hsp0 & _).
  exists (Str.of_chars (Str.rstrip (Str.chars t))).
  unfold Str.strip, Str.lstrip. rewrite chars_app. simpl Str.chars at 2.
  change (Str.chars (String c t)) with (c :: Str.chars t).
  rewrite Hc0 at 1. rewrite <- app_comm_cons, (drop_while_head _ _ _ Hsp0).
  rewrite app_comm_cons, <- Hc0, (rstrip_stop _ _ _ Hsp).
  apply chars_inj. rewrite chars_of_chars, chars_app.
  change (Str.chars (String c ?x)) with (c :: Str.chars x).
  by rewrite chars_of_chars.
Qed.

(** A unit found at the end is cut off behind the stop character, and
    the rest is still no number. *)
Lemma unit_after_stop d u c t unit n :
  NilZero.uint_of_string d = Some u -> Suffix.letter c = true ->
  c ∉ Str.chars unit -> length (Str.chars unit) = n ->
  Str.endswith (d +:+ String c t) unit = true ->
  PyInt.int (Str.drop_last n (d +:+ String c t)) = Raise ValueError.
Proof.
  intros Hd Hc Hnot Hn (pre & Hpre)%endswith_true.
  rewrite chars_app in Hpre.
  change (Str.chars (String c t)) with (c :: Str.chars t) in Hpre.
  destruct (app_stop _ _ _ _ _ Hpre Hnot) as (t0 & -> & Ht).
  assert (d +:+ String c t = (d +:+ String c (Str.of_chars t0)) +:+ unit) as ->.
  { apply chars_inj. rewrite !chars_app.
    change (Str.chars (String c ?x)) with (c :: Str.chars x).
    by rewrite chars_of_chars, Ht, <- app_assoc. }
  rewrite (drop_last_app n _ unit Hn). by eapply int_stop.
Qed.

End StopFacts.

(** The stop character is none of the characters of a unit. *)
Ltac not_in_unit :=
  simpl; rewrite ?not_elem_of_cons; repeat split;
  solve [assumption | apply not_elem_of_nil].

(** X19.  Behind the leading digits of a quantity only digits,
    underscores, blanks and unit letters can follow: any other character
    there, such as the point of [0.5] or [1.5Gi] or the [e] of [1e3],
    makes [parse_cpu] and [parse_memory] fail with [ValueError], whatever
    comes after it. *)
Theorem stop_character_rejected d u c t :
  NilZero.uint_of_string d = Some u -> Suffix.letter c = true ->
  (c ∉ ["n"; "m"]%char -> parse_cpu (d +:+ String c t) = Raise ValueError)
  /\ (c ∉ ["K"; "M"; "G"; "i"]%char ->
      parse_memory (d +:+ String c t) = Raise ValueError).
Proof.
  intros Hd Hc. split; intros Hnot; rewrite !not_elem_of_cons in Hnot.
  - destruct Hnot as (Hn & Hm & _).
    pose proof (StopFacts.int_stop d u c t Hd Hc) as Hbare.
    assert (forall unit n,
              c ∉ Str.chars unit -> length (Str.chars unit) = n ->
              Str.endswith (d +:+ String c t) unit = true ->
              PyInt.int (Str.drop_last n (d +:+ String c t)) = Raise ValueError)
      as Hbranch by (intros; by eapply StopFacts.unit_after_stop).
    unfold parse_cpu.
    destruct (Str.endswith (d +:+ String c t) "n") eqn:E1.
    { rewrite (Hbranch "n" 1%nat); [done| |done..]. not_in_unit. }
    destruct (Str.endswith (d +:+ String c t) "m") eqn:E2.
    { rewrite (Hbranch "m" 1%nat); [done| |done..]. not_in_unit. }
    by rewrite Hbare.
  - destruct Hnot as (HK & HM & HG & Hi & _).
    destruct (StopFacts.strip_stop d u c t Hd Hc) as [t' Hstrip].
    pose proof (StopFacts.int_stop d u c t' Hd Hc) as Hbare.
    assert (forall unit n,
              c ∉ Str.chars unit -> length (Str.chars unit) = n ->
              Str.endswith (d +:+ String c t') unit = true ->
              PyInt.int (Str.drop_last n (d +:+ String c t')) = Raise ValueError)
      as Hbranch by (intros; by eapply StopFacts.unit_after_stop).
    unfold parse_memory. rewrite Hstrip.
    destruct (Str.endswith (d +:+ String c t') "Ki") eqn:E1.
    { rewrite (Hbranch "Ki" 2%nat); [done| |done..]. not_in_unit. }
    destruct (Str.endswith (d +:+ String c t') "Mi") eqn:E2.
    { rewrite (Hbranch "Mi" 2%nat); [done| |done..]. not_in_unit. }
    destruct (Str.endswith (d +:+ String c t') "Gi") eqn:E3.
    { rewrite (Hbranch "Gi" 2%nat); [done| |done..]. not_in_unit. }
    destruct (Str.endswith (d +:+ String c t') "K") eqn:E4.
    { rewrite (Hbranch "K" 1%nat); [done| |done..]. not_in_unit. }
    destruct (Str.endswith (d +:+ String c t') "M") eqn:E5.
    { rewrite (Hbranch "M" 1%nat); [done| |done..]. not_in_unit. }
    destruct (Str.endswith (d +:+ String c t') "G") eqn:E6.
    { rewrite (Hbranch "G" 1%nat); [done| |done..]. not_in_unit. }
    by rewrite Hbare.
Qed.

Lemma stop_character_rejected_witness :
  NilZero.uint_of_string "1" = Some (N.to_uint 1)
  /\ parse_cpu "1.5" = Raise ValueError
  /\ parse_memory "1.5Gi" = Raise ValueError.
Proof.
  assert (NilZero.uint_of_string "1" = Some (N.to_uint 1)) as Hd by reflexivity.
  assert (Suffix.letter "."%char = true) as Hc by reflexivity.
  split; [exact Hd|]. split.
  - apply (proj1 (stop_character_rejected "1" _ "."%char "5" Hd Hc)).
    intros H. repeat (apply elem_of_cons in H as [H|H]; [discriminate H|]).
    by apply elem_of_nil in H.
  - apply (proj2 (stop_character_rejected "1" _ "."%char "5Gi" Hd Hc)).
    intros H. repeat (apply elem_of_cons in H as [H|H]; [discriminate H|]).
    by apply elem_of_nil in H.
Defined.
